(** * Online code editor: share encoding, restore, composer and preview machine

    A shallow embedding of [OnlineCodeEditor.jsx].  JavaScript strings are
    sequences of UTF-16 code units; the platform functions the component
    calls ([btoa], [atob], [escape], [unescape], [encodeURIComponent],
    [decodeURIComponent], [JSON.stringify], [JSON.parse]) are written out
    after their standards (ECMA-262, its Annex B, and the HTML standard's
    forgiving-base64), because the component's behaviour is decided by them. *)

From Stdlib Require Import NArith ZArith List Ascii String Lia Bool ZifyNat.
From stdpp Require Import base option list gmap.
Import ListNotations.

Set Warnings "-register-all".
Local Open Scope N_scope.

(** * The program *)

(** ** Strings of code units *)

(** A JavaScript string: a list of UTF-16 code units. *)
Definition jsstring := list N.

(** Every element is a 16-bit code unit. *)
Definition code_units (s : jsstring) : Prop := Forall (fun c => c < 65536) s.

(** An ASCII literal as a JavaScript string. *)
Fixpoint lit (s : string) : jsstring :=
  match s with
  | EmptyString => []
  | String a r => N_of_ascii a :: lit r
  end.

(** Equality of strings, code unit by code unit. *)
Fixpoint string_eqb (a b : jsstring) : bool :=
  match a, b with
  | [], [] => true
  | x :: a', y :: b' => (x =? y) && string_eqb a' b'
  | _, _ => false
  end.

Definition in_range (lo hi c : N) : bool := (lo <=? c) && (c <=? hi).

Definition is_digit (c : N) : bool := in_range 48 57 c.
Definition is_upper (c : N) : bool := in_range 65 90 c.
Definition is_lower (c : N) : bool := in_range 97 122 c.
Definition is_alnum (c : N) : bool := is_digit c || is_upper c || is_lower c.

(** Membership of a code unit in a literal set of characters. *)
Definition one_of (set : string) (c : N) : bool := existsb (N.eqb c) (lit set).

(** *** Hexadecimal digits *)

(** The upper-case digit of a value below 16. *)
Definition hex_upper (d : N) : N := if d <? 10 then 48 + d else 55 + d.
(** The lower-case digit of a value below 16. *)
Definition hex_lower (d : N) : N := if d <? 10 then 48 + d else 87 + d.

(** The value of a hexadecimal digit of either case. *)
Definition hex_val (c : N) : option N :=
  if is_digit c then Some (c - 48)
  else if in_range 65 70 c then Some (c - 55)
  else if in_range 97 102 c then Some (c - 87)
  else None.

(** The value of two hexadecimal digits. *)
Definition hex2 (h l : N) : option N :=
  match hex_val h, hex_val l with
  | Some a, Some b => Some (16 * a + b)
  | _, _ => None
  end.

(** The value of four hexadecimal digits. *)
Definition hex4 (a b c d : N) : option N :=
  match hex2 a b, hex2 c d with
  | Some x, Some y => Some (256 * x + y)
  | _, _ => None
  end.

(** ** Base64: [btoa] and [atob] *)

(** The character of a sextet in the standard alphabet. *)
Definition b64_char (i : N) : N :=
  if i <? 26 then 65 + i
  else if i <? 52 then 71 + i
  else if i <? 62 then i - 4
  else if i =? 62 then 43
  else 47.

(** The sextet of a character of the standard alphabet. *)
Definition b64_index (c : N) : option N :=
  if is_upper c then Some (c - 65)
  else if is_lower c then Some (c - 71)
  else if is_digit c then Some (c + 4)
  else if c =? 43 then Some 62
  else if c =? 47 then Some 63
  else None.

(** Base64 of a byte sequence, three bytes to four characters, padded
    with [=]. *)
Fixpoint b64_encode (bs : list N) : jsstring :=
  match bs with
  | [] => []
  | [a] => [b64_char (a / 4); b64_char (a mod 4 * 16); 61; 61]
  | [a; b] =>
      [b64_char (a / 4); b64_char (a mod 4 * 16 + b / 16);
       b64_char (b mod 16 * 4); 61]
  | a :: b :: c :: rest =>
      b64_char (a / 4) :: b64_char (a mod 4 * 16 + b / 16)
      :: b64_char (b mod 16 * 4 + c / 64) :: b64_char (c mod 64)
      :: b64_encode rest
  end.

(** [btoa(data)]: [None] is the InvalidCharacterError thrown for a
    character above U+00FF. *)
Definition btoa (data : jsstring) : option jsstring :=
  if forallb (fun c => c <? 256) data then Some (b64_encode data) else None.

Definition is_ascii_whitespace (c : N) : bool :=
  (c =? 9) || (c =? 10) || (c =? 12) || (c =? 13) || (c =? 32).

(** Step 2 of forgiving-base64 decode: when the length is a multiple of
    four, one or two trailing [=] are removed. *)
Definition strip_padding (data : jsstring) : jsstring :=
  if N.of_nat (length data) mod 4 =? 0 then
    match rev data with
    | a :: b :: r =>
        if a =? 61 then if b =? 61 then rev r else rev (b :: r) else data
    | _ => data
    end
  else data.

(** Sextets to bytes; a final group of two or three sextets gives one or
    two bytes, its spare bits discarded. *)
Fixpoint b64_decode (ss : list N) : list N :=
  match ss with
  | s0 :: s1 :: s2 :: s3 :: rest =>
      (s0 * 4 + s1 / 16) :: (s1 mod 16 * 16 + s2 / 4)
      :: (s2 mod 4 * 64 + s3) :: b64_decode rest
  | [s0; s1; s2] => [s0 * 4 + s1 / 16; s1 mod 16 * 16 + s2 / 4]
  | [s0; s1] => [s0 * 4 + s1 / 16]
  | _ => []
  end.

(** [atob(data)]: [None] is the InvalidCharacterError of a failed
    forgiving-base64 decode. *)
Definition atob (data : jsstring) : option jsstring :=
  let d := strip_padding (List.filter (fun c => negb (is_ascii_whitespace c)) data) in
  if N.of_nat (length d) mod 4 =? 1 then None
  else option_map b64_decode (mapM b64_index d).

(** ** UTF-16 and UTF-8 *)

Definition is_high_surrogate (c : N) : bool := in_range 55296 56319 c.
Definition is_low_surrogate (c : N) : bool := in_range 56320 57343 c.
Definition is_surrogate (c : N) : bool := in_range 55296 57343 c.

(** UTF16SurrogatePairToCodePoint. *)
Definition pair_code_point (hi lo : N) : N :=
  (hi - 55296) * 1024 + (lo - 56320) + 65536.

(** UTF16EncodeCodePoint. *)
Definition utf16_encode (cp : N) : jsstring :=
  if cp <? 65536 then [cp]
  else [55296 + (cp - 65536) / 1024; 56320 + (cp - 65536) mod 1024].

(** The UTF-8 octets of a code point. *)
Definition utf8_encode (cp : N) : list N :=
  if cp <? 128 then [cp]
  else if cp <? 2048 then [192 + cp / 64; 128 + cp mod 64]
  else if cp <? 65536 then
    [224 + cp / 4096; 128 + cp / 64 mod 64; 128 + cp mod 64]
  else
    [240 + cp / 262144; 128 + cp / 4096 mod 64; 128 + cp / 64 mod 64;
     128 + cp mod 64].

Definition is_continuation (b : N) : bool := in_range 128 191 b.

(** The code point of a well-formed multi-octet UTF-8 sequence: shortest
    form, no surrogate, at most U+10FFFF. *)
Definition utf8_decode (octets : list N) : option N :=
  match octets with
  | [b0; b1] =>
      let cp := (b0 - 192) * 64 + (b1 - 128) in
      if in_range 192 223 b0 && is_continuation b1 && (128 <=? cp)
      then Some cp else None
  | [b0; b1; b2] =>
      let cp := (b0 - 224) * 4096 + (b1 - 128) * 64 + (b2 - 128) in
      if in_range 224 239 b0 && is_continuation b1 && is_continuation b2
         && (2048 <=? cp) && negb (is_surrogate cp)
      then Some cp else None
  | [b0; b1; b2; b3] =>
      let cp :=
        (b0 - 240) * 262144 + (b1 - 128) * 4096 + (b2 - 128) * 64 + (b3 - 128) in
      if in_range 240 247 b0 && is_continuation b1 && is_continuation b2
         && is_continuation b3 && (65536 <=? cp) && (cp <=? 1114111)
      then Some cp else None
  | _ => None
  end.

(** The UTF-8 octets of a string converted to scalar values, as a URL or
    a [Blob] takes it: an unpaired surrogate is replaced by U+FFFD. *)
Fixpoint usv_octets (s : jsstring) : list N :=
  match s with
  | [] => []
  | c :: rest =>
      match rest with
      | d :: rest' =>
          if is_high_surrogate c && is_low_surrogate d
          then utf8_encode (pair_code_point c d) ++ usv_octets rest'
          else utf8_encode (if is_surrogate c then 65533 else c) ++ usv_octets rest
      | [] => utf8_encode (if is_surrogate c then 65533 else c)
      end
  end.

(** ** URI escaping: [encodeURIComponent], [decodeURIComponent] *)

(** A percent escape of one octet, upper-case digits. *)
Definition pct (b : N) : jsstring := [37; hex_upper (b / 16); hex_upper (b mod 16)].

(** The characters [encodeURIComponent] leaves alone. *)
Definition uri_unescaped (c : N) : bool := is_alnum c || one_of "-_.!~*'()" c.

(** [encodeURIComponent(s)], the abstract operation Encode: [None] is the
    URIError thrown at an unpaired surrogate. *)
Fixpoint encodeURIComponent (s : jsstring) : option jsstring :=
  match s with
  | [] => Some []
  | c :: rest =>
      if uri_unescaped c then cons c <$> encodeURIComponent rest
      else if is_high_surrogate c then
        match rest with
        | d :: rest' =>
            if is_low_surrogate d then
              app (flat_map pct (utf8_encode (pair_code_point c d)))
                <$> encodeURIComponent rest'
            else None
        | [] => None
        end
      else if is_low_surrogate c then None
      else app (flat_map pct (utf8_encode c)) <$> encodeURIComponent rest
  end.

(** The number of leading one bits of an octet. *)
Definition leading_ones (b : N) : nat :=
  if b <? 128 then 0 else if b <? 192 then 1 else if b <? 224 then 2
  else if b <? 240 then 3 else if b <? 248 then 4 else if b <? 252 then 5
  else if b <? 254 then 6 else if b <? 255 then 7 else 8.

(** [n] continuation escapes [%XX] at the head of [s]. *)
Fixpoint read_continuation (n : nat) (s : jsstring) : option (list N) :=
  match n with
  | O => Some []
  | S m =>
      match s with
      | 37 :: h :: l :: r =>
          match hex2 h l with
          | Some b => cons b <$> read_continuation m r
          | None => None
          end
      | _ => None
      end
  end.

(** What Decode does at a [%], given the code units after it: the string
    it appends and how many of those code units it consumes. *)
Definition decode_escape (rest : jsstring) : option (jsstring * nat) :=
  match rest with
  | h :: l :: r =>
      match hex2 h l with
      | None => None
      | Some b =>
          let n := leading_ones b in
          match n with
          | O => Some ([b], 2%nat)
          | 2%nat | 3%nat | 4%nat =>
              match read_continuation (n - 1) r with
              | None => None
              | Some more =>
                  match utf8_decode (b :: more) with
                  | None => None
                  | Some v => Some (utf16_encode v, (2 + 3 * (n - 1))%nat)
                  end
              end
          | _ => None
          end
      end
  | _ => None
  end.

(** The loop of Decode with an empty set of preserved escapes; [skip]
    counts the code units already consumed by the last escape. *)
Fixpoint decode_loop (skip : nat) (s : jsstring) : option jsstring :=
  match s with
  | [] => Some []
  | c :: rest =>
      match skip with
      | S k => decode_loop k rest
      | O =>
          if c =? 37 then
            match decode_escape rest with
            | None => None
            | Some (out, adv) => app out <$> decode_loop adv rest
            end
          else cons c <$> decode_loop 0 rest
      end
  end.

(** [decodeURIComponent(s)]: [None] is a URIError. *)
Definition decodeURIComponent (s : jsstring) : option jsstring := decode_loop 0 s.

(** ** Annex B: [escape] and [unescape] *)

Definition escape_unescaped (c : N) : bool := is_alnum c || one_of "@*_+-./" c.

Definition escape_unit (c : N) : jsstring :=
  if escape_unescaped c then [c]
  else if c <? 256 then pct c
  else [37; 117; hex_upper (c / 4096); hex_upper (c / 256 mod 16);
        hex_upper (c / 16 mod 16); hex_upper (c mod 16)].

(** [escape(s)]. *)
Definition escape (s : jsstring) : jsstring := flat_map escape_unit s.

(** What [unescape] does at a [%], given the code units after it: the
    code unit it produces and how many code units it consumes, or [None]
    when the [%] stands for itself. *)
Definition unescape_at (rest : jsstring) : option (N * nat) :=
  match rest with
  | h :: l :: more =>
      if h =? 117 then
        match more with
        | b :: c :: d :: _ => (fun n => (n, 5%nat)) <$> hex4 l b c d
        | _ => None
        end
      else (fun n => (n, 2%nat)) <$> hex2 h l
  | _ => None
  end.

Fixpoint unescape_loop (skip : nat) (s : jsstring) : jsstring :=
  match s with
  | [] => []
  | c :: rest =>
      match skip with
      | S k => unescape_loop k rest
      | O =>
          if c =? 37 then
            match unescape_at rest with
            | Some (n, adv) => n :: unescape_loop adv rest
            | None => c :: unescape_loop 0 rest
            end
          else c :: unescape_loop 0 rest
      end
  end.

(** [unescape(s)]. *)
Definition unescape (s : jsstring) : jsstring := unescape_loop 0 s.

(** ** JSON *)

(** A parsed JSON value.  A number keeps its lexeme: its numeric value is
    a function of the lexeme, and nothing below inspects it. *)
Inductive json : Type :=
  | JNull
  | JBool (b : bool)
  | JNumber (lexeme : jsstring)
  | JString (s : jsstring)
  | JArray (items : list json)
  | JObject (props : list (jsstring * json)).

(** *** [JSON.stringify] of an object whose properties are strings *)

(** UnicodeEscape: [\u] and four lower-case digits. *)
Definition unicode_escape (c : N) : jsstring :=
  [92; 117; hex_lower (c / 4096); hex_lower (c / 256 mod 16);
   hex_lower (c / 16 mod 16); hex_lower (c mod 16)].

(** QuoteJSONString on one code point that is a single code unit. *)
Definition quote_unit (c : N) : jsstring :=
  if c =? 8 then [92; 98]
  else if c =? 9 then [92; 116]
  else if c =? 10 then [92; 110]
  else if c =? 12 then [92; 102]
  else if c =? 13 then [92; 114]
  else if c =? 34 then [92; 34]
  else if c =? 92 then [92; 92]
  else if (c <? 32) || is_surrogate c then unicode_escape c
  else [c].

(** The loop of QuoteJSONString over the code points of [s]: a surrogate
    pair is one code point and is copied, an unpaired surrogate is
    escaped. *)
Fixpoint quote_body (s : jsstring) : jsstring :=
  match s with
  | [] => []
  | c :: rest =>
      match rest with
      | d :: rest' =>
          if is_high_surrogate c && is_low_surrogate d
          then c :: d :: quote_body rest'
          else quote_unit c ++ quote_body rest
      | [] => quote_unit c
      end
  end.

Definition QuoteJSONString (s : jsstring) : jsstring := 34 :: quote_body s ++ [34].

(** The members of SerializeJSONObject, separated by commas. *)
Fixpoint serialize_members (props : list (jsstring * jsstring)) : jsstring :=
  match props with
  | [] => []
  | [(k, v)] => QuoteJSONString k ++ 58 :: QuoteJSONString v
  | (k, v) :: more =>
      QuoteJSONString k ++ 58 :: QuoteJSONString v ++ 44 :: serialize_members more
  end.

(** [JSON.stringify(o)] for an object [o] whose own properties, in
    creation order, are the strings [props]. *)
Definition JSON_stringify (props : list (jsstring * jsstring)) : jsstring :=
  123 :: serialize_members props ++ [125].

(** *** [JSON.parse] *)

Definition is_json_whitespace (c : N) : bool :=
  (c =? 9) || (c =? 10) || (c =? 13) || (c =? 32).

Fixpoint skip_ws (s : jsstring) : jsstring :=
  match s with
  | c :: rest => if is_json_whitespace c then skip_ws rest else s
  | [] => []
  end.

(** The character of a single-character escape. *)
Definition simple_escape (e : N) : option N :=
  if e =? 34 then Some 34
  else if e =? 92 then Some 92
  else if e =? 47 then Some 47
  else if e =? 98 then Some 8
  else if e =? 102 then Some 12
  else if e =? 110 then Some 10
  else if e =? 114 then Some 13
  else if e =? 116 then Some 9
  else None.

Definition prepend (c : N) (r : jsstring * jsstring) : jsstring * jsstring :=
  (c :: r.1, r.2).

(** The characters of a string after its opening quote, up to and
    including the closing quote: the string's value and what follows. *)
Fixpoint parse_string_body (s : jsstring) : option (jsstring * jsstring) :=
  match s with
  | [] => None
  | c :: rest =>
      if c =? 34 then Some ([], rest)
      else if c =? 92 then
        match rest with
        | e :: rest1 =>
            if e =? 117 then
              match rest1 with
              | h1 :: h2 :: h3 :: h4 :: rest2 =>
                  match hex4 h1 h2 h3 h4 with
                  | Some n => prepend n <$> parse_string_body rest2
                  | None => None
                  end
              | _ => None
              end
            else
              match simple_escape e with
              | Some x => prepend x <$> parse_string_body rest1
              | None => None
              end
        | [] => None
        end
      else if c <? 32 then None
      else prepend c <$> parse_string_body rest
  end.

(** The longest prefix of digits, and the rest. *)
Fixpoint span_digits (s : jsstring) : jsstring * jsstring :=
  match s with
  | c :: rest => if is_digit c then prepend c (span_digits rest) else ([], s)
  | [] => ([], [])
  end.

(** One or more digits. *)
Definition digits1 (s : jsstring) : option (jsstring * jsstring) :=
  match span_digits s with
  | ([], _) => None
  | r => Some r
  end.

(** The lexeme of a JSON number at the head of [s]. *)
Definition parse_number (s : jsstring) : option (jsstring * jsstring) :=
  let '(sign, s1) := match s with 45 :: r => ([45], r) | _ => ([], s) end in
  match
    match s1 with
    | 48 :: r => Some ([48], r)
    | _ => digits1 s1
    end
  with
  | None => None
  | Some (int, s2) =>
      match
        match s2 with
        | 46 :: r => (fun p : jsstring * jsstring => (46 :: p.1, p.2)) <$> digits1 r
        | _ => Some ([], s2)
        end
      with
      | None => None
      | Some (frac, s3) =>
          match s3 with
          | e :: r =>
              if (e =? 69) || (e =? 101) then
                let '(esign, r1) :=
                  match r with
                  | x :: r' => if (x =? 43) || (x =? 45) then ([x], r') else ([], r)
                  | [] => ([], r)
                  end in
                match digits1 r1 with
                | Some (ds, s4) => Some (sign ++ int ++ frac ++ e :: esign ++ ds, s4)
                | None => None
                end
              else Some (sign ++ int ++ frac, s3)
          | [] => Some (sign ++ int ++ frac, s3)
          end
      end
  end.

(** [s] without the prefix [p], when it starts with it. *)
Fixpoint strip_prefix (p s : jsstring) : option jsstring :=
  match p, s with
  | [], _ => Some s
  | a :: p', b :: s' => if a =? b then strip_prefix p' s' else None
  | _ :: _, [] => None
  end.

(** CreateDataProperty on the list of own properties: an existing key
    keeps its place and takes the new value. *)
Fixpoint set_prop (k : jsstring) (v : json) (props : list (jsstring * json))
  : list (jsstring * json) :=
  match props with
  | [] => [(k, v)]
  | (k', v') :: more =>
      if string_eqb k k' then (k, v) :: more else (k', v') :: set_prop k v more
  end.

(** A JSON value at the head of [s], after optional white space.  [fuel]
    bounds the nesting of the calls. *)
Fixpoint parse_value (fuel : nat) (s : jsstring) : option (json * jsstring) :=
  match fuel with
  | O => None
  | S f =>
      match skip_ws s with
      | [] => None
      | c :: rest =>
          if c =? 34 then
            (fun p : jsstring * jsstring => (JString p.1, p.2)) <$> parse_string_body rest
          else if c =? 91 then
            match skip_ws rest with
            | 93 :: r => Some (JArray [], r)
            | _ => (fun p : list json * jsstring => (JArray p.1, p.2)) <$> parse_elements f rest
            end
          else if c =? 123 then
            match skip_ws rest with
            | 125 :: r => Some (JObject [], r)
            | _ =>
                (fun p : list (jsstring * json) * jsstring => (JObject p.1, p.2))
                  <$> parse_members f [] rest
            end
          else if c =? 110 then (fun r => (JNull, r)) <$> strip_prefix (lit "ull") rest
          else if c =? 116 then (fun r => (JBool true, r)) <$> strip_prefix (lit "rue") rest
          else if c =? 102 then (fun r => (JBool false, r)) <$> strip_prefix (lit "alse") rest
          else
            (fun p : jsstring * jsstring => (JNumber p.1, p.2)) <$> parse_number (c :: rest)
      end
  end
with parse_elements (fuel : nat) (s : jsstring) : option (list json * jsstring) :=
  match fuel with
  | O => None
  | S f =>
      match parse_value f s with
      | None => None
      | Some (v, r) =>
          match skip_ws r with
          | 44 :: r' =>
              (fun p : list json * jsstring => (v :: p.1, p.2)) <$> parse_elements f r'
          | 93 :: r' => Some ([v], r')
          | _ => None
          end
      end
  end
with parse_members (fuel : nat) (acc : list (jsstring * json)) (s : jsstring)
  : option (list (jsstring * json) * jsstring) :=
  match fuel with
  | O => None
  | S f =>
      match skip_ws s with
      | 34 :: r0 =>
          match parse_string_body r0 with
          | None => None
          | Some (k, r1) =>
              match skip_ws r1 with
              | 58 :: r2 =>
                  match parse_value f r2 with
                  | None => None
                  | Some (v, r3) =>
                      match skip_ws r3 with
                      | 44 :: r4 => parse_members f (set_prop k v acc) r4
                      | 125 :: r4 => Some (set_prop k v acc, r4)
                      | _ => None
                      end
                  end
              | _ => None
              end
          end
      | _ => None
      end
  end.

(** [JSON.parse(text)]: [None] is the SyntaxError thrown for a text that
    is not one JSON value. *)
Definition JSON_parse (text : jsstring) : option json :=
  match parse_value (2 * length text + 1) text with
  | Some (v, r) => match skip_ws r with [] => Some v | _ => None end
  | None => None
  end.

(** ** The share encoding (lines 9-22) *)

(** The three buffers. *)
Record SourceBundle : Type := mkBundle {
  b_html : jsstring;
  b_css : jsstring;
  b_js : jsstring;
}.

(** The object literal [{ html, css, js }]. *)
Definition bundle_props (b : SourceBundle) : list (jsstring * jsstring) :=
  [(lit "html", b_html b); (lit "css", b_css b); (lit "js", b_js b)].

(** What [JSON.parse] builds for the text of such an object. *)
Definition bundle_json (b : SourceBundle) : json :=
  JObject [(lit "html", JString (b_html b)); (lit "css", JString (b_css b));
           (lit "js", JString (b_js b))].

(** [encodeState(s)]: any exception gives the empty string. *)
Definition encodeState (s : SourceBundle) : jsstring :=
  match encodeURIComponent (JSON_stringify (bundle_props s)) with
  | None => []
  | Some u =>
      match btoa (unescape u) with
      | None => []
      | Some t => t
      end
  end.

(** [decodeState(str)]: any exception gives [null]. *)
Definition decodeState (str : jsstring) : json :=
  match atob str with
  | None => JNull
  | Some bin =>
      match decodeURIComponent (escape bin) with
      | None => JNull
      | Some text =>
          match JSON_parse text with
          | None => JNull
          | Some v => v
          end
      end
  end.

(** ** Templates (lines 24-44 and 163-175) *)

Definition nl : jsstring := [10].
Definition dq : jsstring := [34].

Definition DEFAULT_html : jsstring :=
  concat
  [ lit "<!doctype html>"; nl;
    lit "<html>"; nl;
    lit "  <head>"; nl;
    lit "    <meta charset="; dq; lit "utf-8"; dq; lit " />"; nl;
    lit "    <meta name="; dq; lit "viewport"; dq; lit " content="; dq;
      lit "width=device-width, initial-scale=1"; dq; lit " />"; nl;
    lit "    <title>Playground</title>"; nl;
    lit "  </head>"; nl;
    lit "  <body>"; nl;
    lit "    <div id="; dq; lit "app"; dq; lit ">Hello "; [8212];
      lit " write HTML, CSS & JS!</div>"; nl;
    lit "  </body>"; nl;
    lit "</html>" ].

Definition DEFAULT_css : jsstring :=
  concat
  [ lit "/* Styles go here */"; nl;
    lit "body { font-family: system-ui, -apple-system, Segoe UI, Roboto, "; dq;
      lit "Helvetica Neue"; dq; lit ", Arial; padding: 24px; }"; nl;
    lit "#app { padding: 20px; border-radius: 8px; background: #f7f7f7; }"; nl ].

Definition DEFAULT_js : jsstring :=
  concat
  [ lit "// JS goes here"; nl;
    lit "const el = document.getElementById('app');"; nl;
    lit "el.innerHTML += '<p style="; dq; lit "color:green"; dq;
      lit ">JS ran</p>';"; nl ].

Definition DEFAULT_TEMPLATE : SourceBundle :=
  {| b_html := DEFAULT_html; b_css := DEFAULT_css; b_js := DEFAULT_js |}.

Definition starter : SourceBundle :=
  {| b_html :=
       concat
       [ lit "<!doctype html>"; nl;
         lit "<html><body><h1>Starter</h1><div id="; dq; lit "app"; dq;
           lit "></div></body></html>" ];
     b_css := lit "body{font-family:system-ui;padding:20px}";
     b_js :=
       lit "document.getElementById('app').innerText = 'Starter template loaded';" |}.

Definition reactPlay : SourceBundle :=
  {| b_html :=
       concat
       [ lit "<!doctype html>"; nl;
         lit "<html><body><div id="; dq; lit "root"; dq;
           lit "></div><script src="; dq;
           lit "https://unpkg.com/react@18/umd/react.development.js"; dq;
           lit "></script><script src="; dq;
           lit "https://unpkg.com/react-dom@18/umd/react-dom.development.js"; dq;
           lit "></script></body></html>" ];
     b_css := lit "/* react play css */";
     b_js :=
       lit "const e = React.createElement; ReactDOM.createRoot(document.getElementById('root')).render(e('h2', null, 'React in iframe'));" |}.

(** The properties the object literal [TEMPLATES] defines (lines
    163-175). *)
Definition TEMPLATES (name : jsstring) : option SourceBundle :=
  if string_eqb name (lit "default") then Some DEFAULT_TEMPLATE
  else if string_eqb name (lit "starter") then Some starter
  else if string_eqb name (lit "reactPlay") then Some reactPlay
  else None.

(** [TEMPLATES] is an ordinary object: a name it does not define is
    looked up in [Object.prototype], which has these members. *)
Definition Object_prototype : list jsstring :=
  [ lit "constructor"; lit "hasOwnProperty"; lit "isPrototypeOf";
    lit "propertyIsEnumerable"; lit "toLocaleString"; lit "toString";
    lit "valueOf"; lit "__proto__"; lit "__defineGetter__";
    lit "__defineSetter__"; lit "__lookupGetter__"; lit "__lookupSetter__" ].

(** The value of [TEMPLATES[name]] (line 178). *)
Inductive template_entry : Type :=
  | Preset (t : SourceBundle)
  | Inherited  (* a member of [Object.prototype]: truthy, with no [html], [css] or [js] *)
  | NoEntry.   (* [undefined] *)

Definition TEMPLATES_get (name : jsstring) : template_entry :=
  match TEMPLATES name with
  | Some t => Preset t
  | None =>
      if existsb (string_eqb name) Object_prototype then Inherited else NoEntry
  end.

(** ** Exceptions and [localStorage] *)

Inductive exception : Type := TypeError | SecurityError | QuotaExceededError.

(** The completion of an evaluation that may throw. *)
Inductive outcome (A : Type) : Type :=
  | Returned (a : A)
  | Thrown (e : exception).
Arguments Returned {A} a.
Arguments Thrown {A} e.

(** The storage area: whether the page may use it, how many code units
    it may hold, and what it holds. *)
Record Storage : Type := mkStorage {
  available : bool;
  quota : N;
  items : gmap jsstring jsstring;
}.

Definition stored_size (m : gmap jsstring jsstring) : N :=
  map_fold (fun k v n => n + N.of_nat (length k) + N.of_nat (length v)) 0 m.

(** [localStorage.getItem(key)]. *)
Definition getItem (key : jsstring) (s : Storage) : outcome (option jsstring) :=
  if available s then Returned (items s !! key) else Thrown SecurityError.

(** [localStorage.setItem(key, value)]. *)
Definition setItem (key value : jsstring) (s : Storage) : outcome Storage :=
  if available s then
    let m := <[key := value]> (items s) in
    if stored_size m <=? quota s
    then Returned {| available := true; quota := quota s; items := m |}
    else Thrown QuotaExceededError
  else Thrown SecurityError.

(** ** Restore on load (lines 46-63) *)

Inductive buffer : Type := Html | Css | Js.

Definition buffer_key (f : buffer) : jsstring :=
  match f with
  | Html => lit "html"
  | Css => lit "css"
  | Js => lit "js"
  end.

Fixpoint lookup_prop (k : jsstring) (props : list (jsstring * json)) : option json :=
  match props with
  | [] => None
  | (k', v) :: more => if string_eqb k k' then Some v else lookup_prop k more
  end.

(** [v?.html], [v?.css], [v?.js] on a parsed value; [None] is
    [undefined].  No prototype defines these three names, so only an
    object's own property gives a value. *)
Definition opt_chain (v : json) (f : buffer) : option json :=
  match v with
  | JObject props => lookup_prop (buffer_key f) props
  | _ => None
  end.

(** [x ?? y]. *)
Definition coalesce (x : option json) (y : outcome json) : outcome json :=
  match x with
  | None | Some JNull => y
  | Some v => Returned v
  end.

(** [initial.html], [initial.css], [initial.js]: the prop defaults to
    [{}] when it is not passed; reading a property of [null] throws. *)
Definition initial_prop (initial : option json) (f : buffer) : outcome (option json) :=
  match initial with
  | None => Returned None
  | Some JNull => Thrown TypeError
  | Some v => Returned (opt_chain v f)
  end.

(** [urlCode ? decodeState(urlCode) : null]. *)
Definition fromUrl (urlCode : option jsstring) : json :=
  match urlCode with
  | Some (c :: r) => decodeState (c :: r)
  | _ => JNull
  end.

(** The snapshot read of lines 52-59. *)
Definition fromStorage (storage : Storage) (storageKey : jsstring) : json :=
  match getItem storageKey storage with
  | Returned (Some (c :: r)) =>
      match JSON_parse (c :: r) with
      | Some v => v
      | None => JNull
      end
  | _ => JNull
  end.

Definition default_buffer (f : buffer) : jsstring :=
  match f with
  | Html => b_html DEFAULT_TEMPLATE
  | Css => b_css DEFAULT_TEMPLATE
  | Js => b_js DEFAULT_TEMPLATE
  end.

(** The initial value of one buffer:
    [fromUrl?.f ?? fromStorage?.f ?? initial.f ?? DEFAULT_TEMPLATE.f]. *)
Definition initial_buffer (url snapshot : json) (initial : option json) (f : buffer)
  : outcome json :=
  coalesce (opt_chain url f)
    (coalesce (opt_chain snapshot f)
       match initial_prop initial f with
       | Thrown e => Thrown e
       | Returned x => coalesce x (Returned (JString (default_buffer f)))
       end).

(** The three initial values, in the order the component evaluates them. *)
Record Restored : Type := mkRestored {
  r_html : json;
  r_css : json;
  r_js : json;
}.

Definition restore (urlCode : option jsstring) (storage : Storage)
    (storageKey : jsstring) (initial : option json) : outcome Restored :=
  let url := fromUrl urlCode in
  let snapshot := fromStorage storage storageKey in
  match initial_buffer url snapshot initial Html with
  | Thrown e => Thrown e
  | Returned h =>
      match initial_buffer url snapshot initial Css with
      | Thrown e => Thrown e
      | Returned c =>
          match initial_buffer url snapshot initial Js with
          | Thrown e => Thrown e
          | Returned j => Returned {| r_html := h; r_css := c; r_js := j |}
          end
      end
  end.

(** ** The composed document (lines 72-95) *)

(** The template literal of [srcDoc], with the three buffers spliced in. *)
Definition srcDoc (b : SourceBundle) : jsstring :=
  concat
  [ lit "<!doctype html>"; nl;
    lit "<html>"; nl;
    lit "  <head>"; nl;
    lit "    <meta charset="; dq; lit "utf-8"; dq; lit ">"; nl;
    lit "    <meta name="; dq; lit "viewport"; dq; lit " content="; dq;
      lit "width=device-width, initial-scale=1"; dq; lit ">"; nl;
    lit "    <style>"; b_css b; lit "</style>"; nl;
    lit "  </head>"; nl;
    lit "  <body>"; nl;
    lit "    "; b_html b; nl;
    lit "    <script>"; nl;
    lit "      try {"; nl;
    lit "        "; b_js b; nl;
    lit "      } catch (e) {"; nl;
    lit "        console.error(e);"; nl;
    lit "        const pre = document.createElement('pre');"; nl;
    lit "        pre.style.color = 'red';"; nl;
    lit "        pre.textContent = e.stack || e.toString();"; nl;
    lit "        document.body.appendChild(pre);"; nl;
    lit "      }"; nl;
    lit "    </script>"; nl;
    lit "  </body>"; nl;
    lit "</html>" ].

(** ** The component as a state machine *)

Inductive layout_mode : Type := SideBySide | Stacked | PreviewOnly.

(** A replacement of the content of the preview surface. *)
Inductive render : Type :=
  | TimerWrite (doc : jsstring)    (* the timeout of lines 100-107 wrote [doc] *)
  | RefreshWrite (doc : jsstring)  (* [refreshPreview] wrote [doc] *)
  | SrcdocLoad (doc : jsstring)    (* the frame's [srcdoc] attribute was set to [doc] *)
  | BlankLoad.                     (* the [srcdoc] attribute was removed *)

Inductive log_entry : Type :=
  | Warn (message : jsstring) (e : exception).

Record file : Type := mkFile {
  file_name : jsstring;
  file_type : jsstring;
  file_bytes : list N;
}.

(** The hooks of the component and the part of the browser it acts on. *)
Record Editor : Type := mkEditor {
  (* useState *)
  bundle : SourceBundle;
  layout : layout_mode;
  activeEditor : buffer;
  autoUpdate : bool;
  lastSavedAt : option jsstring;
  (* the pending timeout of the effect of lines 98-109: its deadline and
     the document its closure holds *)
  debounce : option (N * jsstring);
  (* the pending [setTimeout(refreshPreview, 50)] of line 189, with the
     document of the first render *)
  mount_refresh : option (N * jsstring);
  (* the [srcdoc] attribute React last committed on the frame *)
  srcdoc_attr : option jsstring;
  (* whether [iframeRef.current.contentWindow.document] can be reached *)
  surface : bool;
  (* the browser *)
  clock : N;
  storage : Storage;
  console : list log_entry;
  renders : list render;
  downloads : list file;
}.

Definition with_state (st : Editor) (b : SourceBundle) (l : layout_mode)
    (a : buffer) (auto : bool) (saved : option jsstring) : Editor :=
  {| bundle := b; layout := l; activeEditor := a; autoUpdate := auto;
     lastSavedAt := saved; debounce := debounce st;
     mount_refresh := mount_refresh st; srcdoc_attr := srcdoc_attr st;
     surface := surface st; clock := clock st; storage := storage st;
     console := console st; renders := renders st; downloads := downloads st |}.

Definition with_renders (st : Editor) (rs : list render) : Editor :=
  {| bundle := bundle st; layout := layout st; activeEditor := activeEditor st;
     autoUpdate := autoUpdate st; lastSavedAt := lastSavedAt st;
     debounce := debounce st; mount_refresh := mount_refresh st;
     srcdoc_attr := srcdoc_attr st; surface := surface st; clock := clock st;
     storage := storage st; console := console st; renders := rs;
     downloads := downloads st |}.

Definition with_timers (st : Editor) (d m : option (N * jsstring)) : Editor :=
  {| bundle := bundle st; layout := layout st; activeEditor := activeEditor st;
     autoUpdate := autoUpdate st; lastSavedAt := lastSavedAt st;
     debounce := d; mount_refresh := m;
     srcdoc_attr := srcdoc_attr st; surface := surface st; clock := clock st;
     storage := storage st; console := console st; renders := renders st;
     downloads := downloads st |}.

(** The value of the frame's [srcDoc] prop (line 278). *)
Definition srcdoc_prop (st : Editor) : option jsstring :=
  if autoUpdate st then None else Some (srcDoc (bundle st)).

(** Whether two values of the [srcDoc] prop are the same. *)
Definition same_prop (a b : option jsstring) : bool :=
  match a, b with
  | Some x, Some y => string_eqb x y
  | None, None => true
  | _, _ => false
  end.

(** React commits the frame's [srcDoc] prop: a changed attribute makes
    the frame load its new content. *)
Definition commit_frame (st : Editor) : Editor :=
  let attr := srcdoc_prop st in
  if same_prop attr (srcdoc_attr st) then st
  else
    {| bundle := bundle st; layout := layout st; activeEditor := activeEditor st;
       autoUpdate := autoUpdate st; lastSavedAt := lastSavedAt st;
       debounce := debounce st; mount_refresh := mount_refresh st;
       srcdoc_attr := attr; surface := surface st; clock := clock st;
       storage := storage st; console := console st;
       renders :=
         renders st ++ [match attr with Some d => SrcdocLoad d | None => BlankLoad end];
       downloads := downloads st |}.

(** The effect of lines 98-109 after a render whose previous
    dependencies were [old_doc] and [old_auto]: when a dependency
    changed, the cleanup clears the pending timeout and the effect runs
    again. *)
Definition run_effect (old_doc : jsstring) (old_auto : bool) (st : Editor) : Editor :=
  let doc := srcDoc (bundle st) in
  if string_eqb doc old_doc && Bool.eqb (autoUpdate st) old_auto then st
  else
    with_timers st
      (if autoUpdate st then Some (clock st + 300, doc) else None)
      (mount_refresh st).

(** A render of the component after its state went from [old] to [new]. *)
Definition rerender (old new : Editor) : Editor :=
  run_effect (srcDoc (bundle old)) (autoUpdate old) (commit_frame new).

(** The guarded write of lines 101-106 and 113-118. *)
Definition write_doc (r : render) (st : Editor) : Editor :=
  if surface st then with_renders st (renders st ++ [r]) else st.

(** [refreshPreview] (lines 112-119). *)
Definition refreshPreview (st : Editor) : Editor :=
  write_doc (RefreshWrite (srcDoc (bundle st))) st.

Definition set_buffer (f : buffer) (v : jsstring) (b : SourceBundle) : SourceBundle :=
  match f with
  | Html => {| b_html := v; b_css := b_css b; b_js := b_js b |}
  | Css => {| b_html := b_html b; b_css := v; b_js := b_js b |}
  | Js => {| b_html := b_html b; b_css := b_css b; b_js := v |}
  end.

Definition get_buffer (f : buffer) (b : SourceBundle) : jsstring :=
  match f with
  | Html => b_html b
  | Css => b_css b
  | Js => b_js b
  end.

Definition set_bundle (st : Editor) (b : SourceBundle) : Editor :=
  rerender st (with_state st b (layout st) (activeEditor st) (autoUpdate st)
                 (lastSavedAt st)).

(** The editor widget's [onChange] (lines 252-256): [v || ''] goes to
    the buffer of the active editor. *)
Definition onChange (v : option jsstring) (st : Editor) : Editor :=
  set_bundle st (set_buffer (activeEditor st) (default [] v) (bundle st)).

(** What [applyTemplate] leaves behind: the next state, or the three
    buffers set to [undefined], which is no [SourceBundle]. *)
Inductive template_result : Type :=
  | NextState (st : Editor)
  | UndefinedBuffers.

(** [applyTemplate] (lines 177-183).  For a member inherited from
    [Object.prototype] the test [!t] fails and [t.html], [t.css] and
    [t.js] are [undefined]. *)
Definition applyTemplate (name : jsstring) (st : Editor) : template_result :=
  match TEMPLATES_get name with
  | NoEntry => NextState st
  | Preset t => NextState (set_bundle st t)
  | Inherited => UndefinedBuffers
  end.

(** The options of the template selector (lines 237-240) and their
    values. *)
Inductive template_option : Type :=
  | ApplyTemplateOption | DefaultOption | StarterOption | ReactPlayOption.

Definition option_value (o : template_option) : jsstring :=
  match o with
  | ApplyTemplateOption => []
  | DefaultOption => lit "default"
  | StarterOption => lit "starter"
  | ReactPlayOption => lit "reactPlay"
  end.

(** The selector's [onChange] (line 236): [applyTemplate(e.target.value)].
    No option's value names a member of [Object.prototype], so the second
    branch is never taken. *)
Definition selectTemplate (o : template_option) (st : Editor) : Editor :=
  match applyTemplate (option_value o) st with
  | NextState st' => st'
  | UndefinedBuffers => st
  end.

(** The Clear button (line 242). *)
Definition clearAll (st : Editor) : Editor :=
  set_bundle st {| b_html := []; b_css := []; b_js := [] |}.

(** The Auto button (line 219). *)
Definition toggleAuto (st : Editor) : Editor :=
  rerender st (with_state st (bundle st) (layout st) (activeEditor st)
                 (negb (autoUpdate st)) (lastSavedAt st)).

Definition setLayout (l : layout_mode) (st : Editor) : Editor :=
  rerender st (with_state st (bundle st) l (activeEditor st) (autoUpdate st)
                 (lastSavedAt st)).

Definition setActiveEditor (a : buffer) (st : Editor) : Editor :=
  rerender st (with_state st (bundle st) (layout st) a (autoUpdate st)
                 (lastSavedAt st)).

(** [saveToLocal] (lines 122-130); [t1] and [t2] are the two readings of
    [new Date().toISOString()]. *)
Definition saveToLocal (storageKey t1 t2 : jsstring) (st : Editor) : Editor :=
  let payload :=
    JSON_stringify (bundle_props (bundle st) ++ [(lit "updatedAt", t1)]) in
  match setItem storageKey payload (storage st) with
  | Returned s =>
      rerender st
        {| bundle := bundle st; layout := layout st; activeEditor := activeEditor st;
           autoUpdate := autoUpdate st; lastSavedAt := Some t2;
           debounce := debounce st; mount_refresh := mount_refresh st;
           srcdoc_attr := srcdoc_attr st; surface := surface st; clock := clock st;
           storage := s; console := console st; renders := renders st;
           downloads := downloads st |}
  | Thrown e =>
      {| bundle := bundle st; layout := layout st; activeEditor := activeEditor st;
         autoUpdate := autoUpdate st; lastSavedAt := lastSavedAt st;
         debounce := debounce st; mount_refresh := mount_refresh st;
         srcdoc_attr := srcdoc_attr st; surface := surface st; clock := clock st;
         storage := storage st;
         console := console st ++ [Warn (lit "Could not save:") e];
         renders := renders st; downloads := downloads st |}
  end.

(** [downloadProject] (lines 152-160): the file handed to the browser.
    [new Blob([fileContent])] holds the UTF-8 octets of the string
    converted to scalar values. *)
Definition downloadProject (st : Editor) : Editor :=
  let fileContent := srcDoc (bundle st) in
  {| bundle := bundle st; layout := layout st; activeEditor := activeEditor st;
     autoUpdate := autoUpdate st; lastSavedAt := lastSavedAt st;
     debounce := debounce st; mount_refresh := mount_refresh st;
     srcdoc_attr := srcdoc_attr st; surface := surface st; clock := clock st;
     storage := storage st; console := console st; renders := renders st;
     downloads :=
       downloads st
       ++ [{| file_name := lit "playground.html"; file_type := lit "text/html";
              file_bytes := usv_octets fileContent |}] |}.

(** A timeout that is due at [now] is taken off its slot. *)
Definition due (now : N) (t : option (N * jsstring)) : option jsstring :=
  match t with
  | Some (deadline, doc) => if deadline <=? now then Some doc else None
  | None => None
  end.

Definition pending (now : N) (t : option (N * jsstring)) : option (N * jsstring) :=
  match due now t with
  | Some _ => None
  | None => t
  end.

(** [dt] milliseconds pass: the timeouts that fall due run, the mount
    refresh (which was set first and is due sooner) before the debounced
    write. *)
Definition advance (dt : N) (st : Editor) : Editor :=
  let now := clock st + dt in
  let st1 :=
    match due now (mount_refresh st) with
    | Some doc => write_doc (RefreshWrite doc) st
    | None => st
    end in
  let st2 :=
    match due now (debounce st) with
    | Some doc => write_doc (TimerWrite doc) st1
    | None => st1
    end in
  {| bundle := bundle st2; layout := layout st2; activeEditor := activeEditor st2;
     autoUpdate := autoUpdate st2; lastSavedAt := lastSavedAt st2;
     debounce := pending now (debounce st);
     mount_refresh := pending now (mount_refresh st);
     srcdoc_attr := srcdoc_attr st2; surface := surface st2; clock := now;
     storage := storage st2; console := console st2; renders := renders st2;
     downloads := downloads st2 |}.

(** The component just after its first render and effects (lines 61-69,
    98-109 and 186-192) with the bundle [b]; [from_url] tells whether
    [fromUrl] was truthy. *)
Definition mounted (b : SourceBundle) (from_url : bool) (s : Storage) (now : N) : Editor :=
  {| bundle := b; layout := SideBySide; activeEditor := Html; autoUpdate := true;
     lastSavedAt := None;
     debounce := Some (now + 300, srcDoc b);
     mount_refresh := if from_url then Some (now + 50, srcDoc b) else None;
     srcdoc_attr := None; surface := true; clock := now; storage := s;
     console := []; renders := []; downloads := [] |}.

(** ** The share address (lines 133-138) *)

(** The octets the application/x-www-form-urlencoded serializer leaves
    alone. *)
Definition urlencoded_unescaped (b : N) : bool := is_alnum b || one_of "*-._" b.

Definition urlencoded_byte (b : N) : jsstring :=
  if b =? 32 then [43]
  else if urlencoded_unescaped b then [b]
  else pct b.

(** A name or a value in a serialized query. *)
Definition urlencoded_string (s : jsstring) : jsstring :=
  flat_map urlencoded_byte (usv_octets s).

Fixpoint urlencoded_serialize (params : list (jsstring * jsstring)) : jsstring :=
  match params with
  | [] => []
  | [(k, v)] => urlencoded_string k ++ 61 :: urlencoded_string v
  | (k, v) :: more =>
      urlencoded_string k ++ 61 :: urlencoded_string v
      ++ 38 :: urlencoded_serialize more
  end.

(** [searchParams.set(name, value)]: the first pair of that name takes
    the value and the others of that name go; with no such pair one is
    appended. *)
Fixpoint set_param (name value : jsstring) (params : list (jsstring * jsstring))
  : list (jsstring * jsstring) :=
  match params with
  | [] => [(name, value)]
  | (k, v) :: more =>
      if string_eqb k name
      then (name, value) :: List.filter (fun kv => negb (string_eqb kv.1 name)) more
      else (k, v) :: set_param name value more
  end.

(** [window.location.href] as [new URL] reads it: the text before the
    query, the pairs of the query, and the fragment. *)
Record Location : Type := mkLocation {
  loc_base : jsstring;
  loc_params : list (jsstring * jsstring);
  loc_fragment : option jsstring;
}.

(** [u.toString()]. *)
Definition href (u : Location) : jsstring :=
  loc_base u
  ++ match loc_params u with
     | [] => []
     | ps => 63 :: urlencoded_serialize ps
     end
  ++ match loc_fragment u with
     | Some f => 35 :: f
     | None => []
     end.

(** [generateShareURL]. *)
Definition generateShareURL (location : Location) (st : Editor) : jsstring :=
  let code := encodeState (bundle st) in
  href {| loc_base := loc_base location;
          loc_params := set_param (lit "code") code (loc_params location);
          loc_fragment := loc_fragment location |}.

(** What reading a query does to a [+] that stands in it unescaped: the
    application/x-www-form-urlencoded parser turns it into a space. *)
Definition plus_as_space (s : jsstring) : jsstring :=
  map (fun c => if c =? 43 then 32 else c) s.

(** What can happen to the mounted component. *)
Inductive event : Type :=
  | Edit (v : option jsstring)
  | Template (o : template_option)
  | Clear
  | ToggleAuto
  | Refresh
  | Save (storageKey t1 t2 : jsstring)
  | Download
  | Layout (l : layout_mode)
  | Tab (a : buffer)
  | Wait (dt : N).

Definition step (e : event) (st : Editor) : Editor :=
  match e with
  | Edit v => onChange v st
  | Template o => selectTemplate o st
  | Clear => clearAll st
  | ToggleAuto => toggleAuto st
  | Refresh => refreshPreview st
  | Save key t1 t2 => saveToLocal key t1 t2 st
  | Download => downloadProject st
  | Layout l => setLayout l st
  | Tab a => setActiveEditor a st
  | Wait dt => advance dt st
  end.

Definition run (es : list event) (st : Editor) : Editor :=
  fold_left (fun s e => step e s) es st.

(** * The vocabulary of the statements *)

(** The sextets of a byte sequence, without padding. *)
Fixpoint sextets (bs : list N) : list N :=
  match bs with
  | [] => []
  | [a] => [a / 4; a mod 4 * 16]
  | [a; b] => [a / 4; a mod 4 * 16 + b / 16; b mod 16 * 4]
  | a :: b :: c :: rest =>
      a / 4 :: a mod 4 * 16 + b / 16 :: b mod 16 * 4 + c / 64 :: c mod 64
      :: sextets rest
  end.

(** The padding [b64_encode] ends with. *)
Definition padding (bs : list N) : jsstring :=
  match (length bs mod 3)%nat with
  | 1%nat => [61; 61]
  | 2%nat => [61]
  | _ => []
  end.

Definition bytes (bs : list N) : Prop := Forall (fun b => b < 256) bs.

(** A string whose surrogates all stand in pairs. *)
Inductive wf16 : jsstring -> Prop :=
  | wf16_nil : wf16 []
  | wf16_unit c s :
      c < 65536 -> is_surrogate c = false -> wf16 s -> wf16 (c :: s)
  | wf16_pair h l s :
      is_high_surrogate h = true -> is_low_surrogate l = true -> wf16 s ->
      wf16 (h :: l :: s).

(** The UTF-8 octets of the code points of a string. *)
Fixpoint utf8 (s : jsstring) : list N :=
  match s with
  | [] => []
  | c :: rest =>
      match rest with
      | d :: rest' =>
          if is_high_surrogate c && is_low_surrogate d
          then utf8_encode (pair_code_point c d) ++ utf8 rest'
          else utf8_encode c ++ utf8 rest
      | [] => utf8_encode c
      end
  end.

(** The keys and values of a list of properties are strings of code units. *)
Definition props_code_units (props : list (jsstring * jsstring)) : Prop :=
  Forall (fun kv => code_units kv.1 /\ code_units kv.2) props.

(** The object [JSON.parse] builds from members read left to right. *)
Definition add_props (props : list (jsstring * jsstring)) (acc : list (jsstring * json))
  : list (jsstring * json) :=
  fold_left (fun a kv => set_prop kv.1 (JString kv.2) a) props acc.

(** A bundle whose three buffers are strings of 16-bit code units. *)
Definition valid_bundle (b : SourceBundle) : Prop :=
  code_units (b_html b) /\ code_units (b_css b) /\ code_units (b_js b).

(** The text [encodeState] encodes. *)
Definition state_text (b : SourceBundle) : jsstring := JSON_stringify (bundle_props b).

(** The fixed text of the document around the three buffers. *)
Definition doc_prologue : jsstring :=
  concat
  [ lit "<!doctype html>"; nl;
    lit "<html>"; nl;
    lit "  <head>"; nl;
    lit "    <meta charset="; dq; lit "utf-8"; dq; lit ">"; nl;
    lit "    <meta name="; dq; lit "viewport"; dq; lit " content="; dq;
      lit "width=device-width, initial-scale=1"; dq; lit ">"; nl;
    lit "    " ].


(** What the [catch] clause does with the fault [e]. *)
Definition fault_handler : jsstring :=
  concat
  [ nl;
    lit "        console.error(e);"; nl;
    lit "        const pre = document.createElement('pre');"; nl;
    lit "        pre.style.color = 'red';"; nl;
    lit "        pre.textContent = e.stack || e.toString();"; nl;
    lit "        document.body.appendChild(pre);"; nl;
    lit "      " ].




(** [x] stands inside [l]. *)
Definition occurs_in (x l : jsstring) : Prop := exists a b, l = a ++ x ++ b.

(** The document as fixed text around the buffers. *)
Definition part_a : jsstring := doc_prologue ++ lit "<style>".
Definition part_b : jsstring :=
  concat [ lit "</style>"; nl; lit "  </head>"; nl; lit "  <body>"; nl; lit "    " ].
Definition part_c : jsstring :=
  concat [ nl; lit "    <script>"; nl; lit "      try {"; nl; lit "        " ].
Definition part_d : jsstring :=
  concat
  [ nl; lit "      } catch (e) {"; fault_handler; lit "}"; nl;
    lit "    </script>"; nl; lit "  </body>"; nl; lit "</html>" ].

(** The three buffers are well-formed UTF-16. *)
Definition well_formed_text (b : SourceBundle) : Prop :=
  wf16 (b_html b) /\ wf16 (b_css b) /\ wf16 (b_js b).

Definition ascii (s : jsstring) : Prop := Forall (fun c => c < 128) s.


(** The edit [v] changes the buffer of the active editor. *)
Definition changes (v : option jsstring) (st : Editor) : Prop :=
  default [] v <> get_buffer (activeEditor st) (bundle st).

(** Every edit of the run changes its buffer and comes less than 300ms
    after the event before it. *)
Fixpoint burst (es : list (N * option jsstring)) (st : Editor) : Prop :=
  match es with
  | [] => True
  | (gap, v) :: more =>
      gap < 300 /\ changes v (advance gap st)
      /\ burst more (onChange v (advance gap st))
  end.

(** The frame's attribute agrees with the mode. *)
Definition attr_in_step (st : Editor) : Prop := srcdoc_attr st = srcdoc_prop st.

(** The states the component reaches from its mount. *)
Definition reachable (st : Editor) : Prop :=
  exists b from_url s now es, st = run es (mounted b from_url s now).

(** The preview surface is there, and the frame's attribute agrees with
    the mode. *)
Definition well_formed (st : Editor) : Prop :=
  surface st = true /\ attr_in_step st.

(** The write the pending mount refresh is going to make. *)
Definition mount_write (st : Editor) : list render :=
  match mount_refresh st with
  | Some (_, doc) => [RefreshWrite doc]
  | None => []
  end.

(** A pending mount refresh is due within 50ms, and not after a pending
    debounced write. *)
Definition refresh_first (st : Editor) : Prop :=
  forall m doc, mount_refresh st = Some (m, doc) ->
    m <= clock st + 50 /\ forall t d, debounce st = Some (t, d) -> m <= t.

(** The milliseconds a run of waits takes. *)
Definition elapsed (ws : list N) : N := fold_right N.add 0 ws.

(** The debounced write of [doc] is pending for the time [t]; [shown] is
    what has been rendered, with the write of the mount refresh counted
    in when that is still to run. *)
Definition pending_write (t : N) (doc : jsstring) (shown : list render) (st : Editor)
  : Prop :=
  surface st = true /\ debounce st = Some (t, doc) /\ clock st < t
  /\ (forall m d, mount_refresh st = Some (m, d) -> m <= t)
  /\ renders st ++ mount_write st = shown.

(** Automatic mode just after an edit: the debounced write of the
    current document is due in 300ms. *)
Definition typing (shown : list render) (st : Editor) : Prop :=
  autoUpdate st = true /\ srcdoc_attr st = None
  /\ (forall m d, mount_refresh st = Some (m, d) -> m <= clock st + 50)
  /\ pending_write (clock st + 300) (srcDoc (bundle st)) shown st.

(** An empty storage area with room for [q] code units. *)
Definition empty_storage (q : N) : Storage :=
  {| available := true; quota := q; items := ∅ |}.


(** Three edits 100ms and 250ms apart on the freshly mounted default
    bundle. *)
Definition typing_start : Editor := mounted DEFAULT_TEMPLATE false (empty_storage 0) 0.
Definition typing_first : option jsstring := Some (lit "<h1>a</h1>").
Definition typing_rest : list (N * option jsstring) :=
  [(100, Some (lit "<h1>ab</h1>")); (250, Some (lit "<h1>abc</h1>"))].

(** The default bundle on a page opened from a share token. *)
Definition share_page : Editor := mounted DEFAULT_TEMPLATE true (empty_storage 0) 0.

(** The default bundle, first written by the debounced effect, then
    switched to manual mode. *)
Definition manual_start : Editor := toggleAuto (advance 300 typing_start).

(** The octets of the file the last download handed to the browser. *)
Definition exported (st : Editor) : option (list N) :=
  file_bytes <$> last (downloads (downloadProject st)).

(** Two bundles whose markup is an unpaired surrogate and U+FFFD. *)
Definition bundle_lone : SourceBundle :=
  {| b_html := [55296]; b_css := []; b_js := [] |}.
Definition bundle_replaced : SourceBundle :=
  {| b_html := [65533]; b_css := []; b_js := [] |}.

(** The text [saveToLocal] stores. *)
Definition save_payload (t1 : jsstring) (st : Editor) : jsstring :=
  JSON_stringify (bundle_props (bundle st) ++ [(lit "updatedAt", t1)]).

(** The storage area cannot take [value] under [key]: the page may not
    use it, or its quota would be exceeded. *)
Definition refuses (key value : jsstring) (s : Storage) : Prop :=
  available s = false \/ quota s < stored_size (<[key := value]> (items s)).

(** The state after a warning was logged, and nothing else happened. *)
Definition warned (e : exception) (st : Editor) : Editor :=
  {| bundle := bundle st; layout := layout st; activeEditor := activeEditor st;
     autoUpdate := autoUpdate st; lastSavedAt := lastSavedAt st;
     debounce := debounce st; mount_refresh := mount_refresh st;
     srcdoc_attr := srcdoc_attr st; surface := surface st; clock := clock st;
     storage := storage st;
     console := console st ++ [Warn (lit "Could not save:") e];
     renders := renders st; downloads := downloads st |}.

Definition storageKey : jsstring := lit "online-code-editor-v1".

(** The source [v] holds the value [x] for the buffer [f]: the field is
    there and is not [null]. *)
Definition carries (v : json) (f : buffer) (x : json) : Prop :=
  opt_chain v f = Some x /\ x <> JNull.

(** The source [v] holds nothing for the buffer [f]: the field is
    missing or [null]. *)
Definition lacks (v : json) (f : buffer) : Prop :=
  opt_chain v f = None \/ opt_chain v f = Some JNull.

(** Example sources: a token whose object has only [html], a snapshot
    with only [css], and an [initial] prop with only [js]. *)
Definition token_html_only : jsstring := lit "eyJodG1sIjoieCJ9".
Definition snapshot_css_only : Storage :=
  {| available := true; quota := 5000000;
     items := {[ storageKey :=
       concat [lit "{"; dq; lit "css"; dq; lit ":"; dq; lit "p{}"; dq; lit "}"] ]} |}.
Definition initial_js_only : json := JObject [(lit "js", JString (lit "go()"))].

(** The three fields of one source, read together. *)
Definition whole (v : json) : option json * option json * option json :=
  (opt_chain v Html, opt_chain v Css, opt_chain v Js).

(** The bundle resolved as a whole by priority: the token's when it
    decodes, else the snapshot's when it is there and parses, else the
    built-in default. *)
Definition spec_restore (urlCode : option jsstring) (s : Storage) (key : jsstring)
  : option json * option json * option json :=
  match fromUrl urlCode with
  | JNull =>
      match fromStorage s key with
      | JNull => whole (bundle_json DEFAULT_TEMPLATE)
      | snapshot => whole snapshot
      end
  | url => whole url
  end.

Definition restored_fields (r : Restored) : option json * option json * option json :=
  (Some (r_html r), Some (r_css r), Some (r_js r)).

(** A snapshot with all three fields. *)
Definition snapshot_full : Storage :=
  {| available := true; quota := 5000000;
     items := {[ storageKey :=
       concat [lit "{"; dq; lit "html"; dq; lit ":"; dq; lit "a"; dq; lit ",";
               dq; lit "css"; dq; lit ":"; dq; lit "b"; dq; lit ",";
               dq; lit "js"; dq; lit ":"; dq; lit "c"; dq; lit "}"] ]} |}.

(** All three buffers are carried by the source [v]. *)
Definition complete (v : json) (h c j : json) : Prop :=
  carries v Html h /\ carries v Css c /\ carries v Js j.

(** A full token, and a snapshot cut short. *)
Definition token_full : jsstring :=
  lit "eyJodG1sIjoiPGI+eDwvYj4iLCJjc3MiOiJie2NvbG9yOnJlZH0iLCJqcyI6ImYoKSJ9".
Definition snapshot_truncated : Storage :=
  {| available := true; quota := 5000000;
     items := {[ storageKey :=
       concat [lit "{"; dq; lit "html"; dq; lit ":"; dq; lit "<p>hel"] ]} |}.

(** A character of standard base64: a letter, a digit, [+], [/] or the
    padding [=]. *)
Definition base64_char (c : N) : bool := is_alnum c || one_of "+/=" c.

(** An unreserved character of RFC 3986, which a URL carries unescaped
    and unchanged: a letter, a digit, [-], [.], [_] or [~]. *)
Definition url_unreserved (c : N) : bool := is_alnum c || one_of "-._~" c.

(** A character of an escaped query value: a letter, a digit, or the
    [%] that starts an escape. *)
Definition escaped_char (c : N) : bool := is_alnum c || (c =? 37).

(** The bundle whose markup is [<p>]. *)
Definition bundle_p : SourceBundle := {| b_html := lit "<p>"; b_css := []; b_js := [] |}.

(** A bundle with a line break, a quote, a backslash, a character
    outside ASCII, a surrogate pair and an unpaired surrogate. *)
Definition bundle_mixed : SourceBundle :=
  {| b_html := lit "<p>hi</p>";
     b_css := lit "a{b:c}";
     b_js := [100; 233; 8364; 55357; 56832; 55357; 34; 10; 92] |}.

(** The object [restore] builds from a bundle of strings. *)
Definition restored (b : SourceBundle) : Restored :=
  {| r_html := JString (b_html b); r_css := JString (b_css b);
     r_js := JString (b_js b) |}.

(** A character [atob] neither skips nor decodes. *)
Definition foreign (c : N) : Prop :=
  base64_char c = false /\ is_ascii_whitespace c = false.

Definition without_whitespace (s : jsstring) : jsstring :=
  List.filter (fun c => negb (is_ascii_whitespace c)) s.

(** The token of [bundle_p], broken in two lines with a trailing space. *)
Definition token_wrapped : jsstring :=
  lit "eyJodG1sIjoiPHA+IiwiY3Nz" ++ nl ++ lit "IjoiIiwianMiOiIifQ== ".

(** The storage area gives no snapshot under [key]: it cannot be read,
    holds nothing or the empty string there, or holds a text that is not
    JSON. *)
Definition no_snapshot (s : Storage) (key : jsstring) : Prop :=
  available s = false \/ items s !! key = None
  \/ items s !! key = Some ([] : jsstring)
  \/ exists raw, items s !! key = Some raw /\ JSON_parse raw = None.

(** A storage area the page may not use. *)
Definition storage_denied : Storage :=
  {| available := false; quota := 0; items := ∅ |}.

(** A parsed value that is not an object. *)
Definition not_object (v : json) : Prop :=
  match v with
  | JObject _ => False
  | _ => True
  end.

(** The buffer [f] is supplied by the token or by the snapshot. *)
Definition supplied (url snapshot : json) (f : buffer) : Prop :=
  exists x, carries url f x \/ (lacks url f /\ carries snapshot f x).

(** The properties of the object [saveToLocal] stores. *)
Definition payload_props (t1 : jsstring) (b : SourceBundle) : list (jsstring * jsstring) :=
  bundle_props b ++ [(lit "updatedAt", t1)].

(** The storage area takes [value] under [key]. *)
Definition accepts (key value : jsstring) (s : Storage) : Prop :=
  available s = true /\ stored_size (<[key := value]> (items s)) <= quota s.

(** The mounted default bundle on an empty storage area with room. *)
Definition saving_start : Editor :=
  mounted DEFAULT_TEMPLATE false (empty_storage 5000000) 0.

(** The events that are no edit, no mode switch and no passing of time. *)
Definition passive (e : event) : Prop :=
  match e with
  | Layout _ | Tab _ | Download | Save _ _ _ => True
  | _ => False
  end.

(** A pending debounced write exists only in automatic mode, holds the
    document of the current bundle, and is due within the next 300ms. *)
Definition timer_fresh (st : Editor) : Prop :=
  forall t d, debounce st = Some (t, d) ->
    autoUpdate st = true /\ d = srcDoc (bundle st) /\ clock st < t <= clock st + 300.

Definition named (name : jsstring) (kv : jsstring * jsstring) : bool :=
  string_eqb kv.1 name.

(** * Proofs *)

(** [lia] with division and remainder by constants. *)
Ltac Zify.zify_post_hook ::= Z.to_euclidean_division_equations.

(** ** Arithmetic on code units *)

(** Turns boolean comparisons of the goal and the hypotheses into
    propositions [lia] reads. *)
Ltac bool_arith :=
  unfold is_alnum, is_digit, is_upper, is_lower, is_continuation,
    is_high_surrogate, is_low_surrogate, is_surrogate, in_range in *;
  repeat match goal with
  | H : _ && _ = true |- _ => apply andb_true_iff in H; destruct H
  | H : _ || _ = false |- _ => apply orb_false_iff in H; destruct H
  | H : _ && _ = false |- _ => apply andb_false_iff in H; destruct H
  | H : _ || _ = true |- _ => apply orb_true_iff in H; destruct H
  | H : negb _ = true |- _ => apply negb_true_iff in H
  | H : negb _ = false |- _ => apply negb_false_iff in H
  | H : (_ <=? _) = true |- _ => apply N.leb_le in H
  | H : (_ <=? _) = false |- _ => apply N.leb_gt in H
  | H : (_ <? _) = true |- _ => apply N.ltb_lt in H
  | H : (_ <? _) = false |- _ => apply N.ltb_ge in H
  | H : (_ =? _) = true |- _ => apply N.eqb_eq in H
  | H : (_ =? _) = false |- _ => apply N.eqb_neq in H
  end.

(** A goal that is a boolean combination of comparisons, as arithmetic. *)
Ltac bool_goal :=
  unfold is_alnum, is_digit, is_upper, is_lower, is_continuation,
    is_high_surrogate, is_low_surrogate, is_surrogate, in_range, one_of;
  cbn [lit existsb N_of_ascii N_of_digits];
  rewrite ?orb_true_iff, ?andb_true_iff, ?orb_false_iff, ?andb_false_iff,
    ?negb_true_iff, ?negb_false_iff, ?orb_true_iff, ?andb_true_iff,
    ?orb_false_iff, ?andb_false_iff, ?N.leb_le, ?N.ltb_lt, ?N.eqb_eq,
    ?N.leb_gt, ?N.ltb_ge, ?N.eqb_neq.

(** Splits on every boolean comparison the goal tests. *)
Ltac split_tests :=
  repeat match goal with
  | |- context [if ?b then _ else _] =>
      let E := fresh "E" in destruct b eqn:E
  end.

Lemma ltb_true (a b : N) : a < b -> (a <? b) = true.
Proof. apply N.ltb_lt. Qed.

Lemma ltb_false (a b : N) : b <= a -> (a <? b) = false.
Proof. apply N.ltb_ge. Qed.

Lemma eqb_false (a b : N) : a <> b -> (a =? b) = false.
Proof. apply N.eqb_neq. Qed.

Lemma in_range_true (lo hi c : N) : lo <= c <= hi -> in_range lo hi c = true.
Proof.
  intros [H1 H2]. unfold in_range.
  apply andb_true_iff. split; apply N.leb_le; assumption.
Qed.

Lemma in_range_false (lo hi c : N) : c < lo \/ hi < c -> in_range lo hi c = false.
Proof.
  intros H. unfold in_range. apply andb_false_iff.
  destruct H; [left | right]; apply N.leb_gt; assumption.
Qed.

Lemma string_eqb_eq (a b : jsstring) : string_eqb a b = true <-> a = b.
Proof.
  revert b. induction a as [|x a IH]; intros [|y b]; cbn [string_eqb];
    try (split; [discriminate | discriminate]); [tauto|].
  rewrite andb_true_iff, N.eqb_eq, IH. split.
  - intros [-> ->]. reflexivity.
  - intros H. injection H as -> ->. auto.
Qed.

Lemma string_eqb_refl (a : jsstring) : string_eqb a a = true.
Proof. apply string_eqb_eq. reflexivity. Qed.

Lemma string_eqb_neq (a b : jsstring) : a <> b -> string_eqb a b = false.
Proof.
  intros H. destruct (string_eqb a b) eqn:E; [|reflexivity].
  apply string_eqb_eq in E. contradiction.
Qed.

(** ** Base64 *)

(** Induction on a list three elements at a time. *)
Lemma list_ind3 {A} (P : list A -> Prop) :
  P [] -> (forall a, P [a]) -> (forall a b, P [a; b]) ->
  (forall a b c rest, P rest -> P (a :: b :: c :: rest)) ->
  forall l, P l.
Proof.
  intros H0 H1 H2 H3.
  fix IH 1. intros [|a [|b [|c rest]]].
  - exact H0.
  - apply H1.
  - apply H2.
  - apply H3. apply IH.
Qed.

Lemma b64_index_char (i : N) : i < 64 -> b64_index (b64_char i) = Some i.
Proof.
  intros Hi. unfold b64_char. split_tests; unfold b64_index;
    split_tests; bool_arith; try lia; f_equal; lia.
Qed.

Lemma b64_char_alphabet (i : N) :
  i < 64 -> is_alnum (b64_char i) || one_of "+/" (b64_char i) = true.
Proof.
  intros Hi. unfold b64_char. split_tests; bool_arith; bool_goal; cbn; lia.
Qed.

Lemma b64_char_not_pad (i : N) : i < 64 -> (b64_char i =? 61) = false.
Proof.
  intros Hi. apply N.eqb_neq. unfold b64_char. split_tests; bool_arith; lia.
Qed.

Lemma b64_char_not_space (i : N) :
  i < 64 -> is_ascii_whitespace (b64_char i) = false.
Proof.
  intros Hi. unfold is_ascii_whitespace, b64_char.
  split_tests; bool_arith; bool_goal; lia.
Qed.

Lemma bytes_cons3 a b c rest :
  bytes (a :: b :: c :: rest) -> a < 256 /\ b < 256 /\ c < 256 /\ bytes rest.
Proof.
  intros H. inversion H as [|? ? Ha H1]; subst.
  inversion H1 as [|? ? Hb H2]; subst.
  inversion H2 as [|? ? Hc H3]; subst. auto.
Qed.

Lemma padding_cons3 a b c rest : padding (a :: b :: c :: rest) = padding rest.
Proof.
  unfold padding.
  change (length (a :: b :: c :: rest)) with (3 + length rest)%nat.
  replace (3 + length rest)%nat with (length rest + 1 * 3)%nat by lia.
  rewrite Nat.Div0.mod_add. reflexivity.
Qed.

Lemma b64_encode_split (bs : list N) :
  b64_encode bs = map b64_char (sextets bs) ++ padding bs.
Proof.
  induction bs as [| a | a b | a b c rest IH] using list_ind3; try reflexivity.
  rewrite padding_cons3. cbn [b64_encode sextets map app]. rewrite IH. reflexivity.
Qed.

Lemma sextets_bound (bs : list N) : bytes bs -> Forall (fun s => s < 64) (sextets bs).
Proof.
  induction bs as [| a | a b | a b c rest IH] using list_ind3; intros H.
  - constructor.
  - inversion H; subst. cbn [sextets].
    repeat (apply Forall_cons_2; [lia|]). constructor.
  - inversion H as [|? ? Ha H1]; subst. inversion H1; subst. cbn [sextets].
    repeat (apply Forall_cons_2; [lia|]). constructor.
  - apply bytes_cons3 in H. destruct H as (Ha & Hb & Hc & Hr).
    cbn [sextets]. repeat (apply Forall_cons_2; [lia|]). apply IH, Hr.
Qed.

Lemma b64_decode_sextets (bs : list N) : bytes bs -> b64_decode (sextets bs) = bs.
Proof.
  induction bs as [| a | a b | a b c rest IH] using list_ind3; intros H.
  - reflexivity.
  - inversion H; subst. cbn [sextets b64_decode]. f_equal. lia.
  - inversion H as [|? ? Ha H1]; subst. inversion H1; subst.
    cbn [sextets b64_decode]. f_equal; [lia|]. f_equal. lia.
  - apply bytes_cons3 in H. destruct H as (Ha & Hb & Hc & Hr).
    cbn [sextets b64_decode]. rewrite IH by exact Hr.
    f_equal; [lia|]. f_equal; [lia|]. f_equal. lia.
Qed.

Lemma sextets_length (bs : list N) :
  ((length (sextets bs) + length (padding bs)) mod 4)%nat = 0%nat.
Proof.
  induction bs as [| a | a b | a b c rest IH] using list_ind3; try reflexivity.
  rewrite padding_cons3. cbn [sextets length].
  etransitivity; [|exact IH].
  change (S (S (S (S (length (sextets rest)))))) with (4 + length (sextets rest))%nat.
  rewrite <- Nat.add_assoc, Nat.add_comm.
  change 4%nat with (1 * 4)%nat at 1. apply Nat.Div0.mod_add.
Qed.

Lemma mapM_index_chars (ss : list N) :
  Forall (fun s => s < 64) ss -> mapM b64_index (map b64_char ss) = Some ss.
Proof.
  induction 1 as [|s ss Hs _ IH]; [reflexivity|].
  cbn [map mapM]. rewrite b64_index_char by exact Hs.
  cbn. rewrite IH. reflexivity.
Qed.

Lemma filter_chars (ss : list N) (pad : jsstring) :
  Forall (fun s => s < 64) ss -> Forall (fun c => c = 61) pad ->
  List.filter (fun c => negb (is_ascii_whitespace c)) (map b64_char ss ++ pad)
  = map b64_char ss ++ pad.
Proof.
  intros Hs Hp. apply forallb_filter_id. rewrite forallb_app.
  apply andb_true_iff. split; apply forallb_forall; intros c Hc.
  - apply in_map_iff in Hc. destruct Hc as (s & <- & Hin).
    rewrite Forall_forall in Hs. rewrite b64_char_not_space; [reflexivity|].
    apply Hs. apply list_elem_of_In. exact Hin.
  - rewrite Forall_forall in Hp. rewrite (Hp c); [reflexivity|].
    apply list_elem_of_In. exact Hc.
Qed.

Lemma padding_cases (bs : list N) :
  padding bs = [] \/ padding bs = [61] \/ padding bs = [61; 61].
Proof.
  unfold padding. destruct (length bs mod 3)%nat as [|[|[|n]]]; auto.
Qed.

Lemma chars_not_pad (ss : list N) (c : N) :
  Forall (fun s => s < 64) ss -> In c (map b64_char ss) -> (c =? 61) = false.
Proof.
  intros Hs Hc. apply in_map_iff in Hc. destruct Hc as (s & <- & Hin).
  apply b64_char_not_pad. rewrite Forall_forall in Hs.
  apply Hs, list_elem_of_In, Hin.
Qed.

Lemma strip_padding_chars (ss : list N) (pad : jsstring) :
  Forall (fun s => s < 64) ss ->
  pad = [] \/ pad = [61] \/ pad = [61; 61] ->
  ((length ss + length pad) mod 4)%nat = 0%nat ->
  strip_padding (map b64_char ss ++ pad) = map b64_char ss.
Proof.
  intros Hs Hpad Hlen. unfold strip_padding.
  assert (Hl : (N.of_nat (length (map b64_char ss ++ pad)) mod 4 =? 0) = true).
  { rewrite length_app, length_map. apply N.eqb_eq.
    change 4 with (N.of_nat 4). rewrite <- Nat2N.inj_mod, Hlen. reflexivity. }
  rewrite Hl. rewrite rev_app_distr.
  destruct Hpad as [-> | [-> | ->]]; cbn [rev app].
  - destruct (rev (map b64_char ss)) as [|a [|b r]] eqn:Er;
      try (rewrite app_nil_r; reflexivity).
    rewrite (chars_not_pad ss a Hs).
    + rewrite app_nil_r. reflexivity.
    + apply in_rev. rewrite Er. left. reflexivity.
  - destruct (rev (map b64_char ss)) as [|b r] eqn:Er.
    + apply (f_equal (@length N)) in Er.
      rewrite length_rev, length_map in Er. rewrite Er in Hlen. discriminate.
    + cbn [N.eqb Pos.eqb]. rewrite (chars_not_pad ss b Hs).
      * change (rev r ++ [b]) with (rev (b :: r)).
        rewrite <- Er. apply rev_involutive.
      * apply in_rev. rewrite Er. left. reflexivity.
  - cbn [N.eqb Pos.eqb]. apply rev_involutive.
Qed.

(** [atob] undoes [btoa] on every binary string. *)
Lemma btoa_defined (bs : list N) : bytes bs -> btoa bs = Some (b64_encode bs).
Proof.
  intros H. unfold btoa.
  replace (forallb (fun c => c <? 256) bs) with true; [reflexivity|].
  symmetry. apply forallb_forall. intros c Hc. apply N.ltb_lt.
  unfold bytes in H. rewrite Forall_forall in H. apply H, list_elem_of_In, Hc.
Qed.

Lemma atob_b64_encode (bs : list N) : bytes bs -> atob (b64_encode bs) = Some bs.
Proof.
  intros H. pose proof (sextets_bound bs H) as Hs.
  unfold atob. rewrite b64_encode_split.
  rewrite filter_chars.
  - rewrite strip_padding_chars; [| exact Hs | apply padding_cases | apply sextets_length].
    rewrite length_map.
    assert (Hl : (N.of_nat (length (sextets bs)) mod 4 =? 1) = false).
    { apply N.eqb_neq. change 4 with (N.of_nat 4). rewrite <- Nat2N.inj_mod.
      pose proof (sextets_length bs) as Hm.
      destruct (padding_cases bs) as [E | [E | E]]; rewrite E in Hm;
        cbn [length] in Hm; intros Hc; apply (Nat2N.inj _ 1%nat) in Hc; lia. }
    rewrite Hl, mapM_index_chars by exact Hs.
    cbn [option_map]. rewrite b64_decode_sextets by exact H. reflexivity.
  - exact Hs.
  - destruct (padding_cases bs) as [E | [E | E]]; rewrite E; repeat constructor.
Qed.

(** ** Hexadecimal digits *)

(** Replaces literal character sets by their code units. *)
Ltac eval_lits :=
  repeat match goal with
  | |- context [lit ?s] =>
      let l := eval vm_compute in (lit s) in change (lit s) with l
  | H : context [lit ?s] |- _ =>
      let l := eval vm_compute in (lit s) in change (lit s) with l in H
  end.

(** Unfolds the character classes and reads every test as arithmetic. *)
Ltac char_arith :=
  unfold uri_unescaped, escape_unescaped, is_json_whitespace, one_of in *;
  eval_lits; cbn [existsb] in *; bool_arith; bool_goal.

Lemma hex_val_upper (d : N) : d < 16 -> hex_val (hex_upper d) = Some d.
Proof.
  intros Hd. unfold hex_upper. split_tests; unfold hex_val;
    split_tests; bool_arith; try lia; f_equal; lia.
Qed.

Lemma hex_val_lower (d : N) : d < 16 -> hex_val (hex_lower d) = Some d.
Proof.
  intros Hd. unfold hex_lower. split_tests; unfold hex_val;
    split_tests; bool_arith; try lia; f_equal; lia.
Qed.

Lemma hex2_upper (b : N) :
  b < 256 -> hex2 (hex_upper (b / 16)) (hex_upper (b mod 16)) = Some b.
Proof.
  intros Hb. unfold hex2. rewrite !hex_val_upper by lia. f_equal. lia.
Qed.

Lemma hex_upper_not_u (d : N) : d < 16 -> (hex_upper d =? 117) = false.
Proof.
  intros Hd. unfold hex_upper. split_tests; bool_arith; bool_goal; lia.
Qed.

Lemma hex4_lower (c : N) :
  c < 65536 ->
  hex4 (hex_lower (c / 4096)) (hex_lower (c / 256 mod 16))
       (hex_lower (c / 16 mod 16)) (hex_lower (c mod 16)) = Some c.
Proof.
  intros Hc. unfold hex4, hex2. rewrite !hex_val_lower by lia. f_equal. lia.
Qed.

(** ** Well-formed UTF-16 and its UTF-8 octets *)

Lemma not_surrogate (c : N) :
  is_surrogate c = false ->
  is_high_surrogate c = false /\ is_low_surrogate c = false.
Proof. intros H. bool_arith; split; bool_goal; lia. Qed.

Lemma utf8_unit (c : N) (s : jsstring) :
  is_surrogate c = false -> utf8 (c :: s) = utf8_encode c ++ utf8 s.
Proof.
  intros H. apply not_surrogate in H. destruct H as [H _].
  cbn [utf8]. destruct s; [rewrite app_nil_r; reflexivity|].
  rewrite H. reflexivity.
Qed.

Lemma utf8_pair (h l : N) (s : jsstring) :
  is_high_surrogate h = true -> is_low_surrogate l = true ->
  utf8 (h :: l :: s) = utf8_encode (pair_code_point h l) ++ utf8 s.
Proof. intros Hh Hl. cbn [utf8]. rewrite Hh, Hl. reflexivity. Qed.

Lemma wf16_app (s t : jsstring) : wf16 s -> wf16 t -> wf16 (s ++ t).
Proof.
  intros Hs Ht. induction Hs; cbn [app]; [exact Ht | |].
  - apply wf16_unit; assumption.
  - apply wf16_pair; assumption.
Qed.

Lemma pair_code_point_range (h l : N) :
  is_high_surrogate h = true -> is_low_surrogate l = true ->
  65536 <= pair_code_point h l <= 1114111.
Proof. intros Hh Hl. unfold pair_code_point. bool_arith. lia. Qed.

Lemma utf16_encode_pair (h l : N) :
  is_high_surrogate h = true -> is_low_surrogate l = true ->
  utf16_encode (pair_code_point h l) = [h; l].
Proof.
  intros Hh Hl. pose proof (pair_code_point_range h l Hh Hl) as Hr.
  unfold utf16_encode. rewrite ltb_false by lia.
  unfold pair_code_point in *. bool_arith. f_equal; [lia|]. f_equal. lia.
Qed.

Lemma utf8_encode_bytes (cp : N) : cp <= 1114111 -> bytes (utf8_encode cp).
Proof.
  intros H. unfold utf8_encode, bytes.
  split_tests; bool_arith; repeat (apply Forall_cons_2; [lia|]); constructor.
Qed.

Lemma bytes_app (a b : list N) : bytes a -> bytes b -> bytes (a ++ b).
Proof. unfold bytes. rewrite Forall_app. auto. Qed.

Lemma utf8_bytes (s : jsstring) : wf16 s -> bytes (utf8 s).
Proof.
  induction 1 as [| c s Hc Hs _ IH | h l s Hh Hl _ IH].
  - constructor.
  - rewrite utf8_unit by exact Hs. apply bytes_app; [|exact IH].
    apply utf8_encode_bytes. lia.
  - rewrite utf8_pair by assumption. apply bytes_app; [|exact IH].
    apply utf8_encode_bytes. apply pair_code_point_range; assumption.
Qed.

(** ** [unescape] after [encodeURIComponent] *)

Lemma unescape_loop_pct (b : N) (t : jsstring) :
  b < 256 -> unescape_loop 0 (pct b ++ t) = b :: unescape_loop 0 t.
Proof.
  intros Hb. unfold pct. cbn [app].
  change (unescape_loop 0 (37 :: ?x :: ?y :: t))
    with (match unescape_at (x :: y :: t) with
          | Some (n, adv) => n :: unescape_loop adv (x :: y :: t)
          | None => 37 :: unescape_loop 0 (x :: y :: t)
          end).
  unfold unescape_at. rewrite hex_upper_not_u by lia.
  rewrite hex2_upper by exact Hb.
  reflexivity.
Qed.

Lemma unescape_loop_pcts (bs : list N) (t : jsstring) :
  bytes bs -> unescape_loop 0 (flat_map pct bs ++ t) = bs ++ unescape_loop 0 t.
Proof.
  induction 1 as [|b bs Hb _ IH]; [reflexivity|].
  cbn [flat_map]. rewrite <- app_assoc, unescape_loop_pct by exact Hb.
  rewrite IH. reflexivity.
Qed.

Lemma uri_unescaped_ascii (c : N) : uri_unescaped c = true -> c < 128 /\ c <> 37.
Proof. intros H. char_arith; lia. Qed.

Lemma uri_unescaped_not_surrogate (c : N) :
  uri_unescaped c = true -> is_surrogate c = false.
Proof. intros H. apply uri_unescaped_ascii in H. bool_goal. lia. Qed.

Lemma unescape_loop_plain (c : N) (t : jsstring) :
  c <> 37 -> unescape_loop 0 (c :: t) = c :: unescape_loop 0 t.
Proof. intros H. cbn [unescape_loop]. rewrite eqb_false by exact H. reflexivity. Qed.

(** On a well-formed string [encodeURIComponent] does not throw, and
    [unescape] turns its result into the string's UTF-8 octets. *)
Lemma unescape_encodeURIComponent (s : jsstring) :
  wf16 s ->
  exists u, encodeURIComponent s = Some u /\ unescape u = utf8 s.
Proof.
  unfold unescape.
  induction 1 as [| c s Hc Hs _ IH | h l s Hh Hl _ IH].
  - exists []. split; reflexivity.
  - destruct IH as (u & Eu & Hu). rewrite utf8_unit by exact Hs.
    cbn [encodeURIComponent]. rewrite Eu.
    destruct (uri_unescaped c) eqn:Ec.
    + exists (c :: u). split; [reflexivity|].
      apply uri_unescaped_ascii in Ec. destruct Ec as [Ec1 Ec2].
      rewrite unescape_loop_plain, Hu by exact Ec2.
      unfold utf8_encode. rewrite ltb_true by exact Ec1. reflexivity.
    + destruct (not_surrogate c Hs) as [-> ->].
      exists (flat_map pct (utf8_encode c) ++ u). split; [reflexivity|].
      rewrite unescape_loop_pcts, Hu; [reflexivity|].
      apply utf8_encode_bytes. lia.
  - destruct IH as (u & Eu & Hu). rewrite utf8_pair by assumption.
    cbn [encodeURIComponent]. rewrite Eu, Hh, Hl.
    assert (En : uri_unescaped h = false).
    { destruct (uri_unescaped h) eqn:E; [|reflexivity].
      apply uri_unescaped_ascii in E. bool_arith. lia. }
    rewrite En.
    exists (flat_map pct (utf8_encode (pair_code_point h l)) ++ u).
    split; [reflexivity|].
    rewrite unescape_loop_pcts, Hu; [reflexivity|].
    apply utf8_encode_bytes. apply pair_code_point_range; assumption.
Qed.

(** ** [decodeURIComponent] after [escape] *)

Lemma decode_loop_plain (c : N) (t : jsstring) :
  c <> 37 -> decode_loop 0 (c :: t) = cons c <$> decode_loop 0 t.
Proof. intros H. cbn [decode_loop]. rewrite eqb_false by exact H. reflexivity. Qed.

Lemma decode_loop_percent (t : jsstring) :
  decode_loop 0 (37 :: t) =
  match decode_escape t with
  | None => None
  | Some (out, adv) => app out <$> decode_loop adv t
  end.
Proof. reflexivity. Qed.

Lemma decode_loop_skip (p t : jsstring) :
  decode_loop (length p) (p ++ t) = decode_loop 0 t.
Proof. induction p as [|c p IH]; [reflexivity | exact IH]. Qed.

Lemma read_continuation_pcts (more : list N) (t : jsstring) :
  bytes more ->
  read_continuation (length more) (flat_map pct more ++ t) = Some more.
Proof.
  induction 1 as [|b more Hb _ IH]; [reflexivity|].
  cbn [length flat_map]. unfold pct at 1. cbn [app].
  change (read_continuation (S ?m) (37 :: ?h :: ?l :: ?r))
    with (match hex2 h l with
          | Some b => cons b <$> read_continuation m r
          | None => None
          end).
  rewrite hex2_upper by exact Hb. rewrite IH. reflexivity.
Qed.

Lemma length_pcts (bs : list N) : length (flat_map pct bs) = (3 * length bs)%nat.
Proof.
  induction bs as [|b bs IH]; [reflexivity|].
  cbn [flat_map]. rewrite length_app, IH. cbn [pct length]. lia.
Qed.

(** One escaped ASCII octet. *)
Lemma decode_loop_pct_ascii (b : N) (t : jsstring) :
  b < 128 -> decode_loop 0 (pct b ++ t) = cons b <$> decode_loop 0 t.
Proof.
  intros Hb. unfold pct. cbn [app]. rewrite decode_loop_percent.
  unfold decode_escape. rewrite hex2_upper by lia.
  unfold leading_ones. rewrite ltb_true by exact Hb.
  change (decode_loop 2 (?x :: ?y :: t)) with (decode_loop 0 t).
  destruct (decode_loop 0 t); reflexivity.
Qed.

(** An escaped multi-octet sequence. *)
Lemma decode_loop_multi (b0 cp : N) (more : list N) (t : jsstring) :
  b0 < 256 -> bytes more ->
  (2 <= leading_ones b0 <= 4)%nat ->
  leading_ones b0 = S (length more) ->
  utf8_decode (b0 :: more) = Some cp ->
  decode_loop 0 (flat_map pct (b0 :: more) ++ t)
  = app (utf16_encode cp) <$> decode_loop 0 t.
Proof.
  intros Hb Hm Hn Hlen Hdec. cbn [flat_map]. unfold pct at 1. cbn [app].
  rewrite decode_loop_percent. unfold decode_escape.
  rewrite hex2_upper by exact Hb.
  assert (Hr : read_continuation (leading_ones b0 - 1) (flat_map pct more ++ t)
               = Some more).
  { rewrite Hlen. cbn [Nat.sub]. rewrite Nat.sub_0_r.
    apply read_continuation_pcts, Hm. }
  assert (Hs : decode_loop (2 + 3 * (leading_ones b0 - 1))
                 (hex_upper (b0 / 16) :: hex_upper (b0 mod 16)
                  :: flat_map pct more ++ t)
               = decode_loop 0 t).
  { rewrite Hlen. cbn [Nat.sub]. rewrite Nat.sub_0_r.
    rewrite <- length_pcts. apply (decode_loop_skip (flat_map pct more)). }
  destruct (leading_ones b0) as [|[|[|[|[|n]]]]]; try lia;
    rewrite Hr, Hdec, Hs; reflexivity.
Qed.

Lemma escape_app (a b : jsstring) : escape (a ++ b) = escape a ++ escape b.
Proof. apply flat_map_app. Qed.

Lemma escape_unescaped_ascii (c : N) :
  escape_unescaped c = true -> c < 128 /\ c <> 37.
Proof. intros H. char_arith; lia. Qed.

Lemma escape_unit_high (b : N) : 128 <= b < 256 -> escape_unit b = pct b.
Proof.
  intros Hb. unfold escape_unit.
  destruct (escape_unescaped b) eqn:E.
  - apply escape_unescaped_ascii in E. lia.
  - rewrite ltb_true by lia. reflexivity.
Qed.

Lemma escape_high (bs : list N) :
  Forall (fun b => 128 <= b < 256) bs -> escape bs = flat_map pct bs.
Proof.
  induction 1 as [|b bs Hb _ IH]; [reflexivity|].
  unfold escape in *. cbn [flat_map]. rewrite IH, escape_unit_high by exact Hb.
  reflexivity.
Qed.

(** The octets of a code point above U+007F: range, lead octet and
    decoding. *)
Lemma utf8_encode_multi (cp : N) :
  128 <= cp <= 1114111 -> is_surrogate cp = false ->
  exists b0 more,
    utf8_encode cp = b0 :: more /\
    Forall (fun b => 128 <= b < 256) (b0 :: more) /\
    (2 <= leading_ones b0 <= 4)%nat /\
    leading_ones b0 = S (length more) /\
    utf8_decode (b0 :: more) = Some cp.
Proof.
  intros Hr Hs. unfold utf8_encode. rewrite ltb_false by lia.
  assert (Hs' : cp < 55296 \/ 57343 < cp) by (bool_arith; lia).
  clear Hs. unfold utf8_decode, is_continuation, is_surrogate.
  destruct (cp <? 2048) eqn:E2; [|destruct (cp <? 65536) eqn:E3];
    apply N.ltb_lt in E2 || apply N.ltb_ge in E2;
    try (apply N.ltb_lt in E3 || apply N.ltb_ge in E3).
  - eexists _, _. split; [reflexivity|].
    assert (Hl : leading_ones (192 + cp / 64) = 2%nat).
    { unfold leading_ones. rewrite !ltb_false by lia.
      rewrite ltb_true by lia. reflexivity. }
    rewrite Hl. repeat split; try lia.
    + repeat (apply Forall_cons_2; [lia|]). constructor.
    + replace ((192 + cp / 64 - 192) * 64 + (128 + cp mod 64 - 128)) with cp by lia.
      rewrite !in_range_true by lia. rewrite (proj2 (N.leb_le 128 cp)) by lia.
      reflexivity.
  - eexists _, _. split; [reflexivity|].
    assert (Hl : leading_ones (224 + cp / 4096) = 3%nat).
    { unfold leading_ones. rewrite !ltb_false by lia.
      rewrite ltb_true by lia. reflexivity. }
    rewrite Hl. repeat split; try lia.
    + repeat (apply Forall_cons_2; [lia|]). constructor.
    + replace ((224 + cp / 4096 - 224) * 4096 + (128 + cp / 64 mod 64 - 128) * 64
                + (128 + cp mod 64 - 128)) with cp by lia.
      rewrite !in_range_true by lia. rewrite (proj2 (N.leb_le 2048 cp)) by lia.
      rewrite in_range_false by lia. reflexivity.
  - eexists _, _. split; [reflexivity|].
    assert (Hl : leading_ones (240 + cp / 262144) = 4%nat).
    { unfold leading_ones. rewrite !ltb_false by lia.
      rewrite ltb_true by lia. reflexivity. }
    rewrite Hl. repeat split; try lia.
    + repeat (apply Forall_cons_2; [lia|]). constructor.
    + replace ((240 + cp / 262144 - 240) * 262144
                + (128 + cp / 4096 mod 64 - 128) * 4096
                + (128 + cp / 64 mod 64 - 128) * 64 + (128 + cp mod 64 - 128))
        with cp by lia.
      rewrite !in_range_true by lia.
      rewrite (proj2 (N.leb_le 65536 cp)), (proj2 (N.leb_le cp 1114111)) by lia.
      reflexivity.
Qed.

Lemma high_bytes (bs : list N) :
  Forall (fun b => 128 <= b < 256) bs -> bytes bs.
Proof.
  induction 1 as [|b bs Hb _ IH]; [constructor|].
  apply Forall_cons_2; [lia | exact IH].
Qed.

(** One escaped code point. *)
Lemma decode_loop_code_point (cp : N) (t : jsstring) :
  cp <= 1114111 -> is_surrogate cp = false ->
  decode_loop 0 (escape (utf8_encode cp) ++ t)
  = app (utf16_encode cp) <$> decode_loop 0 t.
Proof.
  intros Hr Hs.
  destruct (cp <? 128) eqn:E; [apply N.ltb_lt in E | apply N.ltb_ge in E].
  - unfold utf8_encode, utf16_encode. rewrite !ltb_true by lia.
    unfold escape. cbn [flat_map]. rewrite app_nil_r. unfold escape_unit.
    destruct (escape_unescaped cp) eqn:Eu.
    + apply escape_unescaped_ascii in Eu. cbn [app].
      rewrite decode_loop_plain by lia.
      destruct (decode_loop 0 t); reflexivity.
    + rewrite ltb_true by lia. rewrite decode_loop_pct_ascii by lia.
      destruct (decode_loop 0 t); reflexivity.
  - destruct (utf8_encode_multi cp) as (b0 & more & -> & Hh & Hn & Hl & Hd);
      [lia | exact Hs |].
    rewrite escape_high by exact Hh.
    inversion Hh as [|? ? Hb0 Hm]; subst.
    apply decode_loop_multi; try assumption; [lia|].
    apply high_bytes, Hm.
Qed.

(** [decodeURIComponent] recovers a well-formed string from the escaped
    form of its UTF-8 octets. *)
Lemma decodeURIComponent_escape (s : jsstring) :
  wf16 s -> decodeURIComponent (escape (utf8 s)) = Some s.
Proof.
  unfold decodeURIComponent.
  induction 1 as [| c s Hc Hs _ IH | h l s Hh Hl _ IH].
  - reflexivity.
  - rewrite utf8_unit, escape_app by exact Hs.
    rewrite decode_loop_code_point, IH by (exact Hs || lia).
    unfold utf16_encode. rewrite ltb_true by exact Hc. reflexivity.
  - rewrite utf8_pair, escape_app by assumption.
    pose proof (pair_code_point_range h l Hh Hl) as Hr.
    rewrite decode_loop_code_point, IH.
    + rewrite utf16_encode_pair by assumption. reflexivity.
    + lia.
    + bool_goal. lia.
Qed.

(** ** [JSON.stringify] gives well-formed text *)

(** Induction along the code points of a string: a surrogate pair is
    taken in one step. *)
Lemma code_point_ind (P : jsstring -> Prop) :
  P [] ->
  (forall c, P [c]) ->
  (forall c d s,
     is_high_surrogate c && is_low_surrogate d = true -> P s -> P (c :: d :: s)) ->
  (forall c d s,
     is_high_surrogate c && is_low_surrogate d = false -> P (d :: s) ->
     P (c :: d :: s)) ->
  forall s, P s.
Proof.
  intros H0 H1 Hp Hu s.
  assert (H : forall n s, (length s <= n)%nat -> P s).
  { clear s. induction n as [|n IH]; intros s Hlen.
    - destruct s; [exact H0 | cbn in Hlen; lia].
    - destruct s as [|c [|d s]]; [exact H0 | apply H1 |].
      cbn [length] in Hlen.
      destruct (is_high_surrogate c && is_low_surrogate d) eqn:E.
      + apply Hp; [exact E|]. apply IH. lia.
      + apply Hu; [exact E|]. apply IH. cbn [length]. lia. }
  apply (H (length s)). lia.
Qed.

Lemma quote_body_single (c : N) : quote_body [c] = quote_unit c.
Proof. reflexivity. Qed.

Lemma quote_body_pair (c d : N) (s : jsstring) :
  is_high_surrogate c && is_low_surrogate d = true ->
  quote_body (c :: d :: s) = c :: d :: quote_body s.
Proof. intros H. cbn [quote_body]. rewrite H. reflexivity. Qed.

Lemma quote_body_unit (c d : N) (s : jsstring) :
  is_high_surrogate c && is_low_surrogate d = false ->
  quote_body (c :: d :: s) = quote_unit c ++ quote_body (d :: s).
Proof. intros H. cbn [quote_body]. rewrite H. reflexivity. Qed.

Lemma wf16_ascii (s : jsstring) : Forall (fun c => c < 128) s -> wf16 s.
Proof.
  induction 1 as [|c s Hc _ IH]; [constructor|].
  apply wf16_unit; [lia | bool_goal; lia | exact IH].
Qed.

Lemma hex_lower_ascii (d : N) : d < 16 -> hex_lower d < 128.
Proof. intros H. unfold hex_lower. split_tests; lia. Qed.

Lemma wf16_quote_unit (c : N) : c < 65536 -> wf16 (quote_unit c).
Proof.
  intros Hc. unfold quote_unit.
  repeat match goal with
  | |- context [if ?x =? ?y then _ else _] =>
      destruct (x =? y); [apply wf16_ascii; repeat constructor|]
  end.
  destruct ((c <? 32) || is_surrogate c) eqn:E.
  - apply wf16_ascii. unfold unicode_escape.
    repeat (apply Forall_cons_2; [first [reflexivity | apply hex_lower_ascii; lia]|]).
    constructor.
  - apply orb_false_iff in E. destruct E as [_ E].
    apply wf16_unit; [exact Hc | exact E | constructor].
Qed.

Lemma code_units_cons (c : N) (s : jsstring) :
  code_units (c :: s) -> c < 65536 /\ code_units s.
Proof. intros H. inversion H; subst. auto. Qed.

Lemma wf16_quote_body (s : jsstring) : code_units s -> wf16 (quote_body s).
Proof.
  induction s as [| c | c d s Hp IH | c d s Hu IH] using code_point_ind; intros H.
  - constructor.
  - apply code_units_cons in H. apply wf16_quote_unit, H.
  - rewrite quote_body_pair by exact Hp.
    apply andb_true_iff in Hp. destruct Hp as [Hc Hd].
    apply code_units_cons in H. destruct H as [_ H].
    apply code_units_cons in H. destruct H as [_ H].
    apply wf16_pair; auto.
  - rewrite quote_body_unit by exact Hu.
    apply code_units_cons in H. destruct H as [Hc H].
    apply wf16_app; [apply wf16_quote_unit, Hc | apply IH, H].
Qed.

Lemma wf16_QuoteJSONString (s : jsstring) : code_units s -> wf16 (QuoteJSONString s).
Proof.
  intros H. unfold QuoteJSONString.
  apply wf16_unit; [lia | reflexivity |].
  apply wf16_app; [apply wf16_quote_body, H|].
  apply wf16_ascii. repeat constructor.
Qed.

Lemma wf16_cons_ascii (c : N) (s : jsstring) : c < 128 -> wf16 s -> wf16 (c :: s).
Proof. intros Hc Hs. apply wf16_unit; [lia | bool_goal; lia | exact Hs]. Qed.

Lemma wf16_member (k v : jsstring) (t : jsstring) :
  code_units k -> code_units v -> wf16 t ->
  wf16 (QuoteJSONString k ++ 58 :: QuoteJSONString v ++ t).
Proof.
  intros Hk Hv Ht. apply wf16_app; [apply wf16_QuoteJSONString, Hk|].
  apply wf16_cons_ascii; [lia|].
  apply wf16_app; [apply wf16_QuoteJSONString, Hv | exact Ht].
Qed.

Lemma wf16_serialize_members (props : list (jsstring * jsstring)) :
  props_code_units props -> wf16 (serialize_members props).
Proof.
  induction 1 as [|[k v] props [Hk Hv] _ IH]; [constructor|].
  cbn [fst snd] in *. destruct props as [|p props].
  - cbn [serialize_members]. rewrite <- (app_nil_r (QuoteJSONString v)).
    apply wf16_member; [exact Hk | exact Hv | constructor].
  - change (serialize_members ((k, v) :: p :: props))
      with (QuoteJSONString k ++ 58 :: QuoteJSONString v
            ++ 44 :: serialize_members (p :: props)).
    apply wf16_member; [exact Hk | exact Hv |].
    apply wf16_cons_ascii; [lia | exact IH].
Qed.

Lemma wf16_JSON_stringify (props : list (jsstring * jsstring)) :
  props_code_units props -> wf16 (JSON_stringify props).
Proof.
  intros H. unfold JSON_stringify. apply wf16_cons_ascii; [lia|].
  apply wf16_app; [apply wf16_serialize_members, H|].
  apply wf16_ascii. repeat constructor.
Qed.

(** ** [JSON.parse] after [JSON.stringify] *)

Lemma parse_string_body_plain (c : N) (t : jsstring) :
  32 <= c -> c <> 34 -> c <> 92 ->
  parse_string_body (c :: t) = prepend c <$> parse_string_body t.
Proof.
  intros H1 H2 H3. cbn [parse_string_body].
  rewrite !eqb_false by assumption. rewrite ltb_false by exact H1. reflexivity.
Qed.

Lemma parse_string_body_unicode (h1 h2 h3 h4 : N) (t : jsstring) :
  parse_string_body (92 :: 117 :: h1 :: h2 :: h3 :: h4 :: t) =
  match hex4 h1 h2 h3 h4 with
  | Some n => prepend n <$> parse_string_body t
  | None => None
  end.
Proof. reflexivity. Qed.

(** The parser reads back what QuoteJSONString wrote for one code unit. *)
Lemma parse_quote_unit (c : N) (t : jsstring) :
  c < 65536 ->
  parse_string_body (quote_unit c ++ t) = prepend c <$> parse_string_body t.
Proof.
  intros Hc. unfold quote_unit.
  repeat match goal with
  | |- context [if ?x =? ?y then _ else _] =>
      let E := fresh "E" in
      destruct (x =? y) eqn:E;
      [apply N.eqb_eq in E; subst; reflexivity | apply N.eqb_neq in E]
  end.
  destruct ((c <? 32) || is_surrogate c) eqn:Es.
  - unfold unicode_escape. cbn [app].
    rewrite parse_string_body_unicode, hex4_lower by exact Hc. reflexivity.
  - apply orb_false_iff in Es. destruct Es as [Es _]. apply N.ltb_ge in Es.
    cbn [app]. apply parse_string_body_plain; assumption.
Qed.

Lemma parse_surrogate (c : N) (t : jsstring) :
  is_surrogate c = true ->
  parse_string_body (c :: t) = prepend c <$> parse_string_body t.
Proof. intros H. apply parse_string_body_plain; bool_arith; lia. Qed.

Lemma high_is_surrogate (c : N) : is_high_surrogate c = true -> is_surrogate c = true.
Proof. intros H. bool_arith. bool_goal. lia. Qed.

Lemma low_is_surrogate (c : N) : is_low_surrogate c = true -> is_surrogate c = true.
Proof. intros H. bool_arith. bool_goal. lia. Qed.

Lemma parse_quote_body (s t : jsstring) :
  code_units s -> parse_string_body (quote_body s ++ 34 :: t) = Some (s, t).
Proof.
  induction s as [| c | c d s Hp IH | c d s Hu IH] using code_point_ind; intros H.
  - reflexivity.
  - apply code_units_cons in H. destruct H as [Hc _].
    rewrite quote_body_single, parse_quote_unit by exact Hc. reflexivity.
  - rewrite quote_body_pair by exact Hp.
    apply andb_true_iff in Hp. destruct Hp as [Hc Hd].
    apply code_units_cons in H. destruct H as [_ H].
    apply code_units_cons in H. destruct H as [_ H].
    cbn [app]. rewrite parse_surrogate by (apply high_is_surrogate, Hc).
    rewrite parse_surrogate by (apply low_is_surrogate, Hd).
    rewrite IH by exact H. reflexivity.
  - rewrite quote_body_unit by exact Hu.
    apply code_units_cons in H. destruct H as [Hc H].
    rewrite <- app_assoc, parse_quote_unit by exact Hc.
    rewrite IH by exact H. reflexivity.
Qed.

Lemma parse_value_string (f : nat) (s t : jsstring) :
  code_units s -> parse_value (S f) (QuoteJSONString s ++ t) = Some (JString s, t).
Proof.
  intros H. unfold QuoteJSONString. cbn [app]. rewrite <- app_assoc. cbn [app].
  change (parse_value (S f) (34 :: ?r))
    with ((fun p : jsstring * jsstring => (JString p.1, p.2)) <$> parse_string_body r).
  rewrite parse_quote_body by exact H. reflexivity.
Qed.

Lemma parse_members_step (f : nat) (acc : list (jsstring * json))
    (k v t : jsstring) :
  code_units k -> code_units v ->
  parse_members (S (S f)) acc (QuoteJSONString k ++ 58 :: QuoteJSONString v ++ t) =
  match skip_ws t with
  | 44 :: r => parse_members (S f) (set_prop k (JString v) acc) r
  | 125 :: r => Some (set_prop k (JString v) acc, r)
  | _ => None
  end.
Proof.
  intros Hk Hv. unfold QuoteJSONString at 1. cbn [app]. rewrite <- app_assoc. cbn [app].
  change (parse_members (S (S f)) acc (34 :: ?r0))
    with (match parse_string_body r0 with
          | None => None
          | Some (k, r1) =>
              match skip_ws r1 with
              | 58 :: r2 =>
                  match parse_value (S f) r2 with
                  | None => None
                  | Some (v, r3) =>
                      match skip_ws r3 with
                      | 44 :: r4 => parse_members (S f) (set_prop k v acc) r4
                      | 125 :: r4 => Some (set_prop k v acc, r4)
                      | _ => None
                      end
                  end
              | _ => None
              end
          end).
  rewrite parse_quote_body by exact Hk.
  change (skip_ws (58 :: ?r)) with (58 :: r). cbv iota.
  rewrite parse_value_string by exact Hv. reflexivity.
Qed.

Lemma parse_serialize_members (props : list (jsstring * jsstring)) :
  props_code_units props -> props <> [] ->
  forall (f : nat) (acc : list (jsstring * json)) (t : jsstring),
    (length props < f)%nat ->
    parse_members f acc (serialize_members props ++ 125 :: t)
    = Some (add_props props acc, t).
Proof.
  induction 1 as [|[k v] props [Hk Hv] Hprops IH]; [congruence|].
  intros _ f acc t Hf. cbn [fst snd] in *.
  destruct f as [|[|f]]; [cbn [length] in Hf; lia .. |].
  destruct props as [|p props].
  - cbn [serialize_members]. rewrite <- !app_assoc. cbn [app]. rewrite <- ?app_assoc.
    rewrite parse_members_step by assumption. reflexivity.
  - change (serialize_members ((k, v) :: p :: props))
      with (QuoteJSONString k ++ 58 :: QuoteJSONString v
            ++ 44 :: serialize_members (p :: props)).
    rewrite <- !app_assoc. cbn [app]. rewrite <- ?app_assoc.
    rewrite parse_members_step by assumption. cbn [app].
    change (skip_ws (44 :: ?r)) with (44 :: r). cbv iota.
    rewrite IH; [reflexivity | congruence | cbn [length] in *; lia].
Qed.

Lemma serialize_members_head (props : list (jsstring * jsstring)) :
  props <> [] -> exists r, serialize_members props = 34 :: r.
Proof.
  destruct props as [|[k v] [|p props]]; [congruence | |]; intros _;
    cbn [serialize_members]; unfold QuoteJSONString at 1; eexists; reflexivity.
Qed.

Lemma serialize_members_length (props : list (jsstring * jsstring)) :
  (length props <= length (serialize_members props))%nat.
Proof.
  induction props as [|[k v] props IH]; [reflexivity|].
  destruct props as [|p props].
  - cbn [serialize_members]. rewrite length_app. cbn [length]. lia.
  - change (serialize_members ((k, v) :: p :: props))
      with (QuoteJSONString k ++ 58 :: QuoteJSONString v
            ++ 44 :: serialize_members (p :: props)).
    rewrite length_app. cbn [length]. rewrite length_app. cbn [length] in *. lia.
Qed.

(** [JSON.parse] reads back the object [JSON.stringify] wrote. *)
Lemma JSON_parse_stringify (props : list (jsstring * jsstring)) :
  props_code_units props -> props <> [] ->
  JSON_parse (JSON_stringify props) = Some (JObject (add_props props [])).
Proof.
  intros Hu Hne. unfold JSON_parse.
  assert (Hlen : (length props + 2 <= length (JSON_stringify props))%nat).
  { unfold JSON_stringify. cbn [length]. rewrite length_app. cbn [length].
    pose proof (serialize_members_length props). lia. }
  destruct (2 * length (JSON_stringify props) + 1)%nat as [|f] eqn:Ef; [lia|].
  unfold JSON_stringify.
  destruct (serialize_members_head props Hne) as (r & Er).
  assert (Hp : parse_value (S f) (123 :: serialize_members props ++ [125])
               = (fun p : list (jsstring * json) * jsstring => (JObject p.1, p.2))
                   <$> parse_members f [] (serialize_members props ++ [125])).
  { rewrite Er. reflexivity. }
  rewrite Hp, parse_serialize_members; [reflexivity | exact Hu | exact Hne | lia].
Qed.

(** ** The share encoding *)

Lemma code_units_lit (s : string) : code_units (lit s).
Proof.
  induction s as [|a s IH]; [constructor|].
  cbn [lit]. apply Forall_cons_2; [|exact IH].
  pose proof (N_ascii_bounded a). lia.
Qed.

Lemma bundle_props_code_units (b : SourceBundle) :
  valid_bundle b -> props_code_units (bundle_props b).
Proof.
  intros (Hh & Hc & Hj). unfold bundle_props, props_code_units.
  repeat (apply Forall_cons_2; [split; [apply code_units_lit | assumption]|]).
  constructor.
Qed.

(** [encodeState] never takes its [catch] branch on a valid bundle: the
    token is the base64 of the UTF-8 octets of the JSON text. *)
Lemma encodeState_value (b : SourceBundle) :
  valid_bundle b -> encodeState b = b64_encode (utf8 (state_text b)).
Proof.
  intros Hb. unfold encodeState. fold (state_text b).
  assert (Hw : wf16 (state_text b)).
  { apply wf16_JSON_stringify, bundle_props_code_units, Hb. }
  destruct (unescape_encodeURIComponent _ Hw) as (u & -> & ->).
  rewrite btoa_defined by (apply utf8_bytes, Hw). reflexivity.
Qed.

Lemma add_bundle_props (b : SourceBundle) :
  JObject (add_props (bundle_props b) []) = bundle_json b.
Proof. reflexivity. Qed.

Lemma decodeState_encodeState (b : SourceBundle) :
  valid_bundle b -> decodeState (encodeState b) = bundle_json b.
Proof.
  intros Hb. rewrite encodeState_value by exact Hb.
  assert (Hw : wf16 (state_text b)).
  { apply wf16_JSON_stringify, bundle_props_code_units, Hb. }
  unfold decodeState.
  rewrite atob_b64_encode by (apply utf8_bytes, Hw).
  rewrite decodeURIComponent_escape by exact Hw.
  unfold state_text. rewrite JSON_parse_stringify.
  - apply add_bundle_props.
  - apply bundle_props_code_units, Hb.
  - discriminate.
Qed.

(** ** The composed document *)


Lemma srcDoc_parts (b : SourceBundle) :
  srcDoc b = part_a ++ b_css b ++ part_b ++ b_html b ++ part_c ++ b_js b ++ part_d.
Proof.
  unfold srcDoc, part_a, part_b, part_c, part_d, doc_prologue, fault_handler.
  cbn [concat]. rewrite <- ?app_assoc. reflexivity.
Qed.

(** A change of one buffer changes the document. *)
Lemma srcDoc_set_buffer (f : buffer) (v : jsstring) (b : SourceBundle) :
  srcDoc (set_buffer f v b) = srcDoc b -> v = get_buffer f b.
Proof.
  rewrite !srcDoc_parts. destruct f; cbn [set_buffer get_buffer b_html b_css b_js];
    intros H.
  - apply app_inv_head, app_inv_head, app_inv_head in H.
    apply app_inv_tail in H. exact H.
  - apply app_inv_head in H. apply app_inv_tail in H. exact H.
  - do 5 apply app_inv_head in H. apply app_inv_tail in H. exact H.
Qed.

(** ** The octets of the exported file *)

Lemma ascii_forallb (s : jsstring) : forallb (fun c => c <? 128) s = true -> ascii s.
Proof.
  intros H. apply Forall_forall. intros c Hc. apply list_elem_of_In in Hc.
  rewrite forallb_forall in H. apply N.ltb_lt, H, Hc.
Qed.

Lemma utf8_encode_ascii (c : N) : c < 128 -> utf8_encode c = [c].
Proof. intros H. unfold utf8_encode. rewrite ltb_true by exact H. reflexivity. Qed.

Lemma usv_octets_cons_ascii (c : N) (s : jsstring) :
  c < 128 -> usv_octets (c :: s) = c :: usv_octets s.
Proof.
  intros Hc.
  assert (Hh : is_high_surrogate c = false) by (bool_goal; lia).
  assert (Hn : is_surrogate c = false) by (bool_goal; lia).
  pose proof (utf8_encode_ascii c Hc) as He.
  cbn [usv_octets]. destruct s as [|d s].
  - rewrite Hn, He. reflexivity.
  - rewrite Hh, Hn, He. reflexivity.
Qed.

Lemma usv_octets_ascii_app (a s : jsstring) :
  ascii a -> usv_octets (a ++ s) = a ++ usv_octets s.
Proof.
  induction 1 as [|c a Hc _ IH]; [reflexivity|].
  cbn [app]. rewrite usv_octets_cons_ascii, IH by exact Hc. reflexivity.
Qed.

Lemma usv_octets_ascii (s : jsstring) : ascii s -> usv_octets s = s.
Proof.
  intros H. rewrite <- (app_nil_r s) at 1.
  rewrite usv_octets_ascii_app by exact H. apply app_nil_r.
Qed.

(** An ASCII character separates what stands before it from what
    follows: no surrogate pair reaches across it. *)
Lemma usv_octets_app_ascii (s r : jsstring) (c : N) :
  c < 128 -> usv_octets (s ++ c :: r) = usv_octets s ++ usv_octets (c :: r).
Proof.
  intros Hc.
  assert (Hl : is_low_surrogate c = false) by (bool_goal; lia).
  assert (H : usv_octets (s ++ c :: r) = usv_octets s ++ usv_octets (c :: r)
              /\ forall x, usv_octets (x :: s ++ c :: r)
                           = usv_octets (x :: s) ++ usv_octets (c :: r)).
  { induction s as [|y s [IH1 IH2]].
    - split; [reflexivity|]. intros x. cbn [app].
      change (usv_octets (x :: c :: r))
        with (if is_high_surrogate x && is_low_surrogate c
              then utf8_encode (pair_code_point x c) ++ usv_octets r
              else utf8_encode (if is_surrogate x then 65533 else x)
                   ++ usv_octets (c :: r)).
      rewrite Hl, andb_false_r. reflexivity.
    - split; [apply IH2|]. intros x. cbn [app].
      change (usv_octets (x :: y :: s ++ c :: r))
        with (if is_high_surrogate x && is_low_surrogate y
              then utf8_encode (pair_code_point x y) ++ usv_octets (s ++ c :: r)
              else utf8_encode (if is_surrogate x then 65533 else x)
                   ++ usv_octets (y :: s ++ c :: r)).
      change (usv_octets (x :: y :: s))
        with (if is_high_surrogate x && is_low_surrogate y
              then utf8_encode (pair_code_point x y) ++ usv_octets s
              else utf8_encode (if is_surrogate x then 65533 else x)
                   ++ usv_octets (y :: s)).
      destruct (is_high_surrogate x && is_low_surrogate y).
      + rewrite IH1, app_assoc. reflexivity.
      + rewrite IH2, app_assoc. reflexivity. }
  exact (proj1 H).
Qed.

Lemma usv_octets_around (s a t : jsstring) :
  ascii a -> a <> [] -> usv_octets (s ++ a ++ t) = usv_octets s ++ a ++ usv_octets t.
Proof.
  intros Ha Hn. destruct a as [|c a]; [contradiction|].
  pose proof (Forall_inv Ha) as Hc. cbn [app].
  rewrite usv_octets_app_ascii by exact Hc.
  change (c :: a ++ t) with ((c :: a) ++ t).
  rewrite usv_octets_ascii_app by exact Ha. reflexivity.
Qed.

Lemma ascii_parts : ascii part_a /\ ascii part_b /\ ascii part_c /\ ascii part_d.
Proof. repeat split; apply ascii_forallb; vm_compute; reflexivity. Qed.

(** The octets of the composed document: the fixed text around the
    octets of each buffer. *)
Lemma usv_octets_srcDoc (b : SourceBundle) :
  usv_octets (srcDoc b)
  = part_a ++ usv_octets (b_css b) ++ part_b ++ usv_octets (b_html b) ++ part_c
    ++ usv_octets (b_js b) ++ part_d.
Proof.
  destruct ascii_parts as (Ha & Hb & Hc & Hd). rewrite srcDoc_parts.
  rewrite usv_octets_ascii_app by exact Ha. f_equal.
  rewrite usv_octets_around by (exact Hb || discriminate). do 2 f_equal.
  rewrite usv_octets_around by (exact Hc || discriminate). do 2 f_equal.
  rewrite <- (app_nil_r part_d) at 1.
  rewrite usv_octets_around by (exact Hd || discriminate).
  rewrite app_nil_r. reflexivity.
Qed.

(** On well-formed UTF-16 nothing is replaced. *)
Lemma usv_octets_utf8 (s : jsstring) : wf16 s -> usv_octets s = utf8 s.
Proof.
  induction 1 as [| c s Hc Hs _ IH | h l s Hh Hl _ IH].
  - reflexivity.
  - rewrite utf8_unit by exact Hs.
    destruct (not_surrogate c Hs) as [Hh _].
    cbn [usv_octets]. destruct s as [|d s].
    + rewrite Hs, app_nil_r. reflexivity.
    + rewrite Hh, Hs, IH. reflexivity.
  - rewrite utf8_pair by assumption. cbn [usv_octets].
    rewrite Hh, Hl, IH. reflexivity.
Qed.

(** The UTF-8 octets determine a well-formed string. *)
Lemma utf8_inj (s t : jsstring) : wf16 s -> wf16 t -> utf8 s = utf8 t -> s = t.
Proof.
  intros Hs Ht E. apply (inj Some).
  rewrite <- (decodeURIComponent_escape s Hs), <- (decodeURIComponent_escape t Ht), E.
  reflexivity.
Qed.

Lemma wf16_srcDoc (b : SourceBundle) : well_formed_text b -> wf16 (srcDoc b).
Proof.
  intros (Hh & Hc & Hj). destruct ascii_parts as (Ha & Hb & Hc' & Hd).
  rewrite srcDoc_parts.
  repeat (apply wf16_app; [first [assumption | apply wf16_ascii; assumption]|]).
  apply wf16_ascii. exact Hd.
Qed.

Lemma wf16_forallb (s : jsstring) :
  forallb (fun c => (c <? 65536) && negb (is_surrogate c)) s = true -> wf16 s.
Proof.
  induction s as [|c s IH]; cbn [forallb]; intros H; [constructor|].
  apply andb_true_iff in H. destruct H as [H1 H2].
  apply andb_true_iff in H1. destruct H1 as [Hc Hs].
  apply negb_true_iff in Hs. apply N.ltb_lt in Hc.
  apply wf16_unit; [exact Hc | exact Hs | exact (IH H2)].
Qed.

(** ** The preview machine *)

Arguments srcDoc : simpl never.
Arguments lit : simpl never.

Lemma commit_frame_auto (st : Editor) :
  autoUpdate st = true -> srcdoc_attr st = None -> commit_frame st = st.
Proof.
  intros Ha Hs. unfold commit_frame, srcdoc_prop. rewrite Ha, Hs. reflexivity.
Qed.

Lemma onChange_auto (v : option jsstring) (st : Editor) :
  autoUpdate st = true -> srcdoc_attr st = None -> changes v st ->
  onChange v st =
  with_timers
    (with_state st (set_buffer (activeEditor st) (default [] v) (bundle st))
       (layout st) (activeEditor st) (autoUpdate st) (lastSavedAt st))
    (Some (clock st + 300,
           srcDoc (set_buffer (activeEditor st) (default [] v) (bundle st))))
    (mount_refresh st).
Proof.
  intros Ha Hs Hc. unfold onChange, set_bundle, rerender.
  rewrite commit_frame_auto by assumption.
  unfold run_effect. cbn [with_state bundle autoUpdate clock mount_refresh].
  rewrite string_eqb_neq.
  - rewrite Ha. reflexivity.
  - intros Hd. apply srcDoc_set_buffer in Hd. exact (Hc Hd).
Qed.

Lemma due_later (now deadline : N) (doc : jsstring) :
  now < deadline -> due now (Some (deadline, doc)) = None.
Proof. intros H. unfold due. rewrite (proj2 (N.leb_gt deadline now)) by exact H. reflexivity. Qed.

Lemma due_reached (now deadline : N) (doc : jsstring) :
  deadline <= now -> due now (Some (deadline, doc)) = Some doc.
Proof. intros H. unfold due. rewrite (proj2 (N.leb_le deadline now)) by exact H. reflexivity. Qed.

(** *** What every reachable state satisfies *)

Lemma same_prop_eq (a b : option jsstring) : same_prop a b = true -> a = b.
Proof.
  destruct a as [x|], b as [y|]; cbn [same_prop]; try discriminate; [|reflexivity].
  intros E. apply string_eqb_eq in E. subst y. reflexivity.
Qed.

Lemma commit_frame_in_step (st : Editor) :
  attr_in_step (commit_frame st) /\ surface (commit_frame st) = surface st.
Proof.
  unfold commit_frame, attr_in_step.
  destruct (same_prop (srcdoc_prop st) (srcdoc_attr st)) eqn:E.
  - apply same_prop_eq in E. auto.
  - split; reflexivity.
Qed.

Lemma run_effect_in_step (old_doc : jsstring) (old_auto : bool) (st : Editor) :
  attr_in_step st -> attr_in_step (run_effect old_doc old_auto st)
  /\ surface (run_effect old_doc old_auto st) = surface st.
Proof.
  intros H. unfold run_effect. destruct (string_eqb _ _ && _); auto.
Qed.

Lemma rerender_well_formed (old new : Editor) :
  surface new = true -> well_formed (rerender old new).
Proof.
  intros Hf. unfold rerender, well_formed.
  destruct (commit_frame_in_step new) as [Ha Hs].
  destruct (run_effect_in_step (srcDoc (bundle old)) (autoUpdate old)
              (commit_frame new) Ha) as [Ha' Hs'].
  split; [|exact Ha']. rewrite Hs', Hs. exact Hf.
Qed.

Lemma write_doc_well_formed (r : render) (st : Editor) :
  well_formed st -> well_formed (write_doc r st).
Proof.
  intros [Hf Ha]. unfold write_doc. rewrite Hf. split; assumption.
Qed.

(** What the template selector does, option by option. *)
Lemma selectTemplate_eq (o : template_option) (st : Editor) :
  selectTemplate o st
  = match o with
    | ApplyTemplateOption => st
    | DefaultOption => set_bundle st DEFAULT_TEMPLATE
    | StarterOption => set_bundle st starter
    | ReactPlayOption => set_bundle st reactPlay
    end.
Proof.
  unfold selectTemplate, applyTemplate.
  assert (E : TEMPLATES_get (option_value o)
              = match o with
                | ApplyTemplateOption => NoEntry
                | DefaultOption => Preset DEFAULT_TEMPLATE
                | StarterOption => Preset starter
                | ReactPlayOption => Preset reactPlay
                end).
  { destruct o; vm_compute; reflexivity. }
  rewrite E. destruct o; reflexivity.
Qed.

Lemma selectTemplate_cases (o : template_option) (st : Editor) :
  selectTemplate o st = st \/ exists t, selectTemplate o st = set_bundle st t.
Proof. rewrite selectTemplate_eq. destruct o; eauto. Qed.

Lemma step_well_formed (e : event) (st : Editor) :
  well_formed st -> well_formed (step e st).
Proof.
  intros Hw. pose proof Hw as [Hf Ha]. destruct e; cbn [step].
  - unfold onChange, set_bundle. apply rerender_well_formed. exact Hf.
  - destruct (selectTemplate_cases o st) as [-> | [t ->]]; [exact Hw|].
    unfold set_bundle. apply rerender_well_formed. exact Hf.
  - unfold clearAll, set_bundle. apply rerender_well_formed. exact Hf.
  - unfold toggleAuto. apply rerender_well_formed. exact Hf.
  - apply write_doc_well_formed. exact Hw.
  - unfold saveToLocal. destruct (setItem _ _ _).
    + apply rerender_well_formed. exact Hf.
    + split; assumption.
  - split; assumption.
  - unfold setLayout. apply rerender_well_formed. exact Hf.
  - unfold setActiveEditor. apply rerender_well_formed. exact Hf.
  - unfold well_formed, attr_in_step, srcdoc_prop in *.
    unfold advance, write_doc. rewrite Hf.
    destruct (due _ (mount_refresh st)); destruct (due _ (debounce st));
      cbn; rewrite ?Hf; cbn; split; assumption || reflexivity.
Qed.

Lemma reachable_well_formed (st : Editor) : reachable st -> well_formed st.
Proof.
  intros (b & from_url & s & now & es & ->).
  assert (H : forall es st, well_formed st -> well_formed (run es st)).
  { clear. induction es as [|e es IH]; intros st Hw; [exact Hw|].
    apply IH, step_well_formed, Hw. }
  apply H. split; reflexivity.
Qed.

(** *** The two timeouts *)

Lemma rerender_timers (old new : Editor) :
  mount_refresh (rerender old new) = mount_refresh new
  /\ clock (rerender old new) = clock new
  /\ (debounce (rerender old new) = debounce new
      \/ debounce (rerender old new)
         = if autoUpdate new then Some (clock new + 300, srcDoc (bundle new))
           else None).
Proof.
  unfold rerender, run_effect, commit_frame.
  destruct (same_prop _ _);
    cbn [bundle autoUpdate clock mount_refresh debounce];
    destruct (string_eqb _ _ && _);
    cbn [with_timers bundle autoUpdate clock mount_refresh debounce]; auto.
Qed.

Lemma rerender_refresh_first (old new st : Editor) :
  refresh_first st -> mount_refresh new = mount_refresh st ->
  clock new = clock st -> debounce new = debounce st ->
  refresh_first (rerender old new).
Proof.
  intros H Hm Hc Hd m doc.
  destruct (rerender_timers old new) as (Em & Ec & Ed).
  rewrite Em, Ec, Hm, Hc. intros Hp. destruct (H m doc Hp) as [H1 H2].
  split; [exact H1|]. intros t d. destruct Ed as [-> | ->].
  - rewrite Hd. apply H2.
  - rewrite Hc. destruct (autoUpdate new); [|discriminate].
    intros E. injection E as <- _. lia.
Qed.

Lemma pending_some (now : N) (t : option (N * jsstring)) (x : N) (d : jsstring) :
  pending now t = Some (x, d) -> t = Some (x, d) /\ now < x.
Proof.
  unfold pending, due. destruct t as [[y e]|]; [|discriminate].
  destruct (y <=? now) eqn:E; [discriminate|].
  apply N.leb_gt in E. intros H. injection H as -> ->. auto.
Qed.

Lemma advance_fields (dt : N) (st : Editor) :
  bundle (advance dt st) = bundle st /\ autoUpdate (advance dt st) = autoUpdate st
  /\ debounce (advance dt st) = pending (clock st + dt) (debounce st)
  /\ clock (advance dt st) = clock st + dt.
Proof.
  unfold advance, write_doc.
  destruct (due _ (mount_refresh st)); destruct (due _ (debounce st));
    destruct (surface st) eqn:E; cbn; rewrite ?E; repeat split.
Qed.

Lemma advance_mount_refresh (dt : N) (st : Editor) :
  mount_refresh (advance dt st) = pending (clock st + dt) (mount_refresh st).
Proof. reflexivity. Qed.

Lemma step_refresh_first (e : event) (st : Editor) :
  refresh_first st -> refresh_first (step e st).
Proof.
  intros H. destruct e; cbn [step].
  - unfold onChange, set_bundle.
    apply (rerender_refresh_first _ _ st); [exact H | reflexivity ..].
  - destruct (selectTemplate_cases o st) as [-> | [t ->]]; [exact H|].
    unfold set_bundle.
    apply (rerender_refresh_first _ _ st); [exact H | reflexivity ..].
  - unfold clearAll, set_bundle.
    apply (rerender_refresh_first _ _ st); [exact H | reflexivity ..].
  - unfold toggleAuto.
    apply (rerender_refresh_first _ _ st); [exact H | reflexivity ..].
  - unfold refreshPreview, write_doc. destruct (surface st); exact H.
  - unfold saveToLocal. destruct (setItem _ _ _); [|exact H].
    apply (rerender_refresh_first _ _ st); [exact H | reflexivity ..].
  - exact H.
  - unfold setLayout.
    apply (rerender_refresh_first _ _ st); [exact H | reflexivity ..].
  - unfold setActiveEditor.
    apply (rerender_refresh_first _ _ st); [exact H | reflexivity ..].
  - destruct (advance_fields dt st) as (_ & _ & Ed & Ec).
    intros m doc. rewrite advance_mount_refresh, Ec. intros Hp.
    apply pending_some in Hp. destruct Hp as [Hp _].
    destruct (H m doc Hp) as [H1 H2]. split; [lia|].
    intros t d. rewrite Ed. intros Ht. apply pending_some in Ht.
    destruct Ht as [Ht _]. exact (H2 t d Ht).
Qed.

Lemma reachable_mounted (b : SourceBundle) (from_url : bool) (s : Storage) (now : N) :
  reachable (mounted b from_url s now).
Proof. exists b, from_url, s, now, []. reflexivity. Qed.

Lemma reachable_refresh_first (st : Editor) : reachable st -> refresh_first st.
Proof.
  intros (b & from_url & s & now & es & ->).
  assert (H : forall es st, refresh_first st -> refresh_first (run es st)).
  { clear. induction es as [|e es IH]; intros st Hw; [exact Hw|].
    apply IH, step_refresh_first, Hw. }
  apply H. intros m doc. destruct from_url; cbn; [|discriminate].
  intros E. injection E as <- _. split; [lia|].
  intros t d E. injection E as <- _. lia.
Qed.

(** Before the debounced write is due only the mount refresh can run. *)
Lemma advance_before (w t : N) (doc : jsstring) (shown : list render) (st : Editor) :
  pending_write t doc shown st -> clock st + w < t ->
  pending_write t doc shown (advance w st)
  /\ bundle (advance w st) = bundle st
  /\ autoUpdate (advance w st) = autoUpdate st
  /\ srcdoc_attr (advance w st) = srcdoc_attr st
  /\ activeEditor (advance w st) = activeEditor st
  /\ clock (advance w st) = clock st + w.
Proof.
  intros (Hf & Hd & Hc & Hm & Hs) Hw. unfold pending_write, mount_write in *.
  unfold advance. rewrite Hd. unfold pending. rewrite due_later by exact Hw.
  destruct (mount_refresh st) as [[m d]|] eqn:Em.
  - unfold due. destruct (m <=? clock st + w) eqn:E.
    + unfold write_doc. rewrite Hf. cbn. rewrite app_nil_r.
      repeat split; try assumption; try lia; try discriminate.
    + cbn. apply N.leb_gt in E.
      repeat split; try assumption; lia.
  - cbn. repeat split; try assumption; try lia; try discriminate.
Qed.

(** When the debounced write falls due, the mount refresh, if it is
    still to run, runs before it. *)
Lemma advance_after (w t : N) (doc : jsstring) (shown : list render) (st : Editor) :
  pending_write t doc shown st -> t <= clock st + w ->
  renders (advance w st) = shown ++ [TimerWrite doc]
  /\ debounce (advance w st) = None /\ mount_refresh (advance w st) = None.
Proof.
  intros (Hf & Hd & Hc & Hm & Hs) Hw. unfold mount_write in Hs.
  unfold advance. rewrite Hd. unfold pending. rewrite due_reached by exact Hw.
  destruct (mount_refresh st) as [[m d]|] eqn:Em.
  - rewrite due_reached by (specialize (Hm m d eq_refl); lia).
    unfold write_doc. rewrite Hf. cbn. rewrite Hf. cbn. rewrite Hs. auto.
  - unfold write_doc. cbn. rewrite Hf. cbn. rewrite app_nil_r in Hs.
    rewrite Hs. auto.
Qed.

(** With no timeout pending, time passes and nothing is rendered. *)
Lemma advance_idle (w : N) (st : Editor) :
  debounce st = None -> mount_refresh st = None ->
  renders (advance w st) = renders st
  /\ debounce (advance w st) = None /\ mount_refresh (advance w st) = None.
Proof. intros Hd Hm. unfold advance. rewrite Hd, Hm. cbn. auto. Qed.

Lemma run_waits_cons (w : N) (ws : list N) (st : Editor) :
  run (map Wait (w :: ws)) st = run (map Wait ws) (advance w st).
Proof. reflexivity. Qed.

Lemma waits_idle (ws : list N) (st : Editor) :
  debounce st = None -> mount_refresh st = None ->
  renders (run (map Wait ws) st) = renders st
  /\ debounce (run (map Wait ws) st) = None
  /\ mount_refresh (run (map Wait ws) st) = None.
Proof.
  revert st. induction ws as [|w ws IH]; intros st Hd Hm; [auto|].
  rewrite run_waits_cons.
  destruct (advance_idle w st Hd Hm) as (Hr & Hd' & Hm').
  destruct (IH _ Hd' Hm') as (Hr2 & Hd2 & Hm2). rewrite Hr2, Hr. auto.
Qed.

(** However the time is cut into waits: the debounced write has not run
    before its time, and has run once after it. *)
Lemma waits_pending_write (ws : list N) (t : N) (doc : jsstring)
    (shown : list render) (st : Editor) :
  pending_write t doc shown st ->
  (clock st + elapsed ws < t -> pending_write t doc shown (run (map Wait ws) st))
  /\ (t <= clock st + elapsed ws ->
      renders (run (map Wait ws) st) = shown ++ [TimerWrite doc]
      /\ debounce (run (map Wait ws) st) = None
      /\ mount_refresh (run (map Wait ws) st) = None).
Proof.
  revert st. induction ws as [|w ws IH]; intros st Hp.
  - cbn [elapsed fold_right map]. split; [intros _; exact Hp|].
    destruct Hp as (_ & _ & Hc & _). lia.
  - rewrite run_waits_cons. cbn [elapsed fold_right]. fold (elapsed ws).
    destruct (N.lt_ge_cases (clock st + w) t) as [Hlt | Hge].
    + destruct (advance_before w t doc shown st Hp Hlt) as (Hp' & _ & _ & _ & _ & Ec).
      destruct (IH _ Hp') as [IH1 IH2]. rewrite Ec in IH1, IH2.
      split; intros H; [apply IH1 | apply IH2]; lia.
    + destruct (advance_after w t doc shown st Hp Hge) as (Hr & Hd & Hm).
      destruct (waits_idle ws _ Hd Hm) as (Hr2 & Hd2 & Hm2).
      split; [lia|]. intros _. rewrite Hr2, Hr. auto.
Qed.






(** Closes a goal [a <> b] between closed terms by evaluation. *)
Ltac differ := let H := fresh in intro H; vm_compute in H; discriminate H.

(** ** Claims about the preview *)

Lemma run_cons (e : event) (es : list event) (st : Editor) :
  run (e :: es) st = run es (step e st).
Proof. reflexivity. Qed.





Lemma typing_first_changes : changes typing_first typing_start.
Proof. differ. Qed.

Lemma typing_rest_burst : burst typing_rest (onChange typing_first typing_start).
Proof.
  split; [reflexivity|]. split; [differ|].
  split; [reflexivity|]. split; [differ|]. exact I.
Qed.






(** The same run, evaluated: the one write holds the document of the
    third edit. *)
Lemma typing_run_renders :
  renders (run [Edit typing_first; Wait 100; Edit (Some (lit "<h1>ab</h1>"));
                Wait 250; Edit (Some (lit "<h1>abc</h1>")); Wait 300] typing_start)
  = [TimerWrite (srcDoc (set_buffer Html (lit "<h1>abc</h1>") DEFAULT_TEMPLATE))].
Proof. vm_compute. reflexivity. Qed.

(** In manual mode the frame's [srcDoc] prop is the composed document,
    so an edit that changes a buffer reloads the frame at once. *)
Lemma manual_edit_renders (v : option jsstring) (st : Editor) :
  autoUpdate st = false -> attr_in_step st -> changes v st ->
  renders (onChange v st)
  = renders st ++ [SrcdocLoad (srcDoc (bundle (onChange v st)))]
  /\ bundle (onChange v st)
     = set_buffer (activeEditor st) (default [] v) (bundle st).
Proof.
  intros Ha Hs Hc. unfold attr_in_step, srcdoc_prop in Hs. rewrite Ha in Hs.
  unfold changes in Hc.
  unfold onChange, set_bundle, rerender, run_effect, commit_frame, srcdoc_prop.
  destruct st as [b l a auto saved deb mr attr sf ck sto con rs dl].
  cbn in Ha, Hs, Hc. subst auto attr. cbn.
  assert (Hn : string_eqb (srcDoc (set_buffer a (default [] v) b)) (srcDoc b) = false).
  { apply string_eqb_neq. intros H. apply srcDoc_set_buffer in H. exact (Hc H). }
  rewrite Hn. cbn. rewrite Hn. cbn. auto.
Qed.

(** C2 (the code at the failing input).  With auto-update off and no
    refresh fired, one edit of the markup buffer adds a render: after the
    first debounced write and the load caused by the switch to manual
    mode, the frame loads the document of the edited bundle. *)
Theorem manual_mode_edit_renders_without_refresh :
  autoUpdate manual_start = false
  /\ renders manual_start
     = [TimerWrite (srcDoc DEFAULT_TEMPLATE); SrcdocLoad (srcDoc DEFAULT_TEMPLATE)]
  /\ renders (onChange (Some (lit "<h1>a</h1>")) manual_start)
     = renders manual_start
       ++ [SrcdocLoad (srcDoc (set_buffer Html (lit "<h1>a</h1>") DEFAULT_TEMPLATE))].
Proof.
  split; [vm_compute; reflexivity|]. split; [vm_compute; reflexivity|].
  destruct (manual_edit_renders (Some (lit "<h1>a</h1>")) manual_start) as [Hr Hb].
  - vm_compute. reflexivity.
  - vm_compute. reflexivity.
  - differ.
  - rewrite Hr, Hb. vm_compute. reflexivity.
Qed.

(** The manual trigger writes the document of the bundle as it is when
    the button is pressed. *)
Lemma refreshPreview_latest (st : Editor) :
  surface st = true ->
  renders (refreshPreview st) = renders st ++ [RefreshWrite (srcDoc (bundle st))].
Proof. intros H. unfold refreshPreview, write_doc. rewrite H. reflexivity. Qed.

(** ** Claims about the composer and the export *)


(** C6 fails as stated: the file holds octets, and [new Blob] writes an
    unpaired surrogate as U+FFFD.  Two bundles with different composed
    documents are exported as the same file, so the file is not exactly
    the document: nothing reads every document back from its file. *)
Lemma download_not_exact :
  srcDoc bundle_lone <> srcDoc bundle_replaced
  /\ exported (mounted bundle_lone false (empty_storage 0) 0)
     = exported (mounted bundle_replaced false (empty_storage 0) 0)
  /\ ~ (exists read : list N -> jsstring,
          forall st, read <$> exported st = Some (srcDoc (bundle st))).
Proof.
  assert (Hn : srcDoc bundle_lone <> srcDoc bundle_replaced) by differ.
  assert (He : exported (mounted bundle_lone false (empty_storage 0) 0)
               = exported (mounted bundle_replaced false (empty_storage 0) 0)).
  { vm_compute. reflexivity. }
  split; [exact Hn|]. split; [exact He|].
  intros [read H].
  pose proof (H (mounted bundle_lone false (empty_storage 0) 0)) as H1.
  pose proof (H (mounted bundle_replaced false (empty_storage 0) 0)) as H2.
  rewrite He, H2 in H1. apply (inj Some) in H1. exact (Hn (eq_sym H1)).
Qed.

(** C6, amended.  The file [downloadProject] hands to the browser is
    named playground.html and holds the UTF-8 octets of the composed
    document of the current bundle, the string the manual refresh writes
    into the preview, with an unpaired surrogate written as U+FFFD.  It
    is not the three raw buffers: its octets are those of each buffer
    inside the fixed text of the document, whose last part holds the
    [catch] clause of the guard.  When the buffers are well-formed
    UTF-16 nothing is replaced, and the file determines the document. *)
Theorem download_is_composed_document (st : Editor) :
  downloads (downloadProject st)
  = downloads st
    ++ [{| file_name := lit "playground.html"; file_type := lit "text/html";
           file_bytes := usv_octets (srcDoc (bundle st)) |}]
  /\ exported st
     = Some (part_a ++ usv_octets (b_css (bundle st)) ++ part_b
             ++ usv_octets (b_html (bundle st)) ++ part_c
             ++ usv_octets (b_js (bundle st)) ++ part_d)
  /\ occurs_in (lit "} catch (e) {" ++ fault_handler ++ lit "}") part_d
  /\ renders (refreshPreview st)
     = (if surface st then renders st ++ [RefreshWrite (srcDoc (bundle st))]
        else renders st)
  /\ bundle (downloadProject st) = bundle st
  /\ (well_formed_text (bundle st) ->
      exported st = Some (utf8 (srcDoc (bundle st)))
      /\ forall st', well_formed_text (bundle st') ->
           exported st' = exported st -> srcDoc (bundle st') = srcDoc (bundle st)).
Proof.
  assert (He : forall s, exported s = Some (usv_octets (srcDoc (bundle s)))).
  { intros s. unfold exported, downloadProject. cbn [downloads].
    rewrite last_snoc. reflexivity. }
  split; [reflexivity|]. split; [rewrite He, usv_octets_srcDoc; reflexivity|].
  split; [|split; [|split; [reflexivity|]]].
  - exists (nl ++ lit "      "),
      (nl ++ lit "    </script>" ++ nl ++ lit "  </body>" ++ nl ++ lit "</html>").
    vm_compute. reflexivity.
  - unfold refreshPreview, write_doc. destruct (surface st); reflexivity.
  - intros Hw. rewrite He, usv_octets_utf8 by (apply wf16_srcDoc, Hw).
    split; [reflexivity|]. intros st' Hw' E.
    rewrite He, usv_octets_utf8 in E by (apply wf16_srcDoc, Hw').
    apply (inj Some) in E.
    apply utf8_inj; [apply wf16_srcDoc, Hw' | apply wf16_srcDoc, Hw | exact E].
Qed.

Lemma download_is_composed_document_witness :
  exported typing_start = Some (utf8 (srcDoc (bundle typing_start))).
Proof.
  assert (Hw : well_formed_text (bundle typing_start)).
  { repeat split; apply wf16_forallb; vm_compute; reflexivity. }
  exact (proj1 (proj2 (proj2 (proj2 (proj2 (proj2
           (download_is_composed_document typing_start))))) Hw)).
Defined.

(** C7.  Applying a template of the table puts the preset's three values
    in the three buffers, whatever they held before. *)
Theorem applyTemplate_replaces_bundle (name : jsstring) (t : SourceBundle) (st : Editor) :
  TEMPLATES name = Some t ->
  exists st', applyTemplate name st = NextState st'
    /\ bundle st' = t
    /\ b_html (bundle st') = b_html t
    /\ b_css (bundle st') = b_css t
    /\ b_js (bundle st') = b_js t.
Proof.
  intros H. exists (set_bundle st t).
  assert (Hb : bundle (set_bundle st t) = t).
  { unfold set_bundle, rerender, run_effect, commit_frame.
    destruct (same_prop _ _); destruct (string_eqb _ _ && _); reflexivity. }
  split; [unfold applyTemplate, TEMPLATES_get; rewrite H; reflexivity|].
  rewrite Hb. auto.
Qed.

Lemma applyTemplate_replaces_bundle_witness :
  exists st', applyTemplate (lit "starter") typing_start = NextState st'
    /\ bundle st' = starter.
Proof.
  destruct (applyTemplate_replaces_bundle (lit "starter") starter typing_start
              eq_refl) as (st' & H1 & H2 & _).
  exists st'. split; assumption.
Defined.

(** ** Saving *)

Lemma setItem_refused (key value : jsstring) (s : Storage) :
  refuses key value s -> exists e, setItem key value s = Thrown e.
Proof.
  intros [H | H]; unfold setItem.
  - rewrite H. exists SecurityError. reflexivity.
  - destruct (available s); [|exists SecurityError; reflexivity].
    rewrite (proj2 (N.leb_gt _ _) H). exists QuotaExceededError. reflexivity.
Qed.

(** C9.  When the storage area is unavailable or its quota would be
    exceeded, [saveToLocal] returns normally; the state it leaves
    differs from the one before only by one warning in the console: the
    three buffers, the last-saved timestamp and the stored items are
    unchanged. *)
Theorem save_failure_is_silent (key t1 t2 : jsstring) (st : Editor) :
  refuses key (save_payload t1 st) (storage st) ->
  exists e,
    saveToLocal key t1 t2 st = warned e st
    /\ bundle (saveToLocal key t1 t2 st) = bundle st
    /\ lastSavedAt (saveToLocal key t1 t2 st) = lastSavedAt st
    /\ storage (saveToLocal key t1 t2 st) = storage st
    /\ console (saveToLocal key t1 t2 st)
       = console st ++ [Warn (lit "Could not save:") e].
Proof.
  intros H. apply setItem_refused in H. destruct H as [e He].
  exists e. unfold saveToLocal. fold (save_payload t1 st). rewrite He.
  repeat split.
Qed.

Lemma save_failure_is_silent_witness :
  exists e,
    saveToLocal storageKey (lit "2024-01-01T00:00:00.000Z")
      (lit "2024-01-01T00:00:00.001Z") typing_start
    = warned e typing_start.
Proof.
  destruct (save_failure_is_silent storageKey (lit "2024-01-01T00:00:00.000Z")
              (lit "2024-01-01T00:00:00.001Z") typing_start) as (e & He & _).
  - right. vm_compute. reflexivity.
  - exists e. exact He.
Defined.

(** A save the storage area accepts, for comparison: the snapshot is
    stored and the timestamp set. *)
Lemma save_success (key t1 t2 : jsstring) (st : Editor) (s : Storage) :
  setItem key (save_payload t1 st) (storage st) = Returned s ->
  storage (saveToLocal key t1 t2 st) = s
  /\ lastSavedAt (saveToLocal key t1 t2 st) = Some t2
  /\ bundle (saveToLocal key t1 t2 st) = bundle st.
Proof.
  intros H. unfold saveToLocal. fold (save_payload t1 st). rewrite H.
  unfold rerender, run_effect, commit_frame.
  destruct (same_prop _ _); destruct (string_eqb _ _ && _); repeat split.
Qed.

(** ** Restore on load *)

Lemma coalesce_carried (x v : json) (y : outcome json) :
  x <> JNull -> coalesce (Some x) y = Returned x.
Proof. intros H. destruct x; try reflexivity. congruence. Qed.

Lemma coalesce_lacking (v : json) (f : buffer) (y : outcome json) :
  lacks v f -> coalesce (opt_chain v f) y = y.
Proof. intros [-> | ->]; reflexivity. Qed.

Lemma lacks_null (f : buffer) : lacks JNull f.
Proof. left. reflexivity. Qed.

Lemma initial_buffer_url (url snapshot : json) (initial : option json)
    (f : buffer) (x : json) :
  carries url f x -> initial_buffer url snapshot initial f = Returned x.
Proof.
  intros [H Hx]. unfold initial_buffer. rewrite H. apply coalesce_carried; assumption.
Qed.

Lemma initial_buffer_snapshot (url snapshot : json) (initial : option json)
    (f : buffer) (x : json) :
  lacks url f -> carries snapshot f x ->
  initial_buffer url snapshot initial f = Returned x.
Proof.
  intros Hu [H Hx]. unfold initial_buffer. rewrite coalesce_lacking by exact Hu.
  rewrite H. apply coalesce_carried; assumption.
Qed.

Lemma initial_buffer_prop (url snapshot init : json) (f : buffer) (x : json) :
  lacks url f -> lacks snapshot f -> carries init f x ->
  initial_buffer url snapshot (Some init) f = Returned x.
Proof.
  intros Hu Hs [H Hx]. unfold initial_buffer.
  rewrite !coalesce_lacking by assumption.
  assert (Hi : initial_prop (Some init) f = Returned (Some x)).
  { unfold initial_prop. rewrite <- H. destruct init; try reflexivity. discriminate. }
  rewrite Hi. apply coalesce_carried; assumption.
Qed.

Lemma initial_buffer_default (url snapshot : json) (initial : option json) (f : buffer) :
  lacks url f -> lacks snapshot f ->
  match initial with
  | None => True
  | Some init => init <> JNull /\ lacks init f
  end ->
  initial_buffer url snapshot initial f = Returned (JString (default_buffer f)).
Proof.
  intros Hu Hs Hi. unfold initial_buffer. rewrite !coalesce_lacking by assumption.
  destruct initial as [init|]; [|reflexivity].
  destruct Hi as [Hn Hl].
  assert (Hp : initial_prop (Some init) f = Returned (opt_chain init f)).
  { destruct init; try reflexivity. congruence. }
  rewrite Hp. apply coalesce_lacking, Hl.
Qed.

(** C10.  Each buffer is resolved on its own: it takes the share token's
    field when the token carries one; when the decoded token lacks the
    field, that field alone goes on to the snapshot; the [initial] prop
    is asked after the snapshot and before the built-in default; and so
    the restored bundle can hold fields of different sources, as the
    last part shows on a token with only [html], a snapshot with only
    [css] and an [initial] prop with only [js]. *)
Theorem buffers_resolve_independently :
  (forall url snapshot initial f x,
      carries url f x -> initial_buffer url snapshot initial f = Returned x)
  /\ (forall url snapshot initial f x,
      lacks url f -> carries snapshot f x ->
      initial_buffer url snapshot initial f = Returned x)
  /\ (forall url snapshot init f x,
      lacks url f -> lacks snapshot f -> carries init f x ->
      initial_buffer url snapshot (Some init) f = Returned x)
  /\ (forall url snapshot initial f,
      lacks url f -> lacks snapshot f ->
      match initial with
      | None => True
      | Some init => init <> JNull /\ lacks init f
      end ->
      initial_buffer url snapshot initial f = Returned (JString (default_buffer f)))
  /\ restore (Some token_html_only) snapshot_css_only storageKey (Some initial_js_only)
     = Returned {| r_html := JString (lit "x"); r_css := JString (lit "p{}");
                   r_js := JString (lit "go()") |}
  /\ restore (Some token_html_only) snapshot_css_only storageKey None
     = Returned {| r_html := JString (lit "x"); r_css := JString (lit "p{}");
                   r_js := JString DEFAULT_js |}.
Proof.
  split; [exact initial_buffer_url|].
  split; [exact initial_buffer_snapshot|].
  split; [exact initial_buffer_prop|].
  split; [exact initial_buffer_default|].
  split; vm_compute; reflexivity.
Qed.

Lemma buffers_resolve_independently_witness :
  initial_buffer (fromUrl (Some token_html_only))
    (fromStorage snapshot_css_only storageKey) (Some initial_js_only) Css
  = Returned (JString (lit "p{}")).
Proof.
  apply (proj1 (proj2 buffers_resolve_independently)).
  - left. vm_compute. reflexivity.
  - split; [vm_compute; reflexivity | discriminate].
Defined.

(** ** Restore as the specification words it *)

(** C3 fails as stated: with a token that decodes to an object holding
    only [html] and a snapshot holding all three fields, the restored
    bundle is neither the token's nor the snapshot's nor the default: it
    takes [html] from the token and [css], [js] from the snapshot.  And
    with no token and no snapshot, an [initial] prop that holds [js]
    gives a bundle that is not the default one. *)
Lemma restore_not_whole :
  fromUrl (Some token_html_only) = JObject [(lit "html", JString (lit "x"))]
  /\ restore (Some token_html_only) snapshot_full storageKey None
     = Returned {| r_html := JString (lit "x"); r_css := JString (lit "b");
                   r_js := JString (lit "c") |}
  /\ restore None (empty_storage 5000000) storageKey (Some initial_js_only)
     = Returned {| r_html := JString DEFAULT_html; r_css := JString DEFAULT_css;
                   r_js := JString (lit "go()") |}
  /\ ~ (forall urlCode s key initial r,
          restore urlCode s key initial = Returned r ->
          restored_fields r = spec_restore urlCode s key).
Proof.
  split; [vm_compute; reflexivity|]. split; [vm_compute; reflexivity|].
  split; [vm_compute; reflexivity|].
  intros H.
  specialize (H (Some token_html_only) snapshot_full storageKey None _ eq_refl).
  vm_compute in H. discriminate H.
Qed.

Lemma restore_eq (urlCode : option jsstring) (s : Storage) (key : jsstring)
    (initial : option json) (h c j : json) :
  initial_buffer (fromUrl urlCode) (fromStorage s key) initial Html = Returned h ->
  initial_buffer (fromUrl urlCode) (fromStorage s key) initial Css = Returned c ->
  initial_buffer (fromUrl urlCode) (fromStorage s key) initial Js = Returned j ->
  restore urlCode s key initial = Returned {| r_html := h; r_css := c; r_js := j |}.
Proof. intros Hh Hc Hj. unfold restore. rewrite Hh, Hc, Hj. reflexivity. Qed.

Lemma fromStorage_malformed (s : Storage) (key raw : jsstring) :
  items s !! key = Some raw -> JSON_parse raw = None -> fromStorage s key = JNull.
Proof.
  intros Hi Hp. unfold fromStorage, getItem.
  destruct (available s); [|reflexivity]. rewrite Hi.
  destruct raw; [reflexivity|]. rewrite Hp. reflexivity.
Qed.

(** C3, amended.  When the token decodes to an object that carries all
    three fields, the restored bundle is the token's, whatever the
    snapshot and the [initial] prop hold.  When no token decodes and the
    snapshot carries all three fields, the restored bundle is the
    snapshot's.  When no token decodes, the snapshot is absent,
    unreadable or malformed and no [initial] prop is passed, the restored
    bundle is the default one; a snapshot that does not parse counts as
    absent, and nothing is thrown. *)
Theorem restore_by_priority (urlCode : option jsstring) (s : Storage)
    (key : jsstring) (initial : option json) (h c j : json) :
  (complete (fromUrl urlCode) h c j ->
   restore urlCode s key initial = Returned {| r_html := h; r_css := c; r_js := j |})
  /\ (fromUrl urlCode = JNull -> complete (fromStorage s key) h c j ->
      restore urlCode s key initial
      = Returned {| r_html := h; r_css := c; r_js := j |})
  /\ (fromUrl urlCode = JNull -> fromStorage s key = JNull ->
      restore urlCode s key None
      = Returned {| r_html := JString DEFAULT_html; r_css := JString DEFAULT_css;
                    r_js := JString DEFAULT_js |})
  /\ (forall raw, items s !! key = Some raw -> JSON_parse raw = None ->
      fromStorage s key = JNull).
Proof.
  split; [|split; [|split]].
  - intros (Hh & Hc & Hj). apply restore_eq; apply initial_buffer_url; assumption.
  - intros Hu (Hh & Hc & Hj).
    apply restore_eq; apply initial_buffer_snapshot;
      try assumption; rewrite Hu; apply lacks_null.
  - intros Hu Hs.
    apply (restore_eq urlCode s key None); rewrite Hu, Hs; reflexivity.
  - intros raw. apply fromStorage_malformed.
Qed.

Lemma restore_by_priority_witness :
  restore (Some token_full) snapshot_full storageKey None
  = Returned {| r_html := JString (lit "<b>x</b>");
                r_css := JString (lit "b{color:red}");
                r_js := JString (lit "f()") |}
  /\ restore None snapshot_full storageKey None
     = Returned {| r_html := JString (lit "a"); r_css := JString (lit "b");
                   r_js := JString (lit "c") |}
  /\ restore None snapshot_truncated storageKey None
     = Returned {| r_html := JString DEFAULT_html; r_css := JString DEFAULT_css;
                   r_js := JString DEFAULT_js |}.
Proof.
  split; [|split].
  - apply (proj1 (restore_by_priority (Some token_full) snapshot_full storageKey
                    None _ _ _)).
    repeat split; (vm_compute; reflexivity) || discriminate.
  - apply (proj1 (proj2 (restore_by_priority None snapshot_full storageKey
                           None _ _ _))); [reflexivity|].
    repeat split; (vm_compute; reflexivity) || discriminate.
  - apply (proj1 (proj2 (proj2 (restore_by_priority None snapshot_truncated
                                  storageKey None JNull JNull JNull))));
      [reflexivity|].
    apply (proj2 (proj2 (proj2
      (restore_by_priority None snapshot_truncated storageKey None
         JNull JNull JNull)))
      (concat [lit "{"; dq; lit "html"; dq; lit ":"; dq; lit "<p>hel"]));
      vm_compute; reflexivity.
Defined.

(** ** The alphabet of the share token *)

Lemma b64_encode_alphabet (bs : list N) :
  bytes bs -> Forall (fun c => base64_char c = true) (b64_encode bs).
Proof.
  intros H. rewrite b64_encode_split. apply Forall_app. split.
  - pose proof (sextets_bound bs H) as Hs.
    induction Hs as [|s ss Hs _ IH]; [constructor|].
    cbn [map]. apply Forall_cons_2; [|exact IH].
    pose proof (b64_char_alphabet s Hs) as Ha. unfold base64_char.
    apply orb_true_iff in Ha. apply orb_true_iff.
    destruct Ha as [Ha | Ha]; [left; exact Ha | right].
    revert Ha. unfold one_of. eval_lits. cbn [existsb].
    destruct (b64_char s =? 43); [reflexivity|].
    destruct (b64_char s =? 47); [reflexivity | discriminate].
  - destruct (padding_cases bs) as [-> | [-> | ->]]; repeat constructor.
Qed.

Lemma hex_upper_alnum (d : N) : d < 16 -> is_alnum (hex_upper d) = true.
Proof. intros H. unfold hex_upper. split_tests; bool_arith; bool_goal; lia. Qed.

Lemma base64_char_ascii (c : N) : base64_char c = true -> c < 128.
Proof.
  unfold base64_char, one_of. eval_lits. cbn [existsb]. intros H.
  bool_arith; lia.
Qed.

Lemma urlencoded_byte_escaped (b : N) :
  base64_char b = true -> Forall (fun c => escaped_char c = true) (urlencoded_byte b).
Proof.
  intros Hb. pose proof (base64_char_ascii b Hb) as Ha.
  unfold urlencoded_byte.
  destruct (b =? 32) eqn:E.
  - apply N.eqb_eq in E. subst b. discriminate Hb.
  - destruct (urlencoded_unescaped b) eqn:Eu.
    + apply Forall_cons_2; [|constructor]. unfold escaped_char.
      unfold base64_char in Hb. apply orb_true_iff in Hb.
      destruct Hb as [-> | Hb]; [reflexivity|].
      exfalso. revert Hb Eu. unfold urlencoded_unescaped, one_of. eval_lits.
      cbn [existsb]. intros Hb Eu. bool_arith; lia.
    + unfold pct. repeat (apply Forall_cons_2; [|]); [reflexivity | | | constructor];
        unfold escaped_char; rewrite hex_upper_alnum by lia; reflexivity.
Qed.

Lemma urlencoded_token_escaped (t : jsstring) :
  Forall (fun c => base64_char c = true) t ->
  Forall (fun c => escaped_char c = true) (urlencoded_string t).
Proof.
  intros H. unfold urlencoded_string. rewrite usv_octets_ascii.
  - induction H as [|c t Hc _ IH]; [constructor|].
    cbn [flat_map]. apply Forall_app. split; [|exact IH].
    apply urlencoded_byte_escaped, Hc.
  - induction H as [|c t Hc _ IH]; [constructor|].
    apply Forall_cons_2; [apply base64_char_ascii, Hc | exact IH].
Qed.

(** The address on a page whose own address has no query. *)
Lemma generateShareURL_fresh (base : jsstring) (frag : option jsstring) (st : Editor) :
  generateShareURL {| loc_base := base; loc_params := []; loc_fragment := frag |} st
  = base ++ lit "?code=" ++ urlencoded_string (encodeState (bundle st))
    ++ match frag with Some f => 35 :: f | None => [] end.
Proof. reflexivity. Qed.

(** C8 fails as stated: the token of the bundle whose markup is [<p>]
    holds [+] and [=], which are not unreserved in a URL; read back from
    a query in which it stands unescaped, its [+] is a space and the
    token no longer decodes. *)
Lemma token_not_url_safe :
  valid_bundle bundle_p
  /\ encodeState bundle_p = lit "eyJodG1sIjoiPHA+IiwiY3NzIjoiIiwianMiOiIifQ=="
  /\ decodeState (plus_as_space (encodeState bundle_p)) = JNull
  /\ ~ (forall b, valid_bundle b ->
          Forall (fun c => url_unreserved c = true) (encodeState b)).
Proof.
  assert (Hv : valid_bundle bundle_p).
  { repeat split; try apply code_units_lit; constructor. }
  split; [exact Hv|]. split; [vm_compute; reflexivity|].
  split; [vm_compute; reflexivity|].
  intros H. specialize (H bundle_p Hv).
  rewrite Forall_forall in H. specialize (H 43).
  assert (Hin : 43 ∈ encodeState bundle_p).
  { apply list_elem_of_In. vm_compute. do 15 right. left. reflexivity. }
  specialize (H Hin). vm_compute in H. discriminate H.
Qed.

(** C8, amended.  Every character of the token of a valid bundle is a
    character of standard base64 (a letter, a digit, [+], [/] or [=]).
    [generateShareURL] does not put the token in the address as it is:
    [searchParams.set] escapes it, so that every character of the query
    value is a letter, a digit or the [%] of an escape, and on a page
    whose address has no query the share address is that address, then
    [?code=], then the escaped token, then the fragment. *)
Theorem share_token_alphabet (b : SourceBundle) :
  valid_bundle b ->
  Forall (fun c => base64_char c = true) (encodeState b)
  /\ Forall (fun c => escaped_char c = true) (urlencoded_string (encodeState b))
  /\ forall base frag st,
       bundle st = b ->
       generateShareURL {| loc_base := base; loc_params := []; loc_fragment := frag |} st
       = base ++ lit "?code=" ++ urlencoded_string (encodeState b)
         ++ match frag with Some f => 35 :: f | None => [] end.
Proof.
  intros Hb.
  assert (Ha : Forall (fun c => base64_char c = true) (encodeState b)).
  { rewrite encodeState_value by exact Hb. apply b64_encode_alphabet.
    apply utf8_bytes, wf16_JSON_stringify, bundle_props_code_units, Hb. }
  split; [exact Ha|]. split; [apply urlencoded_token_escaped, Ha|].
  intros base frag st <-. apply generateShareURL_fresh.
Qed.

Lemma share_token_alphabet_witness :
  Forall (fun c => base64_char c = true) (encodeState bundle_p)
  /\ urlencoded_string (encodeState bundle_p)
     = lit "eyJodG1sIjoiPHA%2BIiwiY3NzIjoiIiwianMiOiIifQ%3D%3D".
Proof.
  split.
  - apply (share_token_alphabet bundle_p).
    repeat split; try apply code_units_lit; constructor.
  - vm_compute. reflexivity.
Defined.

(** ** The share round trip *)

(** C1.  For every bundle whose three buffers are strings of 16-bit code
    units, [decodeState] of its [encodeState] token is the object with
    the properties [html], [css] and [js], in that order, holding the
    three buffers. *)
Theorem share_round_trip (b : SourceBundle) :
  valid_bundle b -> decodeState (encodeState b) = bundle_json b.
Proof.
  intros Hb. pose proof (decodeState_encodeState b Hb) as H.
  rewrite H. reflexivity.
Qed.

Lemma share_round_trip_witness :
  decodeState (encodeState bundle_mixed) = bundle_json bundle_mixed.
Proof.
  apply (share_round_trip bundle_mixed).
  repeat split; try apply code_units_lit.
  unfold code_units. cbn [b_js bundle_mixed].
  repeat (apply Forall_cons_2; [reflexivity|]). constructor.
Defined.

(** * Further properties of the share encoding *)

Lemma b64_encode_nonempty (x : N) (l : list N) : b64_encode (x :: l) <> [].
Proof. destruct l as [|y [|z l]]; discriminate. Qed.

Lemma utf8_state_text (b : SourceBundle) :
  exists l, utf8 (state_text b) = 123 :: l.
Proof.
  unfold state_text, JSON_stringify. rewrite utf8_unit by reflexivity.
  eexists. reflexivity.
Qed.

Lemma encodeState_nonempty (b : SourceBundle) :
  valid_bundle b -> exists c r, encodeState b = c :: r.
Proof.
  intros Hb. rewrite encodeState_value by exact Hb.
  destruct (utf8_state_text b) as [l ->].
  pose proof (b64_encode_nonempty 123 l) as H.
  destruct (b64_encode (123 :: l)) as [|c r]; [congruence|]. eauto.
Qed.

Lemma bundle_json_carries (b : SourceBundle) (f : buffer) :
  carries (bundle_json b) f (JString (get_buffer f b)).
Proof. split; [destruct f; reflexivity | discriminate]. Qed.

(** X1.  A page opened with the token of a valid bundle starts with that
    bundle, whatever the storage area and the [initial] prop hold. *)
Theorem share_then_restore (b : SourceBundle) (s : Storage) (key : jsstring)
    (initial : option json) :
  valid_bundle b ->
  restore (Some (encodeState b)) s key initial = Returned (restored b).
Proof.
  intros Hb.
  assert (Hu : fromUrl (Some (encodeState b)) = bundle_json b).
  { destruct (encodeState_nonempty b Hb) as (c & r & E).
    unfold fromUrl. rewrite E, <- E. apply decodeState_encodeState, Hb. }
  apply restore_eq; rewrite Hu; apply initial_buffer_url;
    [apply (bundle_json_carries b Html) | apply (bundle_json_carries b Css)
     | apply (bundle_json_carries b Js)].
Qed.

Lemma valid_bundle_mixed : valid_bundle bundle_mixed.
Proof.
  repeat split; try apply code_units_lit.
  unfold code_units. cbn [b_js bundle_mixed].
  repeat (apply Forall_cons_2; [reflexivity|]). constructor.
Qed.

Lemma share_then_restore_witness :
  restore (Some (encodeState bundle_mixed)) snapshot_full storageKey None
  = Returned (restored bundle_mixed).
Proof.
  exact (share_then_restore bundle_mixed snapshot_full storageKey None
           valid_bundle_mixed).
Defined.

Lemma bundle_json_inj (a b : SourceBundle) : bundle_json a = bundle_json b -> a = b.
Proof.
  destruct a as [h c j], b as [h' c' j']. unfold bundle_json.
  cbn [b_html b_css b_js]. intros H.
  injection H as H1 H2 H3. subst. reflexivity.
Qed.

(** X2.  Two valid bundles with the same token are the same bundle, and
    the token of a valid bundle is never the empty string of the [catch]
    branch. *)
Theorem encodeState_injective (a b : SourceBundle) :
  valid_bundle a -> valid_bundle b ->
  encodeState a = encodeState b -> a = b /\ encodeState a <> [].
Proof.
  intros Ha Hb H. split.
  - apply bundle_json_inj.
    rewrite <- (decodeState_encodeState a Ha), <- (decodeState_encodeState b Hb), H.
    reflexivity.
  - destruct (encodeState_nonempty a Ha) as (c & r & ->). discriminate.
Qed.

Lemma encodeState_injective_witness :
  bundle_mixed = bundle_mixed /\ encodeState bundle_mixed <> [].
Proof.
  exact (encodeState_injective bundle_mixed bundle_mixed valid_bundle_mixed
           valid_bundle_mixed eq_refl).
Defined.

Lemma foreign_no_index (c : N) : foreign c -> b64_index c = None /\ c <> 61.
Proof.
  intros [H _]. unfold base64_char, one_of in H. revert H. eval_lits.
  cbn [existsb]. intros H. apply orb_false_iff in H. destruct H as [Ha Hs].
  apply orb_false_iff in Hs. destruct Hs as [H43 Hs].
  apply orb_false_iff in Hs. destruct Hs as [H47 Hs].
  apply orb_false_iff in Hs. destruct Hs as [H61 _].
  split; [|apply N.eqb_neq; exact H61].
  unfold is_alnum in Ha. apply orb_false_iff in Ha. destruct Ha as [Ha Hl].
  apply orb_false_iff in Ha. destruct Ha as [Hd Hu].
  unfold b64_index. rewrite Hu, Hl, Hd, H43, H47. reflexivity.
Qed.

Lemma In_strip_padding (c : N) (l : jsstring) :
  c <> 61 -> In c l -> In c (strip_padding l).
Proof.
  intros Hc Hin. unfold strip_padding.
  destruct (N.of_nat (length l) mod 4 =? 0); [|exact Hin].
  destruct (rev l) as [|a [|b r]] eqn:E; try exact Hin.
  assert (Hr : In c (a :: b :: r)) by (rewrite <- E; apply in_rev in Hin; exact Hin).
  destruct (a =? 61) eqn:Ea; [|exact Hin].
  apply N.eqb_eq in Ea. subst a.
  destruct Hr as [Hr | Hr]; [congruence|].
  destruct (b =? 61) eqn:Eb.
  - apply N.eqb_eq in Eb. subst b. destruct Hr as [Hr | Hr]; [congruence|].
    apply in_rev in Hr. exact Hr.
  - apply in_rev in Hr. exact Hr.
Qed.

Lemma mapM_index_foreign (c : N) (l : jsstring) :
  b64_index c = None -> In c l -> mapM b64_index l = None.
Proof.
  intros Hc. induction l as [|x l IH]; intros Hin; [destruct Hin|].
  cbn [mapM]. destruct Hin as [-> | Hin].
  - rewrite Hc. reflexivity.
  - rewrite (IH Hin). destruct (b64_index x); reflexivity.
Qed.

Lemma atob_foreign (c : N) (s : jsstring) : foreign c -> In c s -> atob s = None.
Proof.
  intros Hf Hin. destruct (foreign_no_index c Hf) as [Hi H61].
  destruct Hf as [_ Hw]. unfold atob.
  set (d := strip_padding _).
  assert (Hd : In c d).
  { apply In_strip_padding; [exact H61|]. apply filter_In. split; [exact Hin|].
    rewrite Hw. reflexivity. }
  destruct (N.of_nat (length d) mod 4 =? 1); [reflexivity|].
  rewrite (mapM_index_foreign c d Hi Hd). reflexivity.
Qed.

(** X3.  A token that holds a character which is neither white space nor
    a character of base64 decodes to [null], and a page opened with it
    starts as a page opened with no token. *)
Theorem foreign_token_ignored (c : N) (token : jsstring) (s : Storage)
    (key : jsstring) (initial : option json) :
  foreign c -> In c token ->
  decodeState token = JNull
  /\ restore (Some token) s key initial = restore None s key initial.
Proof.
  intros Hf Hin.
  assert (Hd : decodeState token = JNull).
  { unfold decodeState. rewrite (atob_foreign c token Hf Hin). reflexivity. }
  split; [exact Hd|].
  unfold restore, fromUrl. destruct token as [|x r]; [reflexivity|].
  rewrite Hd. reflexivity.
Qed.

Lemma foreign_token_ignored_witness :
  decodeState (lit "eyJo-dG1s") = JNull
  /\ restore (Some (lit "eyJo-dG1s")) snapshot_full storageKey None
     = restore None snapshot_full storageKey None.
Proof.
  apply (foreign_token_ignored 45 (lit "eyJo-dG1s") snapshot_full storageKey None).
  - split; reflexivity.
  - vm_compute. do 4 right. left. reflexivity.
Defined.

Lemma filter_twice {A} (f : A -> bool) (l : list A) :
  List.filter f (List.filter f l) = List.filter f l.
Proof.
  induction l as [|x l IH]; [reflexivity|].
  cbn [List.filter]. destruct (f x) eqn:E; [|exact IH].
  cbn [List.filter]. rewrite E, IH. reflexivity.
Qed.

Lemma decodeState_without_whitespace (token : jsstring) :
  decodeState token = decodeState (without_whitespace token).
Proof.
  assert (H : atob token = atob (without_whitespace token)).
  { unfold atob, without_whitespace. rewrite filter_twice. reflexivity. }
  unfold decodeState. rewrite H. reflexivity.
Qed.

(** X4.  White space inside a token does not matter: a text that is the
    token of a valid bundle once its spaces, tabs and line breaks are
    removed decodes to that bundle. *)
Theorem wrapped_token_decodes (b : SourceBundle) (token : jsstring) :
  valid_bundle b -> without_whitespace token = encodeState b ->
  decodeState token = bundle_json b.
Proof.
  intros Hb H. rewrite decodeState_without_whitespace, H.
  apply decodeState_encodeState, Hb.
Qed.

Lemma valid_bundle_p : valid_bundle bundle_p.
Proof. repeat split; try apply code_units_lit; constructor. Qed.

Lemma wrapped_token_decodes_witness : decodeState token_wrapped = bundle_json bundle_p.
Proof.
  apply (wrapped_token_decodes bundle_p token_wrapped valid_bundle_p).
  vm_compute. reflexivity.
Defined.

(** * Further properties of restore *)

Lemma fromStorage_none (s : Storage) (key : jsstring) :
  no_snapshot s key -> fromStorage s key = JNull.
Proof.
  intros [H | [H | [H | (raw & H & Hp)]]].
  - unfold fromStorage, getItem. rewrite H. reflexivity.
  - unfold fromStorage, getItem. destruct (available s); [|reflexivity].
    rewrite H. reflexivity.
  - unfold fromStorage, getItem. destruct (available s); [|reflexivity].
    rewrite H. reflexivity.
  - apply fromStorage_malformed with raw; assumption.
Qed.

(** X5.  A storage area that cannot be read, an empty slot, an empty
    string and a text that does not parse all count as no snapshot: the
    page starts as it would with an empty storage area, and nothing is
    thrown by the read. *)
Theorem unusable_snapshot_ignored (urlCode : option jsstring) (s : Storage)
    (key : jsstring) (initial : option json) :
  no_snapshot s key ->
  fromStorage s key = JNull
  /\ restore urlCode s key initial
     = restore urlCode (empty_storage 0) key initial.
Proof.
  intros H. pose proof (fromStorage_none s key H) as E.
  split; [exact E|].
  assert (E0 : fromStorage (empty_storage 0) key = JNull).
  { apply fromStorage_none. right. left. apply lookup_empty. }
  unfold restore. rewrite E, E0. reflexivity.
Qed.

Lemma unusable_snapshot_ignored_witness :
  fromStorage storage_denied storageKey = JNull
  /\ restore (Some token_full) storage_denied storageKey None
     = restore (Some token_full) (empty_storage 0) storageKey None.
Proof.
  apply (unusable_snapshot_ignored (Some token_full) storage_denied storageKey None).
  left. reflexivity.
Defined.

(** X6.  A token or a snapshot that parses to something other than an
    object (a number, a string, an array, [true]) supplies no buffer: each
    buffer is resolved as if that source were [null]. *)
Theorem non_object_source_ignored (v other : json) (initial : option json)
    (f : buffer) :
  not_object v ->
  initial_buffer v other initial f = initial_buffer JNull other initial f
  /\ initial_buffer other v initial f = initial_buffer other JNull initial f.
Proof.
  intros H. unfold initial_buffer.
  assert (E : opt_chain v f = None) by (destruct v; [reflexivity .. | destruct H]).
  rewrite E. split; reflexivity.
Qed.

Lemma non_object_source_ignored_witness :
  initial_buffer (JArray [JString (lit "x")]) JNull None Html
  = initial_buffer JNull JNull None Html.
Proof.
  exact (proj1 (non_object_source_ignored (JArray [JString (lit "x")]) JNull None
                  Html I)).
Defined.

Lemma carries_or_lacks (v : json) (f : buffer) :
  (exists x, carries v f x) \/ lacks v f.
Proof.
  unfold carries, lacks. destruct (opt_chain v f) as [x|]; [|auto].
  destruct x; try (left; eexists; split; [reflexivity | discriminate]).
  right. right. reflexivity.
Qed.

Lemma supplied_or_not (url snapshot : json) (f : buffer) :
  supplied url snapshot f \/ (lacks url f /\ lacks snapshot f).
Proof.
  destruct (carries_or_lacks url f) as [[x Hx] | Hu]; [left; exists x; auto|].
  destruct (carries_or_lacks snapshot f) as [[x Hx] | Hs]; [left; exists x; auto|].
  right. auto.
Qed.

Lemma initial_buffer_supplied (url snapshot : json) (initial : option json) (f : buffer) :
  supplied url snapshot f ->
  exists x, initial_buffer url snapshot initial f = Returned x.
Proof.
  intros (x & [H | [Hu H]]); exists x.
  - apply initial_buffer_url, H.
  - apply initial_buffer_snapshot; assumption.
Qed.

Lemma initial_buffer_null_prop (url snapshot : json) (f : buffer) :
  lacks url f -> lacks snapshot f ->
  initial_buffer url snapshot (Some JNull) f = Thrown TypeError.
Proof.
  intros Hu Hs. unfold initial_buffer. rewrite !coalesce_lacking by assumption.
  reflexivity.
Qed.

Lemma initial_buffer_returns (url snapshot : json) (initial : option json) (f : buffer) :
  initial <> Some JNull -> exists x, initial_buffer url snapshot initial f = Returned x.
Proof.
  intros Hi. destruct (supplied_or_not url snapshot f) as [H | [Hu Hs]].
  - apply initial_buffer_supplied, H.
  - destruct initial as [init|].
    + destruct (carries_or_lacks init f) as [[x Hx] | Hl].
      * exists x. apply initial_buffer_prop; assumption.
      * eexists. apply initial_buffer_default; try assumption.
        split; [congruence | exact Hl].
    + eexists. apply initial_buffer_default; try assumption. exact I.
Qed.

(** X7.  The initializers never throw unless the [initial] prop is
    [null]; with [initial = null] they throw a TypeError exactly when
    some buffer is supplied neither by the token nor by the snapshot. *)
Theorem restore_throws_only_on_null_prop (urlCode : option jsstring) (s : Storage)
    (key : jsstring) (initial : option json) :
  (initial <> Some JNull -> exists r, restore urlCode s key initial = Returned r)
  /\ ((exists f, lacks (fromUrl urlCode) f /\ lacks (fromStorage s key) f) ->
      restore urlCode s key (Some JNull) = Thrown TypeError)
  /\ ((forall f, supplied (fromUrl urlCode) (fromStorage s key) f) ->
      exists r, restore urlCode s key (Some JNull) = Returned r).
Proof.
  split; [|split].
  - intros Hi. unfold restore.
    destruct (initial_buffer_returns (fromUrl urlCode) (fromStorage s key) initial
                Html Hi) as [h ->].
    destruct (initial_buffer_returns (fromUrl urlCode) (fromStorage s key) initial
                Css Hi) as [c ->].
    destruct (initial_buffer_returns (fromUrl urlCode) (fromStorage s key) initial
                Js Hi) as [j ->].
    eexists. reflexivity.
  - intros (f & Hu & Hs). unfold restore.
    pose proof (initial_buffer_null_prop _ _ f Hu Hs) as Hf.
    destruct (supplied_or_not (fromUrl urlCode) (fromStorage s key) Html)
      as [Hh | [Hh1 Hh2]].
    + destruct (initial_buffer_supplied _ _ (Some JNull) Html Hh) as [h Eh].
      rewrite Eh.
      destruct (supplied_or_not (fromUrl urlCode) (fromStorage s key) Css)
        as [Hc | [Hc1 Hc2]].
      * destruct (initial_buffer_supplied _ _ (Some JNull) Css Hc) as [c Ec].
        rewrite Ec. destruct f.
        -- rewrite Hf in Eh. discriminate.
        -- rewrite Hf in Ec. discriminate.
        -- rewrite Hf. reflexivity.
      * rewrite (initial_buffer_null_prop _ _ Css Hc1 Hc2). reflexivity.
    + rewrite (initial_buffer_null_prop _ _ Html Hh1 Hh2). reflexivity.
  - intros H. unfold restore.
    destruct (initial_buffer_supplied _ _ (Some JNull) Html (H Html)) as [h ->].
    destruct (initial_buffer_supplied _ _ (Some JNull) Css (H Css)) as [c ->].
    destruct (initial_buffer_supplied _ _ (Some JNull) Js (H Js)) as [j ->].
    eexists. reflexivity.
Qed.

Lemma restore_throws_only_on_null_prop_witness :
  restore (Some token_html_only) snapshot_css_only storageKey (Some JNull)
  = Thrown TypeError.
Proof.
  apply (proj1 (proj2 (restore_throws_only_on_null_prop (Some token_html_only)
                         snapshot_css_only storageKey (Some JNull)))).
  exists Js. split; left; vm_compute; reflexivity.
Defined.

(** * Saving and restoring *)

Lemma setItem_accepted (key value : jsstring) (s : Storage) :
  accepts key value s ->
  setItem key value s
  = Returned {| available := true; quota := quota s;
                items := <[key := value]> (items s) |}.
Proof.
  intros [Ha Hq]. unfold setItem. rewrite Ha.
  rewrite (proj2 (N.leb_le _ _) Hq). reflexivity.
Qed.

Lemma payload_props_code_units (t1 : jsstring) (b : SourceBundle) :
  valid_bundle b -> code_units t1 -> props_code_units (payload_props t1 b).
Proof.
  intros Hb Ht. unfold payload_props, props_code_units.
  apply Forall_app. split; [apply bundle_props_code_units, Hb|].
  apply Forall_cons_2; [|constructor]. split; [apply code_units_lit | exact Ht].
Qed.

Lemma payload_parses (t1 : jsstring) (b : SourceBundle) :
  valid_bundle b -> code_units t1 ->
  JSON_parse (JSON_stringify (payload_props t1 b))
  = Some (JObject [(lit "html", JString (b_html b)); (lit "css", JString (b_css b));
                   (lit "js", JString (b_js b)); (lit "updatedAt", JString t1)]).
Proof.
  intros Hb Ht. rewrite JSON_parse_stringify.
  - reflexivity.
  - apply payload_props_code_units; assumption.
  - discriminate.
Qed.

(** X8.  What a successful save stores is what a later load restores:
    when the storage area accepts the snapshot of a valid bundle, a page
    opened with no token on that storage area starts with the saved
    bundle, and the save sets the last-saved timestamp. *)
Theorem save_then_restore (key t1 t2 : jsstring) (st : Editor) (initial : option json) :
  valid_bundle (bundle st) -> code_units t1 ->
  accepts key (save_payload t1 st) (storage st) ->
  restore None (storage (saveToLocal key t1 t2 st)) key initial
  = Returned (restored (bundle st))
  /\ lastSavedAt (saveToLocal key t1 t2 st) = Some t2.
Proof.
  intros Hb Ht Ha.
  pose proof (setItem_accepted _ _ _ Ha) as Hs.
  destruct (save_success key t1 t2 st _ Hs) as (Hst & Hl & _).
  split; [|exact Hl]. rewrite Hst.
  assert (Hf : fromStorage
                 {| available := true; quota := quota (storage st);
                    items := <[key := save_payload t1 st]> (items (storage st)) |} key
               = JObject [(lit "html", JString (b_html (bundle st)));
                          (lit "css", JString (b_css (bundle st)));
                          (lit "js", JString (b_js (bundle st)));
                          (lit "updatedAt", JString t1)]).
  { unfold fromStorage, getItem. cbn [available items].
    rewrite lookup_insert_eq. unfold save_payload at 1.
    unfold JSON_stringify at 1. fold (JSON_stringify
      (bundle_props (bundle st) ++ [(lit "updatedAt", t1)])).
    fold (payload_props t1 (bundle st)).
    rewrite payload_parses by assumption. reflexivity. }
  apply restore_eq; rewrite Hf; apply initial_buffer_snapshot;
    try apply lacks_null; split; (reflexivity || discriminate).
Qed.

Lemma code_units_forallb (s : jsstring) :
  forallb (fun c => c <? 65536) s = true -> code_units s.
Proof.
  intros H. unfold code_units. apply Forall_forall. intros c Hc.
  rewrite forallb_forall in H. apply N.ltb_lt, H, list_elem_of_In, Hc.
Qed.

Lemma valid_DEFAULT_TEMPLATE : valid_bundle DEFAULT_TEMPLATE.
Proof. repeat split; apply code_units_forallb; vm_compute; reflexivity. Qed.

Lemma save_then_restore_witness :
  restore None
    (storage (saveToLocal storageKey (lit "2024-01-01T00:00:00.000Z")
                (lit "2024-01-01T00:00:00.001Z") saving_start))
    storageKey None
  = Returned (restored (bundle saving_start)).
Proof.
  apply (save_then_restore storageKey (lit "2024-01-01T00:00:00.000Z")
           (lit "2024-01-01T00:00:00.001Z") saving_start None).
  - exact valid_DEFAULT_TEMPLATE.
  - apply code_units_lit.
  - split; [reflexivity|]. vm_compute. discriminate.
Defined.

(** * Further properties of the preview machine *)

(** A render of the component that changed neither the bundle nor the
    mode leaves the frame and the pending timeout alone. *)
Lemma rerender_same_deps (old new : Editor) :
  attr_in_step old ->
  bundle new = bundle old -> autoUpdate new = autoUpdate old ->
  srcdoc_attr new = srcdoc_attr old ->
  rerender old new = new.
Proof.
  intros Ha Hb Hm Hs. unfold attr_in_step, srcdoc_prop in Ha.
  unfold rerender, commit_frame, srcdoc_prop. rewrite Hb, Hm, Hs, Ha.
  assert (E : same_prop (if autoUpdate old then None else Some (srcDoc (bundle old)))
                (if autoUpdate old then None else Some (srcDoc (bundle old))) = true).
  { destruct (autoUpdate old); cbn [same_prop]; [reflexivity | apply string_eqb_refl]. }
  rewrite E. unfold run_effect. rewrite Hb, Hm, string_eqb_refl.
  destruct (autoUpdate old); reflexivity.
Qed.

(** X9.  Switching the layout or the active editor, saving and
    downloading never touch the preview: from a state the component can
    be in, they leave the bundle, the mode, the rendered documents and
    the pending debounced write as they are. *)
Theorem passive_events_leave_preview (e : event) (st : Editor) :
  well_formed st -> passive e ->
  bundle (step e st) = bundle st /\ autoUpdate (step e st) = autoUpdate st
  /\ renders (step e st) = renders st /\ debounce (step e st) = debounce st
  /\ srcdoc_attr (step e st) = srcdoc_attr st.
Proof.
  intros [_ Ha] Hp. destruct e; try destruct Hp; cbn [step].
  - unfold saveToLocal. destruct (setItem _ _ _); [|repeat split].
    rewrite rerender_same_deps by (exact Ha || reflexivity). repeat split.
  - repeat split.
  - unfold setLayout. rewrite rerender_same_deps by (exact Ha || reflexivity).
    repeat split.
  - unfold setActiveEditor. rewrite rerender_same_deps by (exact Ha || reflexivity).
    repeat split.
Qed.

Lemma well_formed_mounted (b : SourceBundle) (u : bool) (s : Storage) (now : N) :
  well_formed (mounted b u s now).
Proof. split; reflexivity. Qed.

Lemma passive_events_leave_preview_witness :
  renders (step (Tab Css) typing_start) = renders typing_start
  /\ debounce (step (Tab Css) typing_start) = debounce typing_start.
Proof.
  destruct (passive_events_leave_preview (Tab Css) typing_start
              (well_formed_mounted _ _ _ _) I) as (_ & _ & Hr & Hd & _).
  split; assumption.
Defined.

(** X10.  The Auto button.  Leaving automatic mode cancels the pending
    debounced write and loads the current document into the frame at
    once; entering it removes the frame's content and schedules a write
    of the current document 300ms later. *)
Theorem toggleAuto_effects (st : Editor) :
  well_formed st ->
  autoUpdate (toggleAuto st) = negb (autoUpdate st)
  /\ bundle (toggleAuto st) = bundle st
  /\ (autoUpdate st = true ->
      renders (toggleAuto st) = renders st ++ [SrcdocLoad (srcDoc (bundle st))]
      /\ debounce (toggleAuto st) = None)
  /\ (autoUpdate st = false ->
      renders (toggleAuto st) = renders st ++ [BlankLoad]
      /\ debounce (toggleAuto st) = Some (clock st + 300, srcDoc (bundle st))).
Proof.
  intros [_ Ha]. unfold attr_in_step, srcdoc_prop in Ha.
  unfold toggleAuto, rerender, commit_frame, run_effect, srcdoc_prop.
  destruct st as [b l a auto saved deb mr attr sf ck sto con rs dl].
  cbn in Ha. subst attr. destruct auto; cbn; rewrite string_eqb_refl; cbn.
  - repeat split; discriminate.
  - repeat split; discriminate.
Qed.

Lemma toggleAuto_effects_witness :
  renders (toggleAuto typing_start)
  = renders typing_start ++ [SrcdocLoad (srcDoc (bundle typing_start))]
  /\ debounce (toggleAuto typing_start) = None.
Proof.
  exact (proj1 (proj2 (proj2 (toggleAuto_effects typing_start
                                (well_formed_mounted _ _ _ _)))) eq_refl).
Defined.

Lemma set_get_buffer (f : buffer) (b : SourceBundle) : set_buffer f (get_buffer f b) b = b.
Proof. destruct f, b; reflexivity. Qed.

Lemma with_state_same (st : Editor) :
  with_state st (bundle st) (layout st) (activeEditor st) (autoUpdate st)
    (lastSavedAt st) = st.
Proof. destruct st; reflexivity. Qed.

(** X11.  An editor change that reports the text the buffer already
    holds changes nothing: no render, and the pending debounced write
    keeps its deadline. *)
Theorem unchanged_edit_is_noop (v : option jsstring) (st : Editor) :
  well_formed st ->
  default [] v = get_buffer (activeEditor st) (bundle st) ->
  onChange v st = st.
Proof.
  intros [_ Ha] Hv. unfold onChange, set_bundle.
  rewrite Hv, set_get_buffer, with_state_same.
  apply rerender_same_deps; (exact Ha || reflexivity).
Qed.

Lemma unchanged_edit_is_noop_witness :
  onChange (Some DEFAULT_html) typing_start = typing_start.
Proof.
  exact (unchanged_edit_is_noop (Some DEFAULT_html) typing_start
           (well_formed_mounted _ _ _ _) eq_refl).
Defined.

Lemma TEMPLATES_unknown (name : jsstring) :
  name <> lit "default" -> name <> lit "starter" -> name <> lit "reactPlay" ->
  TEMPLATES name = None.
Proof.
  intros H1 H2 H3. unfold TEMPLATES.
  rewrite !string_eqb_neq by assumption. reflexivity.
Qed.

Lemma inherited_In (name : jsstring) :
  existsb (string_eqb name) Object_prototype = true <-> In name Object_prototype.
Proof.
  rewrite existsb_exists. split.
  - intros (x & Hx & E). apply string_eqb_eq in E. subst x. exact Hx.
  - intros H. exists name. split; [exact H | apply string_eqb_refl].
Qed.

(** X12.  [applyTemplate] with a name that is none of the three presets.
    When the name is no member of [Object.prototype] either (the
    selector's placeholder has the empty name), the whole state is left
    as it is.  When it is one ([constructor], [toString], ...), the
    lookup of line 178 finds the inherited member, the test of line 179
    lets it pass, and the three buffers are set to [undefined].  The four
    options of the selector never do that, and its placeholder changes
    nothing. *)
Theorem applyTemplate_unknown_name (name : jsstring) (st : Editor) :
  name <> lit "default" -> name <> lit "starter" -> name <> lit "reactPlay" ->
  (~ In name Object_prototype -> applyTemplate name st = NextState st)
  /\ (In name Object_prototype -> applyTemplate name st = UndefinedBuffers)
  /\ (forall o, applyTemplate (option_value o) st = NextState (selectTemplate o st))
  /\ selectTemplate ApplyTemplateOption st = st.
Proof.
  intros H1 H2 H3.
  assert (E : TEMPLATES_get name
              = if existsb (string_eqb name) Object_prototype then Inherited
                else NoEntry).
  { unfold TEMPLATES_get. rewrite TEMPLATES_unknown by assumption. reflexivity. }
  unfold applyTemplate. rewrite E. split; [|split; [|split]].
  - intros Hn. destruct (existsb _ _) eqn:Ex; [|reflexivity].
    apply inherited_In in Ex. contradiction.
  - intros Hi. apply inherited_In in Hi. rewrite Hi. reflexivity.
  - intros o. unfold selectTemplate, applyTemplate.
    destruct (TEMPLATES_get (option_value o)) eqn:Eo; try reflexivity.
    destruct o; vm_compute in Eo; discriminate Eo.
  - rewrite selectTemplate_eq. reflexivity.
Qed.

Lemma applyTemplate_unknown_name_witness :
  applyTemplate (lit "toString") typing_start = UndefinedBuffers
  /\ applyTemplate [] typing_start = NextState typing_start.
Proof.
  split.
  - apply (proj1 (proj2 (applyTemplate_unknown_name (lit "toString") typing_start
                           ltac:(discriminate) ltac:(discriminate)
                           ltac:(discriminate)))).
    do 5 right. left. reflexivity.
  - apply (proj1 (applyTemplate_unknown_name [] typing_start
                    ltac:(discriminate) ltac:(discriminate) ltac:(discriminate))).
    intros H. vm_compute in H. intuition discriminate.
Defined.

(** ** The pending debounced write *)

Lemma commit_frame_fields (st : Editor) :
  bundle (commit_frame st) = bundle st /\ autoUpdate (commit_frame st) = autoUpdate st
  /\ debounce (commit_frame st) = debounce st /\ clock (commit_frame st) = clock st.
Proof. unfold commit_frame. destruct (same_prop _ _); repeat split. Qed.

Lemma rerender_timer_fresh (old new : Editor) :
  timer_fresh old -> debounce new = debounce old -> clock new = clock old ->
  timer_fresh (rerender old new).
Proof.
  intros Hold Hd Hc. unfold rerender, run_effect.
  destruct (commit_frame_fields new) as (Eb & Ea & Ed & Ec).
  rewrite Eb, Ea, Ec.
  destruct (string_eqb (srcDoc (bundle new)) (srcDoc (bundle old))
            && Bool.eqb (autoUpdate new) (autoUpdate old)) eqn:E.
  - apply andb_true_iff in E. destruct E as [E1 E2].
    apply string_eqb_eq in E1. apply Bool.eqb_prop in E2.
    intros t d H. rewrite Ed, Hd in H. destruct (Hold t d H) as (H1 & H2 & H3).
    rewrite Eb, Ea, Ec, E1, E2, Hc. auto.
  - intros t d. cbn [with_timers debounce autoUpdate bundle clock].
    rewrite Eb, Ea, Ec. destruct (autoUpdate new); [|discriminate].
    intros H. injection H as <- <-. repeat split; lia.
Qed.

Lemma step_timer_fresh (e : event) (st : Editor) :
  timer_fresh st -> timer_fresh (step e st).
Proof.
  intros H. destruct e; cbn [step].
  - unfold onChange, set_bundle. apply rerender_timer_fresh; [exact H | reflexivity ..].
  - destruct (selectTemplate_cases o st) as [-> | [t ->]]; [exact H|].
    unfold set_bundle. apply rerender_timer_fresh; [exact H | reflexivity ..].
  - unfold clearAll, set_bundle. apply rerender_timer_fresh; [exact H | reflexivity ..].
  - unfold toggleAuto. apply rerender_timer_fresh; [exact H | reflexivity ..].
  - unfold refreshPreview, write_doc. destruct (surface st); exact H.
  - unfold saveToLocal. destruct (setItem _ _ _); [|exact H].
    apply rerender_timer_fresh; [exact H | reflexivity ..].
  - exact H.
  - unfold setLayout. apply rerender_timer_fresh; [exact H | reflexivity ..].
  - unfold setActiveEditor. apply rerender_timer_fresh; [exact H | reflexivity ..].
  - destruct (advance_fields dt st) as (Eb & Ea & Ed & Ec).
    intros t d Ht. rewrite Ed in Ht. apply pending_some in Ht.
    destruct Ht as [Ht Hlt]. destruct (H t d Ht) as (H1 & H2 & H3).
    rewrite Eb, Ea, Ec. repeat split; try assumption; lia.
Qed.

Lemma reachable_fresh (st : Editor) : reachable st -> timer_fresh st.
Proof.
  intros (b & u & s & now & es & ->).
  assert (H : forall es st, timer_fresh st -> timer_fresh (run es st)).
  { clear. induction es as [|e es IH]; intros st Hw; [exact Hw|].
    rewrite run_cons. apply IH, step_timer_fresh, Hw. }
  apply H. intros t d Hd. cbn in Hd. injection Hd as <- <-.
  cbn. repeat split; lia.
Qed.

(** X13.  In every state the component reaches, a pending debounced
    write exists only in automatic mode, holds the document of the
    current bundle (never an older one) and is due within the next
    300ms; the frame's attribute agrees with the mode. *)
Theorem reachable_timer_fresh (st : Editor) :
  reachable st -> timer_fresh st /\ well_formed st.
Proof.
  intros Hr. split; [apply reachable_fresh, Hr | apply reachable_well_formed, Hr].
Qed.

Lemma reachable_timer_fresh_witness : timer_fresh typing_start.
Proof.
  apply (reachable_timer_fresh typing_start).
  exists DEFAULT_TEMPLATE, false, (empty_storage 0), 0, []. reflexivity.
Defined.

(** X14.  Pressing Refresh while a debounced write is pending does not
    cancel it.  In a state the component reaches with a write pending,
    the document of the current bundle is written at once, the write
    stays pending for the same time, and once that time has come,
    however the wait is cut, that same document has been written again;
    only the mount refresh of a page opened from a share token, if it is
    still to run, comes in between. *)
Theorem refresh_does_not_cancel (t : N) (doc : jsstring) (ws : list N) (st : Editor) :
  reachable st -> debounce st = Some (t, doc) ->
  let pressed := step Refresh st in
  doc = srcDoc (bundle st)
  /\ renders pressed = renders st ++ [RefreshWrite (srcDoc (bundle st))]
  /\ debounce pressed = Some (t, doc)
  /\ (clock st + elapsed ws < t ->
      renders (run (map Wait ws) pressed) ++ mount_write (run (map Wait ws) pressed)
      = renders st ++ [RefreshWrite (srcDoc (bundle st))] ++ mount_write st)
  /\ (t <= clock st + elapsed ws ->
      renders (run (map Wait ws) pressed)
      = renders st ++ [RefreshWrite (srcDoc (bundle st))] ++ mount_write st
        ++ [TimerWrite (srcDoc (bundle st))]).
Proof.
  intros Hr Hd pressed.
  pose proof (reachable_fresh st Hr) as Hfresh.
  destruct (reachable_well_formed st Hr) as [Hf _].
  pose proof (reachable_refresh_first st Hr) as Hrf.
  destruct (Hfresh t doc Hd) as (_ & Hdoc & Hlt & _).
  assert (Ep : pressed = with_renders st (renders st ++ [RefreshWrite (srcDoc (bundle st))])).
  { unfold pressed. cbn [step]. unfold refreshPreview, write_doc. rewrite Hf. reflexivity. }
  assert (Hp : pending_write t doc
                 (renders st ++ [RefreshWrite (srcDoc (bundle st))] ++ mount_write st)
                 pressed).
  { rewrite Ep. unfold pending_write, mount_write. cbn.
    repeat split; try assumption.
    - intros m d Hm. exact (proj2 (Hrf m d Hm) t doc Hd).
    - rewrite <- app_assoc. reflexivity. }
  destruct (waits_pending_write ws t doc _ pressed Hp) as [W1 W2].
  assert (Ec : clock pressed = clock st) by (rewrite Ep; reflexivity).
  rewrite Ec in W1, W2.
  split; [exact Hdoc|]. split; [rewrite Ep; reflexivity|].
  split; [rewrite Ep; exact Hd|]. split.
  - intros Hw. destruct (W1 Hw) as (_ & _ & _ & _ & H). exact H.
  - intros Hw. destruct (W2 Hw) as (E & _). rewrite E, Hdoc, <- !app_assoc.
    reflexivity.
Qed.

Lemma refresh_does_not_cancel_witness :
  renders (run (map Wait [120; 170]) (step Refresh (advance 10 share_page)))
  = renders (advance 10 share_page)
    ++ [RefreshWrite (srcDoc (bundle (advance 10 share_page)))]
    ++ mount_write (advance 10 share_page)
    ++ [TimerWrite (srcDoc (bundle (advance 10 share_page)))].
Proof.
  assert (Hr : reachable (advance 10 share_page)).
  { exists DEFAULT_TEMPLATE, true, (empty_storage 0), 0, [Wait 10]. reflexivity. }
  assert (Hw : 300 <= clock (advance 10 share_page) + elapsed [120; 170])
    by discriminate.
  exact (proj2 (proj2 (proj2 (proj2
    (refresh_does_not_cancel 300 (srcDoc DEFAULT_TEMPLATE) [120; 170]
       (advance 10 share_page) Hr eq_refl)))) Hw).
Defined.

(** ** The first renders after the mount *)

(** X15.  After the mount nothing is shown for 300ms, then the debounced
    effect writes the initial document once; a page opened from a share
    token is also written by the mount refresh 50ms after the mount, so
    it is written twice. *)
Theorem first_renders (b : SourceBundle) (from_url : bool) (s : Storage) (now d : N) :
  renders (advance d (mounted b from_url s now))
  = (if from_url && (50 <=? d) then [RefreshWrite (srcDoc b)] else [])
    ++ (if 300 <=? d then [TimerWrite (srcDoc b)] else []).
Proof.
  unfold advance, mounted, write_doc, due.
  cbn [mount_refresh debounce clock surface renders].
  assert (E1 : (now + 300 <=? now + d) = (300 <=? d)).
  { destruct (300 <=? d) eqn:E; bool_arith; bool_goal; lia. }
  assert (E2 : (now + 50 <=? now + d) = (50 <=? d)).
  { destruct (50 <=? d) eqn:E; bool_arith; bool_goal; lia. }
  rewrite E1. destruct from_url; cbn [andb]; [rewrite E2|];
    destruct (300 <=? d); try destruct (50 <=? d); reflexivity.
Qed.

(** X16.  The mount refresh writes the document of the first render even
    when a buffer was edited before it runs: an edit within the first
    50ms of a page opened from a share token is followed by a write of
    the document as it was before the edit. *)
Theorem mount_refresh_is_stale (b : SourceBundle) (s : Storage) (now gap d : N)
    (v : option jsstring) :
  gap < 50 -> 50 <= gap + d -> d < 300 ->
  default [] v <> b_html b ->
  let final := advance d (onChange v (advance gap (mounted b true s now))) in
  renders final = [RefreshWrite (srcDoc b)]
  /\ bundle final = set_buffer Html (default [] v) b
  /\ srcDoc (bundle final) <> srcDoc b.
Proof.
  intros Hg Hd Hd' Hv final.
  set (st1 := advance gap (mounted b true s now)).
  assert (H1 : st1 = {| bundle := b; layout := SideBySide; activeEditor := Html;
                        autoUpdate := true; lastSavedAt := None;
                        debounce := Some (now + 300, srcDoc b);
                        mount_refresh := Some (now + 50, srcDoc b);
                        srcdoc_attr := None; surface := true; clock := now + gap;
                        storage := s; console := []; renders := []; downloads := [] |}).
  { unfold st1, advance, mounted, pending, due.
    cbn [mount_refresh debounce clock surface renders].
    rewrite (proj2 (N.leb_gt (now + 50) (now + gap))) by lia.
    rewrite (proj2 (N.leb_gt (now + 300) (now + gap))) by lia. reflexivity. }
  assert (H2 : onChange v st1
               = with_timers
                   (with_state st1 (set_buffer Html (default [] v) b) SideBySide Html
                      true None)
                   (Some (now + gap + 300, srcDoc (set_buffer Html (default [] v) b)))
                   (Some (now + 50, srcDoc b))).
  { rewrite onChange_auto; rewrite H1; try reflexivity. exact Hv. }
  unfold final. fold st1. rewrite H2, H1.
  unfold advance, pending, due, write_doc.
  cbn [with_timers with_state mount_refresh debounce clock surface renders bundle].
  rewrite (proj2 (N.leb_le (now + 50) (now + gap + d))) by lia.
  rewrite (proj2 (N.leb_gt (now + gap + 300) (now + gap + d))) by lia.
  cbn. repeat split.
  intros H. apply (srcDoc_set_buffer Html) in H. exact (Hv H).
Qed.

Lemma mount_refresh_is_stale_witness :
  renders (advance 40 (onChange typing_first
             (advance 10 (mounted DEFAULT_TEMPLATE true (empty_storage 0) 0))))
  = [RefreshWrite (srcDoc DEFAULT_TEMPLATE)].
Proof.
  assert (H1 : 10 < 50) by reflexivity.
  assert (H2 : 50 <= 10 + 40) by discriminate.
  assert (H3 : 40 < 300) by reflexivity.
  assert (H4 : default [] typing_first <> b_html DEFAULT_TEMPLATE) by differ.
  exact (proj1 (mount_refresh_is_stale DEFAULT_TEMPLATE (empty_storage 0) 0 10 40
                  typing_first H1 H2 H3 H4)).
Defined.

(** * Further properties of the composer *)

(** X17.  The composed document changes exactly when the edited buffer
    does, and it is 470 code units longer than the three buffers
    together. *)
Theorem srcDoc_follows_buffer (f : buffer) (v : jsstring) (b : SourceBundle) :
  (srcDoc (set_buffer f v b) = srcDoc b <-> v = get_buffer f b)
  /\ length (srcDoc b)
     = (470 + length (b_css b) + length (b_html b) + length (b_js b))%nat.
Proof.
  split; [split|].
  - apply srcDoc_set_buffer.
  - intros ->. rewrite set_get_buffer. reflexivity.
  - rewrite srcDoc_parts, !length_app.
    change (length part_a) with 143%nat. change (length part_b) with 32%nat.
    change (length part_c) with 34%nat. change (length part_d) with 261%nat.
    lia.
Qed.

(** X18.  The composer does not keep the buffers apart: text of the
    markup buffer may stand at the end of the style buffer, behind the
    fixed text that separates the two, and the document is the same. *)
Theorem srcDoc_does_not_delimit (c h h' j : jsstring) :
  srcDoc {| b_html := h'; b_css := c ++ part_b ++ h; b_js := j |}
  = srcDoc {| b_html := h ++ part_b ++ h'; b_css := c; b_js := j |}.
Proof.
  rewrite !srcDoc_parts. cbn [b_html b_css b_js].
  rewrite <- !app_assoc. reflexivity.
Qed.

(** * Further properties of the share address *)

Lemma filter_named_removed (name : jsstring) (ps : list (jsstring * jsstring)) :
  List.filter (named name)
    (List.filter (fun kv => negb (string_eqb kv.1 name)) ps) = [].
Proof.
  unfold named. induction ps as [|[k v] ps IH]; [reflexivity|].
  cbn [List.filter fst]. destruct (string_eqb k name) eqn:E; cbn [negb]; [exact IH|].
  cbn [List.filter fst]. rewrite E. exact IH.
Qed.

Lemma filter_others_removed (name : jsstring) (ps : list (jsstring * jsstring)) :
  List.filter (fun kv => negb (named name kv))
    (List.filter (fun kv => negb (string_eqb kv.1 name)) ps)
  = List.filter (fun kv => negb (named name kv)) ps.
Proof.
  unfold named. induction ps as [|[k v] ps IH]; [reflexivity|].
  cbn [List.filter fst]. destruct (string_eqb k name) eqn:E; cbn [negb]; [exact IH|].
  cbn [List.filter fst]. rewrite E. cbn [negb]. rewrite IH. reflexivity.
Qed.

Lemma set_param_named (name value : jsstring) (ps : list (jsstring * jsstring)) :
  List.filter (named name) (set_param name value ps) = [(name, value)].
Proof.
  induction ps as [|[k v] ps IH]; cbn [set_param].
  - unfold named. cbn [List.filter fst]. rewrite string_eqb_refl. reflexivity.
  - destruct (string_eqb k name) eqn:E.
    + pose proof (filter_named_removed name ps) as H.
      unfold named in *. cbn [List.filter fst]. rewrite string_eqb_refl, H.
      reflexivity.
    + unfold named in *. cbn [List.filter fst]. rewrite E. exact IH.
Qed.

Lemma set_param_others (name value : jsstring) (ps : list (jsstring * jsstring)) :
  List.filter (fun kv => negb (named name kv)) (set_param name value ps)
  = List.filter (fun kv => negb (named name kv)) ps.
Proof.
  induction ps as [|[k v] ps IH]; cbn [set_param].
  - unfold named. cbn [List.filter fst]. rewrite string_eqb_refl. reflexivity.
  - destruct (string_eqb k name) eqn:E.
    + pose proof (filter_others_removed name ps) as H.
      unfold named in *. cbn [List.filter fst].
      rewrite string_eqb_refl, E. cbn [negb]. exact H.
    + unfold named in *. cbn [List.filter fst]. rewrite E. cbn [negb].
      rewrite IH. reflexivity.
Qed.

(** X19.  The share address carries exactly one [code] parameter, the
    token of the current bundle, also when the page's own address
    already has one or several; the other parameters, the text before
    the query and the fragment are kept. *)
Theorem share_address_has_one_code (location : Location) (st : Editor) :
  exists ps,
    generateShareURL location st
    = href {| loc_base := loc_base location; loc_params := ps;
              loc_fragment := loc_fragment location |}
    /\ List.filter (named (lit "code")) ps
       = [(lit "code", encodeState (bundle st))]
    /\ List.filter (fun kv => negb (named (lit "code") kv)) ps
       = List.filter (fun kv => negb (named (lit "code") kv)) (loc_params location).
Proof.
  exists (set_param (lit "code") (encodeState (bundle st)) (loc_params location)).
  split; [reflexivity|]. split; [apply set_param_named | apply set_param_others].
Qed.

(** * Templates and Clear in automatic mode *)

Lemma set_bundle_auto (t : SourceBundle) (st : Editor) :
  reachable st -> autoUpdate st = true -> srcDoc t <> srcDoc (bundle st) ->
  typing (renders st ++ mount_write st) (set_bundle st t)
  /\ bundle (set_bundle st t) = t /\ renders (set_bundle st t) = renders st
  /\ clock (set_bundle st t) = clock st.
Proof.
  intros Hr Ha Hn.
  destruct (reachable_well_formed st Hr) as [Hf Hs].
  pose proof (reachable_refresh_first st Hr) as Hrf.
  assert (Hattr : srcdoc_attr st = None).
  { unfold attr_in_step, srcdoc_prop in Hs. rewrite Ha in Hs. exact Hs. }
  unfold set_bundle, rerender. rewrite commit_frame_auto by assumption.
  unfold run_effect. cbn [with_state bundle autoUpdate clock mount_refresh].
  rewrite string_eqb_neq by exact Hn. rewrite Ha.
  unfold typing, pending_write, mount_write. cbn.
  repeat split; try assumption; try lia.
  - intros m d H. exact (proj1 (Hrf m d H)).
  - intros m d H. pose proof (proj1 (Hrf m d H)). lia.
Qed.

(** After [set_bundle] in automatic mode with a new document: nothing
    at once, and one debounced write of that document after 300ms. *)
Lemma set_bundle_renders_once (t : SourceBundle) (ws : list N) (st : Editor) :
  reachable st -> autoUpdate st = true -> srcDoc t <> srcDoc (bundle st) ->
  renders (set_bundle st t) = renders st
  /\ (300 <= elapsed ws ->
      renders (run (map Wait ws) (set_bundle st t))
      = renders st ++ mount_write st ++ [TimerWrite (srcDoc t)]).
Proof.
  intros Hr Ha Hn.
  destruct (set_bundle_auto t st Hr Ha Hn) as ((_ & _ & _ & Hp) & Hb & Hrs & Hc).
  split; [exact Hrs|]. intros Hw.
  destruct (waits_pending_write ws _ _ _ _ Hp) as [_ W2].
  destruct W2 as (E & _); [lia|]. rewrite E, Hb, <- app_assoc. reflexivity.
Qed.

(** X20.  In automatic mode, in a state the component reaches, a
    template or the Clear button that changes the composed document is
    rendered like an edit: nothing at once, and once 300ms have passed
    the new document has been written once by the debounced effect; only
    the mount refresh of a page opened from a share token, if it is
    still to run, is written before it. *)
Theorem template_renders_once (name : jsstring) (t : SourceBundle) (ws : list N)
    (st : Editor) :
  reachable st -> autoUpdate st = true -> 300 <= elapsed ws ->
  (TEMPLATES name = Some t -> srcDoc t <> srcDoc (bundle st) ->
   exists st', applyTemplate name st = NextState st'
     /\ renders st' = renders st
     /\ renders (run (map Wait ws) st')
        = renders st ++ mount_write st ++ [TimerWrite (srcDoc t)])
  /\ (srcDoc {| b_html := []; b_css := []; b_js := [] |} <> srcDoc (bundle st) ->
      renders (clearAll st) = renders st
      /\ renders (run (map Wait ws) (clearAll st))
         = renders st ++ mount_write st
           ++ [TimerWrite (srcDoc {| b_html := []; b_css := []; b_js := [] |})]).
Proof.
  intros Hr Ha Hw. split.
  - intros Ht Hn. exists (set_bundle st t).
    destruct (set_bundle_renders_once t ws st Hr Ha Hn) as [H1 H2].
    split; [unfold applyTemplate, TEMPLATES_get; rewrite Ht; reflexivity|].
    split; [exact H1 | exact (H2 Hw)].
  - intros Hn. unfold clearAll.
    destruct (set_bundle_renders_once _ ws st Hr Ha Hn) as [H1 H2].
    split; [exact H1 | exact (H2 Hw)].
Qed.

Lemma starter_changes_document : srcDoc starter <> srcDoc (bundle share_page).
Proof. differ. Qed.

Lemma template_renders_once_witness :
  exists st', applyTemplate (lit "starter") share_page = NextState st'
    /\ renders st' = renders share_page
    /\ renders (run (map Wait [300]) st')
       = renders share_page ++ mount_write share_page ++ [TimerWrite (srcDoc starter)].
Proof.
  assert (Hd : 300 <= elapsed [300]) by discriminate.
  exact (proj1 (template_renders_once (lit "starter") starter [300] share_page
                  (reachable_mounted _ _ _ _) eq_refl Hd)
           eq_refl starter_changes_document).
Defined.
